(** * MARI: report drafting and slide-deck export pipeline

    A shallow embedding of the orchestration code of the MARI web client:

    - [utils/fileHelper.ts]  (file normalisation, [convertExcelToText]),
    - [services/gemini.ts]   (prompt composition, draft and suggestion calls),
    - [services/gamma.ts]    (theme catalog, export submission, status polling),
    - [components/ReportGenerator.tsx] (the [handleSubmitDraft] handler).

    Conventions.  A JavaScript string is modelled by [string], read as the
    UTF-8 encoding of the text.  [toLowerCase] is modelled on the ASCII
    range: it is only followed by searches for ASCII needles, none of whose
    letters is the lower case of a non-ASCII character.  The [trim] of the
    spreadsheet text, which opens and closes with a marker line, removes
    ASCII white space ([JsString.trim]); the [trim] of a suggestion, which
    is whatever the model answered, removes all the white space of the
    language ([WhiteSpace.trim]).  The double quote removed from
    suggestions is ASCII.  A promise is modelled by the value
    it settles to ([Settled]) and, where the order of settlement matters, by
    the instant at which it does; external services are interfaces (type
    classes) whose replies are arbitrary; console output is not modelled. *)

From Stdlib Require Import ZArith QArith List String Ascii Lia Bool.
From stdpp Require Import base option list gmap strings pretty.

Local Open Scope Z_scope.
Local Open Scope nat_scope.

(* ================================================================== *)
(** ** JavaScript strings *)
(* ================================================================== *)

Module JsString.

(** The line feed written [\n] in the source, and the double quote. *)
Definition LF : string := String "010"%char "".
Definition DQ : string := String "034"%char "".

(** White space and line terminators removed by [String.prototype.trim]
    (the code points below U+0080: TAB, LF, VT, FF, CR, SP). *)
Definition isWhiteSpace (c : ascii) : bool :=
  let n := nat_of_ascii c in
  ((9 <=? n) && (n <=? 13)) || (n =? 32).

Definition toLowerCaseChar (c : ascii) : ascii :=
  let n := nat_of_ascii c in
  if (65 <=? n) && (n <=? 90) then ascii_of_nat (n + 32) else c.

Fixpoint toLowerCase (s : string) : string :=
  match s with
  | EmptyString => EmptyString
  | String c s' => String (toLowerCaseChar c) (toLowerCase s')
  end.

Definition startsWith (s search : string) : bool := String.prefix search s.

Fixpoint includes (s search : string) : bool :=
  String.prefix search s ||
  match s with
  | EmptyString => false
  | String _ s' => includes s' search
  end.

Definition endsWith (s search : string) : bool :=
  let n := String.length s in
  let k := String.length search in
  (k <=? n) && String.eqb (String.substring (n - k) k s) search.

Fixpoint trimStart (s : string) : string :=
  match s with
  | EmptyString => EmptyString
  | String c s' => if isWhiteSpace c then trimStart s' else s
  end.

Fixpoint trimEnd (s : string) : string :=
  match s with
  | EmptyString => EmptyString
  | String c s' =>
      match trimEnd s' with
      | EmptyString => if isWhiteSpace c then EmptyString else String c EmptyString
      | t => String c t
      end
  end.

Definition trim (s : string) : string := trimEnd (trimStart s).

(** [s.replace(/c/g, '')] for a single character [c]. *)
Fixpoint removeAll (c : ascii) (s : string) : string :=
  match s with
  | EmptyString => EmptyString
  | String d s' => if Ascii.eqb c d then removeAll c s' else String d (removeAll c s')
  end.

(** [s.split(c)] for a single-character separator. *)
Fixpoint split (c : ascii) (s : string) : list string :=
  match s with
  | EmptyString => [EmptyString]
  | String d s' =>
      match split c s' with
      | [] => [EmptyString]
      | field :: fields =>
          if Ascii.eqb c d then EmptyString :: field :: fields
          else String d field :: fields
      end
  end.

(** [parts.join(sep)]. *)
Fixpoint join (sep : string) (parts : list string) : string :=
  match parts with
  | [] => EmptyString
  | [p] => p
  | p :: rest => p +:+ sep +:+ join sep rest
  end.

(** Truthiness of a possibly-undefined string: [undefined], [null] and the
    empty string are falsy. *)
Definition truthy (v : option string) : bool :=
  match v with
  | Some s => negb (String.eqb s EmptyString)
  | None => false
  end.

(** [v || fallback] on a possibly-undefined string. *)
Definition orElse (v : option string) (fallback : string) : string :=
  match v with
  | Some s => if String.eqb s EmptyString then fallback else s
  | None => fallback
  end.

End JsString.

(* ================================================================== *)
(** ** White space, in full *)
(* ================================================================== *)

Module WhiteSpace.

Import JsString.

Definition isByte (n : nat) (c : ascii) : bool := nat_of_ascii c =? n.

(** The length in bytes of the white space or line terminator that opens
    the UTF-8 text ([\s] of a regular expression, and what [trim]
    removes): TAB, LF, VT, FF, CR, SP, U+00A0, U+1680, U+2000 to U+200A,
    U+2028, U+2029, U+202F, U+205F, U+3000, U+FEFF; [0] when the text opens
    with something else. *)
Definition whiteSpaceAt (s : string) : nat :=
  match s with
  | EmptyString => 0
  | String c rest =>
      if isWhiteSpace c then 1
      else
        match rest with
        | EmptyString => 0
        | String d rest' =>
            if isByte 194 c && isByte 160 d then 2
            else
              match rest' with
              | EmptyString => 0
              | String e _ =>
                  if isByte 225 c && isByte 154 d && isByte 128 e then 3
                  else if isByte 226 c && isByte 128 d &&
                          (((128 <=? nat_of_ascii e) && (nat_of_ascii e <=? 138)) ||
                           isByte 168 e || isByte 169 e || isByte 175 e) then 3
                  else if isByte 226 c && isByte 129 d && isByte 159 e then 3
                  else if isByte 227 c && isByte 128 d && isByte 128 e then 3
                  else if isByte 239 c && isByte 187 d && isByte 191 e then 3
                  else 0
              end
        end
  end.

(** The text holds white space only: [!s.trim()]; [skip] bytes of a
    character already recognised remain to be passed. *)
Fixpoint onlyWhiteSpace (skip : nat) (s : string) : bool :=
  match s with
  | EmptyString => true
  | String _ rest =>
      match skip with
      | S k => onlyWhiteSpace k rest
      | O =>
          match whiteSpaceAt s with
          | O => false
          | S k => onlyWhiteSpace k rest
          end
      end
  end.

Definition isBlank (s : string) : bool := onlyWhiteSpace 0 s.

(** [s.replace(/\s/g, '_')]. *)
Fixpoint replaceWhiteSpace (skip : nat) (s : string) : string :=
  match s with
  | EmptyString => EmptyString
  | String c rest =>
      match skip with
      | S k => replaceWhiteSpace k rest
      | O =>
          match whiteSpaceAt s with
          | O => String c (replaceWhiteSpace 0 rest)
          | S k => String "_"%char (replaceWhiteSpace k rest)
          end
      end
  end.

(** [s.trimStart()]. *)
Fixpoint trimStart (skip : nat) (s : string) : string :=
  match s with
  | EmptyString => EmptyString
  | String _ rest =>
      match skip with
      | S k => trimStart k rest
      | O =>
          match whiteSpaceAt s with
          | O => s
          | S k => trimStart k rest
          end
      end
  end.

(** [s.trimEnd()]: the text is cut where only white space follows.  In
    well-formed UTF-8 no white space opens inside a character, so the test
    fails at every byte that is not the first of its character. *)
Fixpoint trimEnd (s : string) : string :=
  match s with
  | EmptyString => EmptyString
  | String c rest => if onlyWhiteSpace 0 s then EmptyString else String c (trimEnd rest)
  end.

(** [s.trim()]. *)
Definition trim (s : string) : string := trimEnd (trimStart 0 s).

(** U+00A0, U+2028 and U+FEFF in UTF-8. *)
Definition NBSP : string := String "194"%char (String "160"%char EmptyString).
Definition LS : string :=
  String "226"%char (String "128"%char (String "168"%char EmptyString)).
Definition BOM : string :=
  String "239"%char (String "187"%char (String "191"%char EmptyString)).

End WhiteSpace.

Import JsString.

(* ================================================================== *)
(** ** Exceptions, promises and property lookup *)
(* ================================================================== *)

Module Js.

(** What a [throw] or a promise rejection carries: an [Error] instance with
    its message, or some other value (for instance the [ProgressEvent] a
    [FileReader] passes to [onerror]). *)
Inductive Thrown : Type :=
| JsError (message : string)
| NotAnError (description : string).

(** The state a promise settles to. *)
Inductive Settled (A : Type) : Type :=
| Fulfilled (value : A)
| Rejected (reason : Thrown).
Arguments Fulfilled {A} value.
Arguments Rejected {A} reason.

Definition isFulfilled {A} (p : Settled A) : bool :=
  match p with Fulfilled _ => true | Rejected _ => false end.

(** An asynchronous computation: the calls it issued to an external
    service, in order, and what it settles to. *)
Definition Eff (C A : Type) : Type := (list C * Settled A)%type.

Definition ret {C A} (a : A) : Eff C A := ([], Fulfilled a).
Definition throw {C A} (e : Thrown) : Eff C A := ([], Rejected e).
Definition call {C A} (c : C) (reply : Settled A) : Eff C A := ([c], reply).

Definition bind {C A B} (m : Eff C A) (k : A -> Eff C B) : Eff C B :=
  match m with
  | (calls, Fulfilled a) => let '(calls', r) := k a in (calls ++ calls', r)
  | (calls, Rejected e) => (calls, Rejected e)
  end.

(** [try { body } catch (e) { handler e }]. *)
Definition tryCatch {C A} (body : Eff C A) (handler : Thrown -> Eff C A) : Eff C A :=
  match body with
  | (calls, Fulfilled a) => (calls, Fulfilled a)
  | (calls, Rejected e) => let '(calls', r) := handler e in (calls ++ calls', r)
  end.

(** A promise created by [new Promise(...)] or by an [async] function:
    [None] when it never settles, else the instant at which it settles and
    its settlement. *)
Definition Promise (A : Type) : Type := option (nat * Settled A).

(** The rejection that happens first: least instant, the earlier promise
    winning a tie. *)
Fixpoint firstRejection {A} (ps : list (Promise A)) : option (nat * Thrown) :=
  match ps with
  | [] => None
  | Some (t, Rejected e) :: rest =>
      match firstRejection rest with
      | Some (t', e') => if t' <? t then Some (t', e') else Some (t, e)
      | None => Some (t, e)
      end
  | _ :: rest => firstRejection rest
  end.

(** The values of the promises, in order, when every one is fulfilled. *)
Fixpoint fulfilledValues {A} (ps : list (Promise A)) : option (list A) :=
  match ps with
  | [] => Some []
  | Some (_, Fulfilled a) :: rest =>
      match fulfilledValues rest with
      | Some values => Some (a :: values)
      | None => None
      end
  | _ :: rest => None
  end.

(** [await Promise.all(ps)]: rejected with the first rejection if any
    promise rejects; else fulfilled with every value, in the order of the
    input, once all are fulfilled; else pending for ever ([None]). *)
Definition promiseAll {A} (ps : list (Promise A)) : option (Settled (list A)) :=
  match firstRejection ps with
  | Some (_, e) => Some (Rejected e)
  | None =>
      match fulfilledValues ps with
      | Some values => Some (Fulfilled values)
      | None => None
      end
  end.

(** The names every object literal inherits from [Object.prototype]. *)
Definition Object_prototype : list string :=
  [ "constructor"; "hasOwnProperty"; "isPrototypeOf"; "propertyIsEnumerable";
    "toLocaleString"; "toString"; "valueOf"; "__proto__";
    "__defineGetter__"; "__defineSetter__"; "__lookupGetter__"; "__lookupSetter__" ].

(** The result of the property read [obj[key]] on an object literal used as
    a dictionary: an own property, else the member of [Object.prototype] of
    that name, else [undefined]. *)
Inductive Property (V : Type) : Type :=
| Own (v : V)
| Inherited (key : string)
| Undefined.
Arguments Own {V} v.
Arguments Inherited {V} key.
Arguments Undefined {V}.

Definition getProperty {V} (obj : gmap string V) (key : string) : Property V :=
  match obj !! key with
  | Some v => Own v
  | None => if bool_decide (key ∈ Object_prototype) then Inherited key else Undefined
  end.

End Js.

Import Js.

(* ================================================================== *)
(** ** services/gamma.ts: the export backend *)
(* ================================================================== *)

Module Gamma.

(** *** The network boundary *)

(** What [fetch] delivers: the status line, the body as [response.text()]
    reads it and as [response.json()] decodes it (rejected when the body is
    not JSON of the expected shape). *)
Record Response (J : Type) : Type := mkResponse {
  resp_status : Z;
  resp_text : string;
  resp_json : Settled J
}.
Arguments mkResponse {J} _ _ _.
Arguments resp_status {J} _.
Arguments resp_text {J} _.
Arguments resp_json {J} _.

(** [response.ok]: a status in the range 200-299. *)
Definition ok {J} (r : Response J) : bool :=
  ((200 <=? resp_status r) && (resp_status r <=? 299))%Z.

(** [fetch] itself rejects on a transport failure. *)
Inductive FetchResult (J : Type) : Type :=
| FetchFailed (e : Thrown)
| FetchResponse (r : Response J).
Arguments FetchFailed {J} e.
Arguments FetchResponse {J} r.

(** [interface GammaGenerationStartResponse]. *)
Record GammaGenerationStartResponse : Type := mkStart {
  start_generationId : string;
  start_status : string
}.

(** [interface GammaGenerationStatusResponse]; [status] is the string the
    backend sent, compared by the code with ['completed'] and ['failed']. *)
Record GammaGenerationStatusResponse : Type := mkStatus {
  generationId : string;
  status : string;
  gammaUrl : option string;
  pptxUrl : option string;
  error : option string
}.

(** One entry of a catalog page as received, and as kept: [{id, name}]. *)
Record ThemeJson : Type := mkThemeJson {
  json_id : string;
  json_name : string;
  json_other : list (string * string)
}.

Record Theme : Type := mkTheme { id : string; name : string }.

Record ThemesPage : Type := mkPage {
  data : list ThemeJson;
  hasMore : bool;
  nextCursor : option string
}.

(** The query of [GET /themes]: [limit], and [after] when a cursor is set. *)
Record ThemesRequest : Type := mkThemesRequest {
  req_limit : Z;
  req_after : option string
}.

Record ImageOptions : Type := mkImageOptions {
  source : string;
  style : string
}.

(** The body of [POST /generations]. *)
Record GenerationBody : Type := mkGenerationBody {
  inputText : string;
  textMode : string;
  format : string;
  themeId : string;
  exportAs : string;
  cardOptions_dimensions : string;
  imageOptions : option ImageOptions
}.

(** The export backend behind the CORS proxy.  [getThemes n q] answers the
    [n]-th catalog request, [getGeneration id n] the [n]-th status poll of
    job [id] (both counted from 0). *)
Class Backend : Type := mkBackend {
  getThemes : nat -> ThemesRequest -> FetchResult ThemesPage;
  postGeneration : GenerationBody -> FetchResult GammaGenerationStartResponse;
  getGeneration : string -> nat -> FetchResult GammaGenerationStatusResponse
}.

(** *** Errors raised by the service *)

(** The proxy-activation marker looked for in the body of a 403. *)
Definition proxyMarker : string := "corsdemo".

Definition proxyActivationRequired {J} (r : Response J) : bool :=
  (resp_status r =? 403)%Z && includes (toLowerCase (resp_text r)) proxyMarker.

Definition ProxyAccessRequired : Thrown :=
  JsError "CORS_PROXY_REQUIRED:Acesso ao proxy necessário. Por favor, ative-o e tente novamente.".

Definition ExportTimedOut : Thrown :=
  JsError "A geração do PPTX demorou muito. Tente novamente mais tarde.".

Definition ExportFailed (detail : option string) : Thrown :=
  JsError ("A API da Gamma falhou ao gerar o PPTX: " +:+ orElse detail "Erro desconhecido").

Definition ThemesApiError (status : Z) (body : string) : Thrown :=
  JsError ("Erro ao listar temas da Gamma: " +:+ pretty status +:+ " " +:+ body).

Definition PollApiError (body : string) : Thrown :=
  JsError ("Erro ao verificar o status do PPTX: " +:+ body).

Definition SubmitApiError (body : string) : Thrown :=
  JsError ("Erro da API da Gamma ao iniciar a geração: " +:+ body).

(** How the caller tells the proxy case apart:
    [pptxError.startsWith('CORS_PROXY_REQUIRED:')]. *)
Definition isProxyAccessRequired (e : Thrown) : bool :=
  match e with
  | JsError message => startsWith message "CORS_PROXY_REQUIRED:"
  | NotAnError _ => false
  end.

(** *** listGammaThemes *)

(** The state of a loop observed after a bounded number of iterations. *)
Inductive Run (A : Type) : Type :=
| Returned (a : A)
| Threw (e : Thrown)
| Running.
Arguments Returned {A} a.
Arguments Threw {A} e.
Arguments Running {A}.

Definition limit : Z := 50%Z.

Definition themesRequest (afterCursor : option string) : ThemesRequest :=
  {| req_limit := limit;
     req_after := if truthy afterCursor then afterCursor else None |}.

Definition themesFromPage (page : ThemesPage) : list Theme :=
  map (fun theme => {| id := json_id theme; name := json_name theme |}) (data page).

(** The [while (hasMore)] loop, entered with [hasMore = true]: [n] requests
    were sent so far, [fuel] bounds the iterations observed.  The second
    component lists the requests sent by these iterations. *)
Fixpoint themesLoop `{Backend} (fuel n : nat) (allThemes : list Theme)
    (afterCursor : option string) : Run (list Theme) * list ThemesRequest :=
  match fuel with
  | O => (Running, [])
  | S fuel' =>
      let request := themesRequest afterCursor in
      match getThemes n request with
      | FetchFailed e => (Threw e, [request])
      | FetchResponse response =>
          if negb (ok response) then
            if proxyActivationRequired response
            then (Threw ProxyAccessRequired, [request])
            else (Threw (ThemesApiError (resp_status response) (resp_text response)), [request])
          else
            match resp_json response with
            | Rejected e => (Threw e, [request])
            | Fulfilled page =>
                let allThemes' := allThemes ++ themesFromPage page in
                if hasMore page then
                  let '(r, sent) := themesLoop fuel' (S n) allThemes' (nextCursor page) in
                  (r, request :: sent)
                else (Returned allThemes', [request])
            end
      end
  end.

(** The key held by the module is a non-empty constant (elided here), so
    the configuration guard that opens both exported functions never
    throws. *)
Definition listGammaThemes `{Backend} (fuel : nat) : Run (list Theme) * list ThemesRequest :=
  themesLoop fuel 0 [] None.

(** *** pollForPptxGeneration *)

Definition pollInterval : Z := 5000%Z.
Definition maxAttempts : nat := 30.

(** The variables the interval callback closes over.  [promise] is the
    state of the promise returned to the caller; [polls] counts the status
    requests sent and [settleCalls] the invocations of [resolve] and
    [reject] (a promise keeps its first settlement). *)
Record PollState : Type := mkPollState {
  attempts : nat;
  intervalActive : bool;
  promise : option (Settled string);
  polls : nat;
  settleCalls : nat
}.

Definition initialPoll : PollState :=
  {| attempts := 0; intervalActive := true; promise := None; polls := 0; settleCalls := 0 |}.

Definition clearInterval (s : PollState) : PollState :=
  {| attempts := attempts s; intervalActive := false; promise := promise s;
     polls := polls s; settleCalls := settleCalls s |}.

Definition settle (outcome : Settled string) (s : PollState) : PollState :=
  {| attempts := attempts s; intervalActive := intervalActive s;
     promise := match promise s with Some first => Some first | None => Some outcome end;
     polls := polls s; settleCalls := S (settleCalls s) |}.

Definition resolve (url : string) : PollState -> PollState := settle (Fulfilled url).
Definition reject (e : Thrown) : PollState -> PollState := settle (Rejected e).

(** The timer fires: the callback runs up to its [await fetch(...)].  The
    flag tells whether a status request was sent. *)
Definition onInterval (s : PollState) : PollState * bool :=
  if intervalActive s then
    let attempts' := S (attempts s) in
    let s' := {| attempts := attempts'; intervalActive := true; promise := promise s;
                 polls := polls s; settleCalls := settleCalls s |} in
    if maxAttempts <? attempts' then (reject ExportTimedOut (clearInterval s'), false)
    else ({| attempts := attempts'; intervalActive := true; promise := promise s;
             polls := S (polls s); settleCalls := settleCalls s |}, true)
  else (s, false).

(** The reply to a status request arrives: the rest of the callback.  The
    body of a refused reply is read within the step; what lies between
    [clearInterval] and [reject] there is not observed. *)
Definition onReply (s : PollState) (reply : FetchResult GammaGenerationStatusResponse) : PollState :=
  match reply with
  | FetchFailed e => reject e (clearInterval s)
  | FetchResponse response =>
      if negb (ok response) then
        let s' := clearInterval s in
        if proxyActivationRequired response then reject ProxyAccessRequired s'
        else reject (PollApiError (resp_text response)) s'
      else
        match resp_json response with
        | Rejected e => reject e (clearInterval s)
        | Fulfilled result =>
            if String.eqb (status result) "completed" && truthy (pptxUrl result) then
              resolve (default EmptyString (pptxUrl result)) (clearInterval s)
            else if String.eqb (status result) "failed" then
              reject (ExportFailed (error result)) (clearInterval s)
            else s
        end
  end.

(** What can happen to a running poll loop. *)
Inductive Event : Type :=
| Timer
| Reply (reply : FetchResult GammaGenerationStatusResponse).

Definition step (s : PollState) (e : Event) : PollState :=
  match e with
  | Timer => fst (onInterval s)
  | Reply reply => onReply s reply
  end.

Definition runEvents (events : list Event) (s : PollState) : PollState :=
  fold_left step events s.

(** One timer period of a loop whose status requests are answered before the
    timer fires again. *)
Definition tick `{Backend} (generationId : string) (s : PollState) : PollState :=
  let '(s', sent) := onInterval s in
  if sent then onReply s' (getGeneration generationId (polls s)) else s'.

Fixpoint ticks `{Backend} (generationId : string) (n : nat) (s : PollState) : PollState :=
  match n with
  | O => s
  | S n' => ticks generationId n' (tick generationId s)
  end.

(** The poll loop observed after [periods] timer periods. *)
Definition pollForPptxGeneration `{Backend} (generationId : string) (periods : nat) : PollState :=
  ticks generationId periods initialPoll.

(** *** generatePresentation *)

Definition generationBody (markdownContent themeId : string) (imageStyle : option string)
    : GenerationBody :=
  {| inputText := markdownContent;
     textMode := "preserve";
     format := "presentation";
     themeId := themeId;
     exportAs := "pptx";
     cardOptions_dimensions := "16x9";
     imageOptions :=
       if truthy imageStyle
       then Some {| source := "aiGenerated"; style := default EmptyString imageStyle |}
       else None |}.

(** The promise of [generatePresentation] observed after [periods] timer
    periods of the poll loop: [None] while it is pending.  The outer
    [catch] logs and rethrows. *)
Definition generatePresentation `{Backend} (markdownContent themeId : string)
    (imageStyle : option string) (periods : nat) : option (Settled string) :=
  match postGeneration (generationBody markdownContent themeId imageStyle) with
  | FetchFailed e => Some (Rejected e)
  | FetchResponse initialResponse =>
      if negb (ok initialResponse) then
        if proxyActivationRequired initialResponse then Some (Rejected ProxyAccessRequired)
        else Some (Rejected (SubmitApiError (resp_text initialResponse)))
      else
        match resp_json initialResponse with
        | Rejected e => Some (Rejected e)
        | Fulfilled responseData =>
            promise (pollForPptxGeneration (start_generationId responseData) periods)
        end
  end.

End Gamma.

(* ================================================================== *)
(** ** utils/fileHelper.ts: reading files *)
(* ================================================================== *)

Module FileHelper.

(** What a [FileReader] reports for one read: [onerror] with its event, or
    [onload] with [reader.result]. *)
Inductive ReadResult (A : Type) : Type :=
| ReadFailed (event : string)
| Loaded (result : option A).
Arguments ReadFailed {A} event.
Arguments Loaded {A} result.

(** A browser [File]: its name and declared type, what each way of reading
    it reports, and the instant at which its reader fires. *)
Record File : Type := mkFile {
  name : string;
  type : string;
  readAsArrayBuffer : ReadResult (list Byte.byte);
  readAsText : ReadResult string;
  readAsDataURL : ReadResult string;
  readTime : nat
}.

Record Workbook (W : Type) : Type := mkWorkbook {
  SheetNames : list string;
  Sheets : gmap string W
}.
Arguments mkWorkbook {W} _ _.
Arguments SheetNames {W} _.
Arguments Sheets {W} _.

(** The SheetJS library loaded by the page.  Both entry points may throw;
    [sheet_to_csv] receives whatever [workbook.Sheets[sheetName]] is. *)
Class XLSX : Type := mkXLSX {
  Worksheet : Type;
  read : list Byte.byte -> Settled (Workbook Worksheet);
  sheet_to_csv : Property Worksheet -> Settled string
}.

(** [fileToBase64]: the part of the data URL after the first comma.  When
    [reader.result] is [null] the handler throws before settling and the
    promise stays pending. *)
Definition fileToBase64 (file : File) : Promise (option string) :=
  match readAsDataURL file with
  | ReadFailed event => Some (readTime file, Rejected (NotAnError event))
  | Loaded (Some result) => Some (readTime file, Fulfilled (split ","%char result !! 1))
  | Loaded None => None
  end.

(** [fileToText]. *)
Definition fileToText (file : File) : Promise (option string) :=
  match readAsText file with
  | ReadFailed event => Some (readTime file, Rejected (NotAnError event))
  | Loaded result => Some (readTime file, Fulfilled result)
  end.

(** The text appended for one sheet by the [forEach] of
    [convertExcelToText]. *)
Definition sheetText (sheetName csv : string) : string :=
  "--- START OF SHEET: " +:+ sheetName +:+ " ---" +:+ LF +:+ csv +:+ LF +:+
  "--- END OF SHEET: " +:+ sheetName +:+ " ---" +:+ LF +:+ LF.

(** [workbook.SheetNames.forEach(...)] accumulating into [fullText]; an
    exception leaves the loop. *)
Fixpoint appendSheets `{XLSX} (workbook : Workbook Worksheet) (sheetNames : list string)
    (fullText : string) : Settled string :=
  match sheetNames with
  | [] => Fulfilled fullText
  | sheetName :: rest =>
      let worksheet := getProperty (Sheets workbook) sheetName in
      match sheet_to_csv worksheet with
      | Rejected e => Rejected e
      | Fulfilled csv => appendSheets workbook rest (fullText +:+ sheetText sheetName csv)
      end
  end.

(** The body of the [onload] handler of [convertExcelToText], inside its
    [try]: what the promise settles to. *)
Definition excelToText `{XLSX} (result : option (list Byte.byte)) : Settled string :=
  match result with
  | None => Rejected (JsError "Failed to read file.")
  | Some data =>
      match read data with
      | Rejected e => Rejected e
      | Fulfilled workbook =>
          match appendSheets workbook (SheetNames workbook) EmptyString with
          | Rejected e => Rejected e
          | Fulfilled fullText => Fulfilled (trim fullText)
          end
      end
  end.

Definition convertExcelToText `{XLSX} (file : File) : Promise string :=
  match readAsArrayBuffer file with
  | ReadFailed event => Some (readTime file, Rejected (NotAnError event))
  | Loaded result => Some (readTime file, excelToText result)
  end.

End FileHelper.

(* ================================================================== *)
(** ** services/gemini.ts: the generation backend *)
(* ================================================================== *)

Module Gemini.

(** [type GeminiPart = InlineDataPart | TextPart]. *)
Inductive GeminiPart : Type :=
| TextPart (text : string)
| InlineDataPart (mimeType : string) (data : option string).

Record Source : Type := mkSource { uri : string; title : string }.

(** [interface GroundingChunk]. *)
Record GroundingChunk : Type := mkGroundingChunk {
  web : option Source;
  maps : option Source
}.

(** The [config] of a generation request; [googleSearch] stands for
    [tools: [{ googleSearch: {} }]]. *)
Record GenerateContentConfig : Type := mkConfig {
  systemInstruction : option string;
  googleSearch : bool;
  thinkingBudget : option Z;
  temperature : option Q;
  maxOutputTokens : option Z
}.

Record GenerateContentParameters : Type := mkParameters {
  model : string;
  parts : list GeminiPart;
  config : GenerateContentConfig
}.

(** What the code reads of a [GenerateContentResponse]: [response.text]
    and [response.candidates?.[0]?.groundingMetadata?.groundingChunks]. *)
Record GenerateContentResponse : Type := mkGenerateContentResponse {
  text : option string;
  groundingChunks : option (list GroundingChunk)
}.

(** The generation backend: how [ai.models.generateContent] settles for a
    request, and when. *)
Class GenAI : Type := mkGenAI {
  generateContent : GenerateContentParameters -> Settled GenerateContentResponse;
  respondsAt : GenerateContentParameters -> nat
}.

(** The JavaScript engine: the text [Function.prototype.toString] gives for
    the built-in function that is the member [key] of [Object.prototype]
    (implementation-defined). *)
Class Engine : Type := mkEngine {
  nativeFunctionToString : string -> string
}.

(** Conversion to string inside a template literal. *)
Definition toString `{Engine} (v : Property string) : string :=
  match v with
  | Own s => s
  | Inherited key =>
      if String.eqb key "__proto__" then "[object Object]" else nativeFunctionToString key
  | Undefined => "undefined"
  end.

(** An asynchronous computation over the generation backend. *)
Definition Gen (A : Type) : Type := Eff GenerateContentParameters A.

Definition callGenerateContent `{GenAI} (request : GenerateContentParameters)
    : Gen GenerateContentResponse :=
  call request (generateContent request).

Definition MARY_PERSONA_PROMPT : string :=
"
1.0 DIRETRIZ PRIMÁRIA E PERSONA
--------------------------------
1.1 Persona
Você é Mary, uma IA Analista de Estratégia de Mídia da Artplan.
Sua função é receber dados brutos e briefings para gerar rascunhos de relatórios de alto impacto, com visualização clara e insights acionáveis, formatados em Markdown.
Você deve atuar como cientista de dados, interpretando planilhas e relatórios oficiais, cruzando dados, gerando análises profundas e visuais.

1.2 Diretriz Primária
Sua missão é produzir rascunhos que sirvam como ferramentas de negócio decisivas. Cada documento deve ser:
- **Estrategicamente denso e conciso:** Foque em um formato " +:+ DQ +:+
"OnePage" +:+ DQ +:+
". Rico em dados, análises e insights, mas sem excessos.
- **Comunicativamente assertivo:** claro, convincente e baseado em fatos.

1.3 Tom de Voz: " +:+ DQ +:+
"Strategic & Assertive" +:+ DQ +:+
"
- O impacto nasce da clareza e autoridade dos dados, nunca de adjetivos vazios.
- Escreva como um consultor sênior. Frases curtas, diretas e factuais.
- Conclua sempre com insights aplicáveis.
- Evite palavras fortes como *disruptivo, recorde, mudança de paradigma* sem comprovação robusta.

2.0 PROTOCOLO OPERACIONAL
--------------------------------
2.1 Fase de Análise e Síntese
- Analise todas as fontes fornecidas nos arquivos anexados, incluindo o conteúdo de imagens (prints de dashboards, recortes, etc.).
- Extraia métricas quantitativas e insights qualitativos.
- **REGRA DE OURO INLINE:** Ao mencionar qualquer métrica ou dado extraído de um arquivo, **CITE A FONTE IMEDIATAMENTE APÓS O DADO**, no formato (Fonte: nome_do_arquivo.xlsx). Isso é crucial.
- Privilegie sempre os dados das planilhas e PDFs fornecidos. Fontes da web (via Google Search, se ativado) devem ser usadas para complementar e contextualizar, nunca para substituir os dados primários. As fontes da web devem ser listadas apenas no final do relatório.

3.0 ESPECIFICAÇÃO DE CONTEÚDO E ESTRUTURA
-----------------------------------------
3.1 Blueprint Narrativo
O rascunho em Markdown deve seguir esta estrutura:
- **Resumo Estratégico:** 3 principais takeaways.
- **Contextualização:** O cenário analisado.
- **Análise Comparativa/Evolutiva:** Comparações de dados e tendências.
- **Análise de Audiência:** Dados de comportamento/demografia.
- **Impacto e Resultados:** Métricas de performance relevantes.
- **Implicações e Oportunidades:** O " +:+ DQ +:+
"e daí?" +:+ DQ +:+
" - o que os dados significam e quais os próximos passos.

3.2 Visualização de Dados (IMPORTANTE)
- **NÃO USE TABELAS MARKDOWN TRADICIONAIS** (`| Header | ... |`). Elas não são renderizadas corretamente.
- Para apresentar KPIs e métricas chave, use **SEMPRE** um dos seguintes formatos visuais:
  - **Cards/Blocos (Big Numbers):** Use blockquotes para destacar métricas individuais.
    Exemplo:
    > **Receita do Trimestre**
    > US$ 2.7 bilhões
    > ↑ 8% vs período anterior
  - **Listas com Emojis:** Use listas para agrupar métricas relacionadas, com emojis relevantes.
    Exemplo:
    - 📊 **Receita**: US$ 2.7B (+8% vs Q3)
    - 💰 **EBITDA**: US$ 200M (+11% vs Q3)
".

(** ['Estratégia de Crescimento'] *)
Definition themePrompt1 : string :=
"
**Foco do Relatório: Estratégia de Crescimento**
O objetivo é identificar as principais alavancas de crescimento. Analise os dados para encontrar:
- Canais com melhor performance (ROI, CPA, etc.) e potencial de otimização.
- Segmentos de audiência com maior engajamento ou conversão.
- Oportunidades de mercado não exploradas com base nos dados e contexto da web.
- Análise competitiva, se houver dados para tal.
Estruture a seção " +:+ DQ +:+
"Implicações e Oportunidades" +:+ DQ +:+
" com recomendações claras para impulsionar o crescimento.".

(** ['Reconhecimento de Marca'] *)
Definition themePrompt2 : string :=
"
**Foco do Relatório: Reconhecimento de Marca (Brand Awareness)**
O objetivo é mensurar e entender a visibilidade e percepção da marca. Analise os dados para encontrar:
- Evolução do Share of Voice, alcance e impressões.
- Análise de sentimento e menções à marca (se houver dados de social listening).
- Performance de campanhas de topo de funil (views, cliques, etc.).
- Insights sobre a percepção da marca pela audiência.
Destaque no " +:+ DQ +:+
"Resumo Estratégico" +:+ DQ +:+
" os principais KPIs que demonstram a saúde da marca no período.".

(** ['Análise de Mercado'] *)
Definition themePrompt3 : string :=
"
**Foco do Relatório: Análise de Mercado**
O objetivo é fornecer um panorama do mercado e da posição do cliente. Analise os dados para:
- Mapear os principais concorrentes e suas performances.
- Identificar tendências de consumo e comportamento do consumidor (dados TGI, se disponíveis).
- Avaliar o market share e oportunidades de posicionamento.
- Usar a busca na web (se ativada) para contextualizar os dados com notícias e movimentos recentes do setor.
A conclusão deve apresentar um diagnóstico claro da posição competitiva do cliente.".

(** ['Planejamento de Mídia'] *)
Definition themePrompt4 : string :=
"
**Foco do Relatório: Planejamento de Mídia**
O objetivo é analisar dados para informar um futuro plano de mídia. Procure por:
- Performance histórica de diferentes canais e formatos.
- Insights de audiência (TGI, etc.) para guiar a seleção de canais.
- Análise de sazonalidade e picos de interesse (Google Trends, se aplicável).
- Recomendações de mix de canais e orçamento com base nos dados.
A seção " +:+ DQ +:+
"Implicações e Oportunidades" +:+ DQ +:+
" deve ser um pré-planejamento tático.".

(** ['Análise de Social Media'] *)
Definition themePrompt5 : string :=
"
**Foco do Relatório: Análise de Social Media**
O objetivo é avaliar a performance e o impacto das redes sociais. Analise:
- Métricas de engajamento (curtidas, comentários, compartilhamentos) por plataforma.
- Crescimento da base de seguidores.
- Análise de conteúdo: quais formatos e temas performam melhor?
- Análise de sentimento e principais temas de conversa.
- Performance de campanhas de social ads (se houver dados).".

(** ['Relatório de Performance (Pós-Campanha)'] *)
Definition themePrompt6 : string :=
"
**Foco do Relatório: Performance de Campanha**
O objetivo é fazer uma análise detalhada dos resultados de uma campanha finalizada. Foque em:
- Comparar os resultados com os KPIs e metas estabelecidas no briefing.
- Analisar o funil de conversão (impressões, cliques, leads, vendas).
- Calcular métricas chave como CPA, CPL, ROAS (se dados disponíveis).
- Identificar os principais aprendizados e otimizações realizadas.
O " +:+ DQ +:+
"Resumo Estratégico" +:+ DQ +:+
" deve responder claramente: " +:+ DQ +:+
"A campanha atingiu seus objetivos?" +:+ DQ +:+
"".

(** ['Branding & Posicionamento'] *)
Definition themePrompt7 : string :=
"
**Foco do Relatório: Branding & Posicionamento**
O objetivo é analisar como a marca está sendo percebida. Analise:
- Dados de Brand Lift, Health Tracking, e pesquisas de marca.
- Menções na mídia e análise de sentimento.
- Territórios de comunicação associados à marca.
- Comparativos com concorrentes em termos de percepção.
O relatório deve concluir com um diagnóstico sobre a força e o posicionamento atual da marca.".

(** ['Análise de Concorrência'] *)
Definition themePrompt8 : string :=
"
**Foco do Relatório: Análise de Concorrência**
O objetivo é monitorar e analisar as ações dos concorrentes. Busque por:
- Exemplos de campanhas e peças criativas dos concorrentes.
- Estimativas de investimento de mídia (se houver dados).
- Share of Voice e Share of Mind.
- Análise de posicionamento e territórios de comunicação dos concorrentes.
A seção " +:+ DQ +:+
"Implicações e Oportunidades" +:+ DQ +:+
" deve focar em como o cliente pode se diferenciar ou reagir.".

Definition THEME_PROMPTS : gmap string string :=
  list_to_map
    [ ("Estratégia de Crescimento", themePrompt1);
      ("Reconhecimento de Marca", themePrompt2);
      ("Análise de Mercado", themePrompt3);
      ("Planejamento de Mídia", themePrompt4);
      ("Análise de Social Media", themePrompt5);
      ("Relatório de Performance (Pós-Campanha)", themePrompt6);
      ("Branding & Posicionamento", themePrompt7);
      ("Análise de Concorrência", themePrompt8) ].

Definition fallbackThemePrompt : string :=
  "Analise os dados fornecidos e gere um relatório conciso e estratégico.".

(** [THEME_PROMPTS[theme] || '...']: the value read when it is truthy, the
    generic brief otherwise. *)
Definition themePrompt (theme : string) : Property string :=
  match getProperty THEME_PROMPTS theme with
  | Own s => if String.eqb s EmptyString then Own fallbackThemePrompt else Own s
  | Inherited key => Inherited key
  | Undefined => Own fallbackThemePrompt
  end.

Definition toneInstruction (tone : string) : string :=
  LF +:+ "1.4 Tom Específico para este Relatório: Adote um tom **" +:+ tone +:+ "**.".

Definition finalSystemPrompt (tone : string) : string :=
  MARY_PERSONA_PROMPT +:+ toneInstruction tone.

Definition fullUserPrompt `{Engine} (theme prompt : string) : string :=
  toString (themePrompt theme) +:+ LF +:+ LF +:+ "**Briefing do Usuário:**" +:+ LF +:+ prompt.

Definition draftRequest `{Engine} (theme prompt : string) (fileParts : list GeminiPart)
    (useGoogleSearch : bool) (tone : string) : GenerateContentParameters :=
  {| model := "gemini-2.5-pro";
     parts := TextPart (fullUserPrompt theme prompt) :: fileParts;
     config := {| systemInstruction := Some (finalSystemPrompt tone);
                  googleSearch := useGoogleSearch;
                  thinkingBudget := Some 32768%Z;
                  temperature := None;
                  maxOutputTokens := None |} |}.

Definition DraftGenerationFailed : Thrown :=
  JsError "Failed to generate report draft. Please check the console for details.".

(** [generateReportDraft]: the draft is [{ text, groundingChunks }]. *)
Definition generateReportDraft `{GenAI} `{Engine} (theme prompt : string)
    (fileParts : list GeminiPart) (useGoogleSearch : bool) (tone : string)
    : Gen (option string * option (list GroundingChunk)) :=
  tryCatch
    (bind (callGenerateContent (draftRequest theme prompt fileParts useGoogleSearch tone))
       (fun response => ret (text response, groundingChunks response)))
    (fun _ => throw DraftGenerationFailed).

(** [response.text.trim()] with every double quote removed; reading
    [trim] of an undefined text throws a [TypeError]. *)
Definition cleanSuggestion (text : option string) : Gen string :=
  match text with
  | Some t => ret (removeAll "034"%char (WhiteSpace.trim t))
  | None => throw (JsError "Cannot read properties of undefined (reading 'trim')")
  end.

Definition promptSuggestionRequest (reportContent : string) : GenerateContentParameters :=
  {| model := "gemini-2.5-flash";
     parts := [ TextPart
       ("Baseado no seguinte relatório, crie um prompt curto (máximo 15 palavras) para gerar uma imagem de capa. O prompt deve ser conceitual, simbólico e profissional. Exemplo: " +:+ DQ +:+
        "Uma ponte de dados conectando estratégia e resultados, em estilo abstrato." +:+ DQ +:+
        LF +:+ LF +:+ "RELATÓRIO:" +:+ LF +:+ reportContent) ];
     config := {| systemInstruction := None;
                  googleSearch := false;
                  thinkingBudget := None;
                  temperature := Some (8 # 10)%Q;
                  maxOutputTokens := Some 50%Z |} |}.

Definition styleSuggestionRequest (reportContent : string) : GenerateContentParameters :=
  {| model := "gemini-2.5-flash";
     parts := [ TextPart
       ("Baseado no tom e conteúdo do seguinte relatório, sugira um estilo visual para as imagens de uma apresentação (máximo 5 palavras). Exemplos: " +:+ DQ +:+
        "Fotorrealista, corporativo, tons de azul" +:+ DQ +:+ ", " +:+ DQ +:+
        "Ilustração vetorial, minimalista" +:+ DQ +:+ ", " +:+ DQ +:+
        "Arte linear, limpa e moderna" +:+ DQ +:+ "." +:+
        LF +:+ LF +:+ "RELATÓRIO:" +:+ LF +:+ reportContent) ];
     config := {| systemInstruction := None;
                  googleSearch := false;
                  thinkingBudget := None;
                  temperature := Some (7 # 10)%Q;
                  maxOutputTokens := Some 30%Z |} |}.

(** [generateImagePromptSuggestion]: the empty string on any failure. *)
Definition generateImagePromptSuggestion `{GenAI} (reportContent : string) : Gen string :=
  tryCatch
    (bind (callGenerateContent (promptSuggestionRequest reportContent))
       (fun response => cleanSuggestion (text response)))
    (fun _ => ret EmptyString).

(** [generateImageStyleSuggestion]: the empty string on any failure. *)
Definition generateImageStyleSuggestion `{GenAI} (reportContent : string) : Gen string :=
  tryCatch
    (bind (callGenerateContent (styleSuggestionRequest reportContent))
       (fun response => cleanSuggestion (text response)))
    (fun _ => ret EmptyString).

End Gemini.

(* ================================================================== *)
(** ** components/ReportGenerator.tsx: the draft submission handler *)
(* ================================================================== *)

Module ReportGenerator.

Import FileHelper Gemini.

Record Client : Type := mkClient { client_id : string; client_name : string }.

Record ClientGroup : Type := mkClientGroup { group_type : string; clients : list Client }.

Definition clientGroups : list ClientGroup :=
  [ {| group_type := "Cliente SP";
       clients := [ mkClient "betmgm" "BetMGM"; mkClient "braskem" "Braskem";
                    mkClient "pagbank" "PagBank"; mkClient "mrv" "MRV"; mkClient "nio" "NIO" ] |};
    {| group_type := "Cliente RJ";
       clients := [ mkClient "globo" "Globo / G1 / Gshow"; mkClient "petrobras" "Petrobras / BR";
                    mkClient "oi" "Oi"; mkClient "bobs" "Bob’s" ] |};
    {| group_type := "Cliente DF";
       clients := [ mkClient "govfed" "Governo Federal / Sebrae / Banco do Brasil" ] |};
    {| group_type := "Unidade Dreamers";
       clients := [ mkClient "dreamfactory" "Dream Factory"; mkClient "convert" "Convert+Performance";
                    mkClient "alab" "A-LAB / NDAR / +Xou" ] |} ].

(** The themes offered by the form: the keys of [THEME_PROMPTS]. *)
Definition themes : list string :=
  [ "Estratégia de Crescimento"; "Reconhecimento de Marca"; "Análise de Mercado";
    "Planejamento de Mídia"; "Análise de Social Media";
    "Relatório de Performance (Pós-Campanha)"; "Branding & Posicionamento";
    "Análise de Concorrência" ].

(** The inputs of the form read by the handler. *)
Record Form : Type := mkForm {
  selectedClient : string;
  selectedTheme : string;
  campaignName : string;
  selectedTone : string;
  brief : string;
  knowledgeBaseFiles : list File;
  useGoogleSearch : bool
}.

(** The result state written by the handler.  The fields it only clears
    ([generatedImage], [isEditing], [pptxUrl], [pptxError], [gammaThemes],
    [selectedGammaTheme]) are left out. *)
Record State : Type := mkState {
  loading : option string;
  error : option string;
  draftResult : option string;
  editedDraft : option string;
  sources : list GroundingChunk;
  imagePrompt : string;
  imageStylePrompt : string;
  loadingSuggestions : bool
}.

Definition initialState : State :=
  {| loading := None; error := None; draftResult := None; editedDraft := Some EmptyString;
     sources := []; imagePrompt := EmptyString; imageStylePrompt := EmptyString;
     loadingSuggestions := false |}.

(** The resets that open the handler. *)
Definition resetResults (s : State) : State :=
  {| loading := Some "draft"; error := None; draftResult := None;
     editedDraft := editedDraft s; sources := [];
     imagePrompt := imagePrompt s; imageStylePrompt := imageStylePrompt s;
     loadingSuggestions := loadingSuggestions s |}.

Definition setLoading (v : option string) (s : State) : State :=
  {| loading := v; error := error s; draftResult := draftResult s;
     editedDraft := editedDraft s; sources := sources s;
     imagePrompt := imagePrompt s; imageStylePrompt := imageStylePrompt s;
     loadingSuggestions := loadingSuggestions s |}.

Definition setError (v : option string) (s : State) : State :=
  {| loading := loading s; error := v; draftResult := draftResult s;
     editedDraft := editedDraft s; sources := sources s;
     imagePrompt := imagePrompt s; imageStylePrompt := imageStylePrompt s;
     loadingSuggestions := loadingSuggestions s |}.

(** [setDraftResult(text); setEditedDraft(text);
     if (groundingChunks) setSources(groundingChunks)]. *)
Definition setDraft (text : option string) (groundingChunks : option (list GroundingChunk))
    (s : State) : State :=
  {| loading := loading s; error := error s; draftResult := text;
     editedDraft := text;
     sources := match groundingChunks with Some chunks => chunks | None => sources s end;
     imagePrompt := imagePrompt s; imageStylePrompt := imageStylePrompt s;
     loadingSuggestions := loadingSuggestions s |}.

Definition setSuggestions (promptSuggestion styleSuggestion : string) (s : State) : State :=
  {| loading := loading s; error := error s; draftResult := draftResult s;
     editedDraft := editedDraft s; sources := sources s;
     imagePrompt := promptSuggestion; imageStylePrompt := styleSuggestion;
     loadingSuggestions := loadingSuggestions s |}.

Definition setLoadingSuggestions (v : bool) (s : State) : State :=
  {| loading := loading s; error := error s; draftResult := draftResult s;
     editedDraft := editedDraft s; sources := sources s;
     imagePrompt := imagePrompt s; imageStylePrompt := imageStylePrompt s;
     loadingSuggestions := v |}.

(** [.then] on a promise. *)
Definition thenMap {A B} (p : Promise A) (f : A -> B) : Promise B :=
  match p with
  | Some (t, Fulfilled a) => Some (t, Fulfilled (f a))
  | Some (t, Rejected e) => Some (t, Rejected e)
  | None => None
  end.

Definition spreadsheetType : string :=
  "application/vnd.openxmlformats-officedocument.spreadsheetml.sheet".

(** The callback of [knowledgeBaseFiles.map]: one file to one part. *)
Definition fileToPart `{XLSX} (file : File) : Promise GeminiPart :=
  let fileType := type file in
  let fileName := toLowerCase (name file) in
  if String.eqb fileType spreadsheetType || endsWith fileName ".xlsx" then
    thenMap (convertExcelToText file) (fun textContent =>
      TextPart ("Conteúdo do arquivo Excel " +:+ DQ +:+ name file +:+ DQ +:+ ":" +:+
                LF +:+ LF +:+ textContent))
  else if String.eqb fileType "text/csv" || endsWith fileName ".csv" then
    thenMap (fileToText file) (fun textContent =>
      TextPart ("Conteúdo do arquivo CSV " +:+ DQ +:+ name file +:+ DQ +:+ ":" +:+
                LF +:+ LF +:+ default "null" textContent))
  else if startsWith (type file) "image/" then
    thenMap (fileToBase64 file) (fun base64Data => InlineDataPart (type file) base64Data)
  else
    thenMap (fileToBase64 file) (fun base64Data => InlineDataPart (type file) base64Data).

(** [clientGroups.flatMap(g => g.clients).find(c => c.id === selectedClient)?.name]. *)
Definition clientName (selectedClient : string) : option string :=
  client_name <$> List.find (fun c => String.eqb (client_id c) selectedClient)
                            (flat_map clients clientGroups).

Definition userPrompt (form : Form) : string :=
  let fileNames := join ", " (map name (knowledgeBaseFiles form)) in
  "Gere um rascunho de relatório para o cliente " +:+ DQ +:+
  default "undefined" (clientName (selectedClient form)) +:+ DQ +:+ "." +:+ LF +:+
  "**Detalhes do Projeto:**" +:+ LF +:+
  "- **Nome da Campanha:** " +:+ orElse (Some (campaignName form)) "Não especificado" +:+ LF +:+
  "- **Briefing Principal:** " +:+ DQ +:+ brief form +:+ DQ +:+ LF +:+
  "- **Arquivos Anexados para Análise:** " +:+
  (if 0 <? String.length fileNames then fileNames else "Nenhum") +:+ ".".

(** [err instanceof Error ? err.message : 'Ocorreu um erro desconhecido.']. *)
Definition errorMessage (err : Thrown) : string :=
  match err with
  | JsError message => message
  | NotAnError _ => "Ocorreu um erro desconhecido."
  end.

(** The suggestion block of the handler, run once the draft is stored. *)
Definition suggest `{GenAI} (text : option string) (s : State)
    : State * list GenerateContentParameters :=
  let reportContent := default "undefined" text in
  let s1 := setLoadingSuggestions true s in
  let '(calls1, promptSuggestion) := generateImagePromptSuggestion reportContent in
  let '(calls2, styleSuggestion) := generateImageStyleSuggestion reportContent in
  let joined :=
    promiseAll [ Some (respondsAt (promptSuggestionRequest reportContent), promptSuggestion);
                 Some (respondsAt (styleSuggestionRequest reportContent), styleSuggestion) ] in
  let s2 :=
    match joined with
    | Some (Fulfilled [promptSuggestion; styleSuggestion]) =>
        setSuggestions promptSuggestion styleSuggestion s1
    | _ => s1
    end in
  (setLoadingSuggestions false s2, calls1 ++ calls2).

(** [handleSubmitDraft]: the state once the handler has nothing left to
    run, and the requests it sent to the generation backend, in order. *)
Definition handleSubmitDraft `{XLSX} `{GenAI} `{Engine} (form : Form) (s : State)
    : State * list GenerateContentParameters :=
  let s0 := resetResults s in
  match promiseAll (map fileToPart (knowledgeBaseFiles form)) with
  | None => (s0, [])
  | Some (Rejected err) => (setLoading None (setError (Some (errorMessage err)) s0), [])
  | Some (Fulfilled fileParts) =>
      match generateReportDraft (selectedTheme form) (userPrompt form) fileParts
              (useGoogleSearch form) (selectedTone form) with
      | (calls, Rejected err) =>
          (setLoading None (setError (Some (errorMessage err)) s0), calls)
      | (calls, Fulfilled (text, groundingChunks)) =>
          let '(s1, calls') := suggest text (setDraft text groundingChunks s0) in
          (setLoading None s1, calls ++ calls')
      end
  end.

End ReportGenerator.

(* ================================================================== *)
(** ** Vocabulary of the properties *)
(* ================================================================== *)

(** *** Export job: replies and the states they lead to *)

Module ExportJob.

Import Gamma.

(** The decoded status document of a successful reply. *)
Definition statusOf (reply : FetchResult GammaGenerationStatusResponse)
    : option GammaGenerationStatusResponse :=
  match reply with
  | FetchResponse r =>
      if ok r then match resp_json r with Fulfilled result => Some result | Rejected _ => None end
      else None
  | FetchFailed _ => None
  end.

Definition isPending (reply : FetchResult GammaGenerationStatusResponse) : bool :=
  match statusOf reply with
  | Some result => String.eqb (status result) "pending"
  | None => false
  end.

Definition isCompletedWithoutUrl (reply : FetchResult GammaGenerationStatusResponse) : bool :=
  match statusOf reply with
  | Some result => String.eqb (status result) "completed" && negb (truthy (pptxUrl result))
  | None => false
  end.

Definition isCompletedWith (url : string) (reply : FetchResult GammaGenerationStatusResponse)
    : bool :=
  match statusOf reply with
  | Some result =>
      String.eqb (status result) "completed" && bool_decide (pptxUrl result = Some url)
  | None => false
  end.

(** The state of a loop that has only seen replies that change nothing,
    after [k] firings of the timer. *)
Definition quietState (k : nat) : PollState :=
  if k <=? maxAttempts then
    {| attempts := k; intervalActive := true; promise := None; polls := k; settleCalls := 0 |}
  else
    {| attempts := S maxAttempts; intervalActive := false;
       promise := Some (Rejected ExportTimedOut); polls := maxAttempts; settleCalls := 1 |}.

(** An event of a run in which every reply reports a pending job. *)
Definition pendingEvent (e : Event) : Prop :=
  match e with
  | Timer => True
  | Reply reply => isPending reply = true
  end.

(** An event of a run in which every reply reports a job that is pending
    or completed with no result URL. *)
Definition quietEvent (e : Event) : Prop :=
  match e with
  | Timer => True
  | Reply reply => isPending reply = true \/ isCompletedWithoutUrl reply = true
  end.

Fixpoint timers (events : list Event) : nat :=
  match events with
  | [] => 0
  | Timer :: rest => S (timers rest)
  | Reply _ :: rest => timers rest
  end.

(** The replies of a run, in the order in which they arrive. *)
Fixpoint replies (events : list Event) : list (FetchResult GammaGenerationStatusResponse) :=
  match events with
  | [] => []
  | Timer :: rest => replies rest
  | Reply reply :: rest => reply :: replies rest
  end.

(** The events are a run of the loop from state [s]: every reply answers
    a status request that was sent and has not been answered yet
    ([answered] counts the replies so far).  Nothing makes a reply arrive
    before the timer fires again. *)
Fixpoint isRun (events : list Event) (s : PollState) (answered : nat) : bool :=
  match events with
  | [] => true
  | Timer :: rest => isRun rest (step s Timer) answered
  | Reply reply :: rest =>
      (answered <? polls s) && isRun rest (step s (Reply reply)) (S answered)
  end.

(** Every run whose replies are pending, pending, completed with [url]
    ends resolved with [url] after exactly three status requests, whatever
    the timing of the replies. *)
Definition threePollsWhateverTheTiming : Prop :=
  forall (events : list Event) (first second third : FetchResult GammaGenerationStatusResponse)
         (url : string),
    isRun events initialPoll 0 = true ->
    replies events = [first; second; third] ->
    isPending first = true ->
    isPending second = true ->
    isCompletedWith url third = true ->
    url <> EmptyString ->
    promise (runEvents events initialPoll) = Some (Fulfilled url) /\
    polls (runEvents events initialPoll) = 3.

End ExportJob.

(** *** Catalog: pages and the requests that fetch them *)

Module Catalog.

Import Gamma.

(** A successful reply carrying a decoded document. *)
Definition delivers {J} (reply : FetchResult J) (document : J) : Prop :=
  exists r, reply = FetchResponse r /\ ok r = true /\ resp_json r = Fulfilled document.

(** The requests the loop sends for a run of pages, the first with
    [cursor]. *)
Fixpoint requestsFor (cursor : option string) (pages : list ThemesPage) : list ThemesRequest :=
  match pages with
  | [] => []
  | page :: rest => themesRequest cursor :: requestsFor (nextCursor page) rest
  end.

(** The backend answers the requests of the loop, from the [n]-th on, with
    the pages of the list, of which exactly the last reports
    [hasMore = false]. *)
Fixpoint answersWith `{Backend} (n : nat) (cursor : option string)
    (pages : list ThemesPage) : Prop :=
  match pages with
  | [] => True
  | page :: rest =>
      delivers (getThemes n (themesRequest cursor)) page /\
      hasMore page = negb (bool_decide (rest = [])) /\
      answersWith (S n) (nextCursor page) rest
  end.

(** A backend that never reports a last page. *)
Definition neverLastPage `{Backend} : Prop :=
  forall n request, exists page,
    delivers (getThemes n request) page /\ hasMore page = true.

(** [bound] limits the number of catalog requests, however long the loop
    is observed. *)
Definition pageBound `{Backend} (bound : nat) : Prop :=
  forall fuel, length (snd (listGammaThemes fuel)) <= bound.

End Catalog.

(** *** The classification of responses *)

Module ErrorClassifier.

Import Gamma.

(** The classification of a response as the specification words it: proxy
    activation for a 403 whose body holds the marker, an API error for any
    other non-success, success otherwise. *)
Inductive Classification : Type :=
| ProxyRequired
| ApiFailure (status : Z) (body : string)
| Success.

Definition containsMarker (body : string) : bool :=
  includes (toLowerCase body) proxyMarker.

Definition classify {J} (r : Response J) : Classification :=
  if (resp_status r =? 403)%Z && containsMarker (resp_text r) then ProxyRequired
  else if ok r then Success
  else ApiFailure (resp_status r) (resp_text r).

(** The message of an error ends with the body of the response. *)
Definition carriesBody (e : Thrown) (body : string) : Prop :=
  exists prefix, e = JsError (prefix +:+ body).

End ErrorClassifier.

(** *** File normalisation *)

Module FileNormalizer.

Import FileHelper ReportGenerator.

(** The marker pair of one sheet around its delimited text. *)
Definition sheetSection (sheetName csv : string) : string :=
  "--- START OF SHEET: " +:+ sheetName +:+ " ---" +:+ LF +:+ csv +:+ LF +:+
  "--- END OF SHEET: " +:+ sheetName +:+ " ---".

Definition blankLine : string := LF +:+ LF.

(** Sheet [sheetName] of the workbook serialises to [csv]. *)
Definition serialises `{XLSX} (workbook : Workbook Worksheet) (sheetName csv : string) : Prop :=
  sheet_to_csv (getProperty (Sheets workbook) sheetName) = Fulfilled csv.

(** The text accumulated by the loop over the sheets. *)
Fixpoint sheetTexts (sheets : list (string * string)) : string :=
  match sheets with
  | [] => EmptyString
  | (sheetName, csv) :: rest => sheetText sheetName csv +:+ sheetTexts rest
  end.

Definition sections (sheets : list (string * string)) : list string :=
  map (fun '(sheetName, csv) => sheetSection sheetName csv) sheets.

(** Where the rejection of a file's promise comes from: the reader's error
    event, the missing result, or an exception of the spreadsheet library. *)
Definition readerOrParserError `{XLSX} (e : Thrown) : Prop :=
  (exists event, e = NotAnError event) \/
  e = JsError "Failed to read file." \/
  (exists data, read data = Rejected e) \/
  (exists worksheet, sheet_to_csv worksheet = Rejected e).

(** The error shown to the user names the file. *)
Definition errorNamesFile (s : State) (file : File) : bool :=
  match error s with
  | Some message => includes message (name file)
  | None => false
  end.

End FileNormalizer.

(** *** Suggestions *)

Module SuggestionEngine.

Import Gemini.

(** What a suggestion field holds after a call that settled to [reply]:
    the cleaned text of a successful reply, the empty string otherwise. *)
Definition suggestionOf (reply : Settled GenerateContentResponse) : string :=
  match reply with
  | Fulfilled response =>
      match text response with
      | Some t => removeAll "034"%char (WhiteSpace.trim t)
      | None => EmptyString
      end
  | Rejected _ => EmptyString
  end.

End SuggestionEngine.

(* ================================================================== *)
(** ** Concrete services and inputs *)
(* ================================================================== *)

Module Scenario.

Import Gamma.

Definition okReply {J} (document : J) : FetchResult J :=
  FetchResponse {| resp_status := 200; resp_text := EmptyString; resp_json := Fulfilled document |}.

Definition errorReply {J} (status : Z) (body : string) : FetchResult J :=
  FetchResponse {| resp_status := status; resp_text := body;
                   resp_json := Rejected (JsError "Unexpected token") |}.

Definition started : GammaGenerationStartResponse :=
  {| start_generationId := "job-1"; start_status := "pending" |}.

Definition pendingStatus : GammaGenerationStatusResponse :=
  {| generationId := "job-1"; status := "pending"; gammaUrl := None; pptxUrl := None;
     error := None |}.

Definition deckUrl : string := "https://gamma.app/export/job-1.pptx".

Definition completedStatus : GammaGenerationStatusResponse :=
  {| generationId := "job-1"; status := "completed"; gammaUrl := None;
     pptxUrl := Some deckUrl; error := None |}.

Definition completedNoUrlStatus : GammaGenerationStatusResponse :=
  {| generationId := "job-1"; status := "completed"; gammaUrl := Some "https://gamma.app/docs/1";
     pptxUrl := None; error := None |}.

Definition firstPage : ThemesPage :=
  {| data := [ {| json_id := "t1"; json_name := "Oasis"; json_other := [("type", "standard")] |};
               {| json_id := "t2"; json_name := "Night Sky"; json_other := [] |} ];
     hasMore := true;
     nextCursor := Some "cursor-1" |}.

Definition lastPage : ThemesPage :=
  {| data := [ {| json_id := "t3"; json_name := "Chisel"; json_other := [] |} ];
     hasMore := false;
     nextCursor := None |}.

(** A well-behaved backend: two catalog pages; a job that is pending twice
    and then completed. *)
Definition wellBehaved : Backend :=
  {| getThemes := fun n _ => match n with 0 => okReply firstPage | _ => okReply lastPage end;
     postGeneration := fun _ => okReply started;
     getGeneration := fun _ n =>
       match n with
       | 0 | 1 => okReply pendingStatus
       | _ => okReply completedStatus
       end |}.

(** The malformed backend: every catalog request is answered with the same
    page, [hasMore = true] and the same cursor; every job stays pending. *)
Definition stuck : Backend :=
  {| getThemes := fun _ _ => okReply firstPage;
     postGeneration := fun _ => okReply started;
     getGeneration := fun _ _ => okReply pendingStatus |}.

(** A backend whose jobs are reported completed, never with a URL. *)
Definition neverUrl : Backend :=
  {| getThemes := fun _ _ => okReply lastPage;
     postGeneration := fun _ => okReply started;
     getGeneration := fun _ _ => okReply completedNoUrlStatus |}.

(** The proxy before its activation, and a backend that is down. *)
Definition proxyPage : string :=
  "See /corsdemo for more info: request temporary access to the demo server.".

Definition proxyLocked : Backend :=
  {| getThemes := fun _ _ => errorReply 403 proxyPage;
     postGeneration := fun _ => errorReply 403 proxyPage;
     getGeneration := fun _ _ => errorReply 403 proxyPage |}.

Definition unavailable : Backend :=
  {| getThemes := fun _ _ => errorReply 503 "Service Unavailable";
     postGeneration := fun _ => errorReply 503 "Service Unavailable";
     getGeneration := fun _ _ => errorReply 503 "Service Unavailable" |}.

Import FileHelper Gemini ReportGenerator.

(** A spreadsheet library over worksheets that are their own delimited
    text; an empty buffer is refused. *)
Definition sheets : XLSX :=
  {| Worksheet := string;
     read := fun data =>
       match data with
       | [] => Rejected (JsError "Unsupported file: no data")
       | _ => Fulfilled
                {| SheetNames := ["Plan1"; "Resumo"];
                   Sheets := list_to_map [ ("Plan1", "canal,cliques" +:+ LF +:+ "search,120");
                                           ("Resumo", "total,120") ] |}
       end;
     sheet_to_csv := fun worksheet =>
       match worksheet with
       | Own csv => Fulfilled csv
       | _ => Fulfilled EmptyString
       end |}.

Definition spreadsheet : File :=
  {| name := "dados.xlsx"; type := spreadsheetType;
     readAsArrayBuffer := Loaded (Some [Byte.x50; Byte.x4b]);
     readAsText := Loaded (Some "PK");
     readAsDataURL := Loaded (Some "data:application/octet-stream;base64,UEs=");
     readTime := 2 |}.

Definition unreadable : File :=
  {| name := "dados.xlsx"; type := spreadsheetType;
     readAsArrayBuffer := ReadFailed "error";
     readAsText := ReadFailed "error";
     readAsDataURL := ReadFailed "error";
     readTime := 1 |}.

Definition corrupt : File :=
  {| name := "metas.xlsx"; type := spreadsheetType;
     readAsArrayBuffer := Loaded (Some []);
     readAsText := Loaded (Some EmptyString);
     readAsDataURL := Loaded (Some "data:");
     readTime := 3 |}.

Definition v8 : Engine :=
  {| nativeFunctionToString := fun key =>
       "function " +:+ (if String.eqb key "constructor" then "Object" else key) +:+
       "() { [native code] }" |}.

(** A generation backend that writes a draft, fails the image-prompt
    suggestion and answers the style suggestion with a quoted phrase. *)
Definition halfSuggesting : GenAI :=
  {| generateContent := fun request =>
       if String.eqb (model request) "gemini-2.5-pro" then
         Fulfilled {| text := Some "# Resumo Estratégico"; groundingChunks := None |}
       else if bool_decide (maxOutputTokens (config request) = Some 50%Z) then
         Rejected (JsError "503 Service Unavailable")
       else
         Fulfilled {| text := Some (" " +:+ DQ +:+ "Minimalista, tons de azul" +:+ DQ +:+ LF);
                      groundingChunks := None |};
     respondsAt := fun request => String.length (model request) |}.

Definition form (files : list File) : Form :=
  {| selectedClient := "betmgm"; selectedTheme := "Análise de Mercado";
     campaignName := EmptyString; selectedTone := "Analítico";
     brief := "Resultados do trimestre"; knowledgeBaseFiles := files;
     useGoogleSearch := false |}.

End Scenario.

(* ================================================================== *)
(** * The rest of the client

    The functions below complete the embedding: image generation
    ([generateImageFromText], [handleSubmitImageGeneration]), the list of
    uploaded files, the name of the downloaded draft, the effect that
    loads the theme catalog, [handleGeneratePptx], and the chat widget
    ([components/ChatWidget.tsx]).  A handler is modelled by the component
    state it leaves once it has run, with the requests it sent.  The white
    space matched by [\s] and tested by [!input.trim()] is that of module
    [WhiteSpace]. *)
(* ================================================================== *)

(* ================================================================== *)
(** ** services/gemini.ts: image generation *)
(* ================================================================== *)

Module Imaging.

Import Gemini ReportGenerator.

(** The request of [generateImageFromText]: one text part and
    [responseModalities: [Modality.IMAGE]]. *)
Record ImageRequest : Type := mkImageRequest {
  image_model : string;
  image_prompt : string;
  responseModalities : list string
}.

Record InlineData : Type := mkInlineData {
  inline_mimeType : string;
  inline_data : option string
}.

Record ResponsePart : Type := mkResponsePart {
  part_text : option string;
  part_inlineData : option InlineData
}.

(** What the code reads of the response: [candidates?.[0]] when there
    is one, its [content] when it has one, and the [parts] of the content
    when it has some. *)
Record Candidate : Type := mkCandidate {
  content : option (option (list ResponsePart))
}.

Record ImageResponse : Type := mkImageResponse {
  firstCandidate : option Candidate
}.

(** The image model behind [ai.models.generateContent]. *)
Class ImageModel : Type := mkImageModel {
  generateImage : ImageRequest -> Settled ImageResponse
}.

Definition noTextInstruction : string :=
  ". IMPORTANTE: Não gere nenhum tipo de texto, letra ou número na imagem. O resultado deve ser puramente visual.".

Definition imageRequest (prompt : string) : ImageRequest :=
  {| image_model := "gemini-2.5-flash-image";
     image_prompt := prompt +:+ noTextInstruction;
     responseModalities := ["IMAGE"] |}.

(** [response.candidates?.[0]?.content.parts || []]: reading [parts] of a
    missing content throws. *)
Definition partsOf (response : ImageResponse) : Settled (list ResponsePart) :=
  match firstCandidate response with
  | None => Fulfilled []
  | Some candidate =>
      match content candidate with
      | None => Rejected (JsError "Cannot read properties of undefined (reading 'parts')")
      | Some None => Fulfilled []
      | Some (Some parts) => Fulfilled parts
      end
  end.

(** The [for] loop over the parts, left at the first part that has
    [inlineData]. *)
Fixpoint firstImage (parts : list ResponsePart) : option string :=
  match parts with
  | [] => None
  | part :: rest =>
      match part_inlineData part with
      | Some inlineData =>
          Some ("data:image/png;base64," +:+ default "undefined" (inline_data inlineData))
      | None => firstImage rest
      end
  end.

Definition ImageGenerationFailed : Thrown :=
  JsError "Falha ao gerar imagem. Por favor, verifique o console para mais detalhes.".

(** [generateImageFromText]. *)
Definition generateImageFromText `{ImageModel} (prompt : string) : Eff ImageRequest string :=
  tryCatch
    (bind (call (imageRequest prompt) (generateImage (imageRequest prompt)))
       (fun response =>
          match partsOf response with
          | Rejected e => throw e
          | Fulfilled parts =>
              match firstImage parts with
              | Some imageUrl => ret imageUrl
              | None => throw (JsError "Nenhuma imagem foi gerada na resposta.")
              end
          end))
    (fun _ => throw ImageGenerationFailed).

(** The result state together with the image the handler stores. *)
Record ImagePanel : Type := mkImagePanel {
  panel : State;
  generatedImage : option string
}.

Definition defaultImagePrompt (draftResult : string) : string :=
  "Crie uma imagem simbólica e abstrata que represente os conceitos chave do seguinte relatório:" +:+
  LF +:+ LF +:+ "---" +:+ LF +:+ draftResult +:+ LF +:+ "---".

(** [handleSubmitImageGeneration]: the state once the handler has run, and
    the requests it sent. *)
Definition handleSubmitImageGeneration `{ImageModel} (s : ImagePanel)
    : ImagePanel * list ImageRequest :=
  if negb (truthy (draftResult (panel s))) then
    ({| panel := setError (Some "Gere um rascunho primeiro para criar uma imagem.") (panel s);
        generatedImage := generatedImage s |}, [])
  else
    let started := setError None (setLoading (Some "image") (panel s)) in
    let finalPrompt :=
      orElse (Some (imagePrompt (panel s)))
             (defaultImagePrompt (default EmptyString (draftResult (panel s)))) in
    match generateImageFromText finalPrompt with
    | (calls, Fulfilled imageUrl) =>
        ({| panel := setLoading None started; generatedImage := Some imageUrl |}, calls)
    | (calls, Rejected err) =>
        ({| panel :=
              setLoading None
                (setError
                   (Some match err with
                         | JsError message => message
                         | NotAnError _ => "Ocorreu um erro ao gerar a imagem."
                         end)
                   started);
            generatedImage := None |}, calls)
    end.

End Imaging.

(* ================================================================== *)
(** ** components/ReportGenerator.tsx: files, themes and export *)
(* ================================================================== *)

Module ExportPanel.

Import FileHelper Gamma WhiteSpace.

(** [prev.filter((_, i) => keep(i))], the indices counted from [i]. *)
Fixpoint filterByIndex {A} (keep : nat -> bool) (i : nat) (l : list A) : list A :=
  match l with
  | [] => []
  | x :: rest =>
      if keep i then x :: filterByIndex keep (S i) rest else filterByIndex keep (S i) rest
  end.

(** [handleFileChange]: the selected files are appended; a [null] selection
    changes nothing. *)
Definition handleFileChange (selectedFiles : option (list File)) (prev : list File)
    : list File :=
  match selectedFiles with
  | Some files => prev ++ files
  | None => prev
  end.

(** [removeFile]: [prev.filter((_, i) => i !== index)]. *)
Definition removeFile (index : nat) (prev : list File) : list File :=
  filterByIndex (fun i => negb (i =? index)) 0 prev.

(** The name under which [handleDownload] saves the draft. *)
Definition downloadFileName (selectedClient selectedTheme : string) : string :=
  let clientName := orElse (ReportGenerator.clientName selectedClient) "report" in
  "MARI_Rascunho_" +:+ replaceWhiteSpace 0 clientName +:+ "_" +:+
  replaceWhiteSpace 0 selectedTheme +:+ ".md".

(** The part of the component state that belongs to the export. *)
Record Panel : Type := mkPanel {
  isPptLoading : bool;
  pptxUrl : option string;
  pptxError : option string;
  gammaThemes : list Theme;
  selectedGammaTheme : string;
  loadingThemes : bool
}.

Definition initialPanel : Panel :=
  {| isPptLoading := false; pptxUrl := None; pptxError := None; gammaThemes := [];
     selectedGammaTheme := EmptyString; loadingThemes := false |}.

(** The effect that fetches the themes once a draft exists, observed after
    [fuel] iterations of the catalog loop, with the requests sent. *)
Definition fetchThemes `{Backend} (draftResult : option string) (s : Panel) (fuel : nat)
    : Panel * list ThemesRequest :=
  if truthy draftResult && (length (gammaThemes s) =? 0) then
    match listGammaThemes fuel with
    | (Running, sent) =>
        ({| isPptLoading := isPptLoading s; pptxUrl := pptxUrl s; pptxError := None;
            gammaThemes := gammaThemes s; selectedGammaTheme := selectedGammaTheme s;
            loadingThemes := true |}, sent)
    | (Returned themes, sent) =>
        ({| isPptLoading := isPptLoading s; pptxUrl := pptxUrl s; pptxError := None;
            gammaThemes := themes; selectedGammaTheme := selectedGammaTheme s;
            loadingThemes := false |}, sent)
    | (Threw err, sent) =>
        ({| isPptLoading := isPptLoading s; pptxUrl := pptxUrl s;
            pptxError :=
              Some match err with
                   | JsError message => message
                   | NotAnError _ => "Não foi possível carregar os temas da apresentação."
                   end;
            gammaThemes := gammaThemes s; selectedGammaTheme := selectedGammaTheme s;
            loadingThemes := false |}, sent)
    end
  else (s, []).

(** [handleGeneratePptx], observed after [periods] timer periods of the
    poll loop. *)
Definition handleGeneratePptx `{Backend} (draftResult : option string)
    (imageStylePrompt : string) (s : Panel) (periods : nat) : Panel :=
  if negb (truthy draftResult) || negb (truthy (Some (selectedGammaTheme s))) then s
  else
    match generatePresentation (default EmptyString draftResult) (selectedGammaTheme s)
            (Some imageStylePrompt) periods with
    | None =>
        {| isPptLoading := true; pptxUrl := None; pptxError := None;
           gammaThemes := gammaThemes s; selectedGammaTheme := selectedGammaTheme s;
           loadingThemes := loadingThemes s |}
    | Some (Fulfilled downloadUrl) =>
        {| isPptLoading := false; pptxUrl := Some downloadUrl; pptxError := None;
           gammaThemes := gammaThemes s; selectedGammaTheme := selectedGammaTheme s;
           loadingThemes := loadingThemes s |}
    | Some (Rejected err) =>
        {| isPptLoading := false; pptxUrl := None;
           pptxError :=
             Some match err with
                  | JsError message => message
                  | NotAnError _ => "Ocorreu um erro desconhecido ao gerar o PPTX."
                  end;
           gammaThemes := gammaThemes s; selectedGammaTheme := selectedGammaTheme s;
           loadingThemes := loadingThemes s |}
    end.

(** The test with which the render chooses the proxy-activation link over
    the plain message. *)
Definition showsProxyLink (s : Panel) : bool :=
  match pptxError s with
  | Some message => startsWith message "CORS_PROXY_REQUIRED:"
  | None => false
  end.

End ExportPanel.

(* ================================================================== *)
(** ** components/ChatWidget.tsx *)
(* ================================================================== *)

Module ChatWidget.

Import WhiteSpace.

Inductive Role : Type := user | model.

(** [interface ChatMessage]. *)
Record ChatMessage : Type := mkChatMessage { role : Role; text : string }.

Definition generalInstruction : string :=
  "Você é MARI, uma assistente de IA da agência Artplan. Seja prestativa, amigável e concisa em suas respostas.".

Definition reportInstruction (reportContext : string) : string :=
  "Você é MARI, uma assistente de IA da agência Artplan. Sua tarefa agora é responder perguntas sobre o rascunho de relatório que acabou de ser gerado. Seja prestativa, precisa e baseie suas respostas exclusivamente no conteúdo fornecido abaixo. Não invente informações." +:+
  LF +:+ LF +:+ "--- CONTEÚDO DO RELATÓRIO ---" +:+ LF +:+ reportContext +:+ LF +:+
  "--- FIM DO CONTEÚDO ---".

(** [getInitialSystemInstruction]. *)
Definition getInitialSystemInstruction (reportContext : option string) : string :=
  if truthy reportContext then reportInstruction (default EmptyString reportContext)
  else generalInstruction.

(** The greeting that opens the conversation. *)
Definition initialMessage (reportContext : option string) : ChatMessage :=
  {| role := model;
     text := if truthy reportContext
             then "Olá! O rascunho do seu relatório foi gerado. Sobre o que você gostaria de perguntar?"
             else "Olá! Sou a MARI. Como posso te ajudar hoje?" |}.

(** What [sendMessageStream] gives: it rejects, or it yields chunks, each
    with its text if it has one, until it ends or fails. *)
Record Stream : Type := mkStream {
  chunks : list (option string);
  failure : option Thrown
}.

(** The chat session held in [chatRef]. *)
Class Chat : Type := mkChat {
  sendMessageStream : string -> Stream
}.

Record State : Type := mkState {
  input : string;
  messages : list ChatMessage;
  loading : bool;
  chatReady : bool
}.

(** How the page is built.  [index.tsx] mounts the application in
    [React.StrictMode]: a development build then runs every state updater
    twice on the same state and keeps what the second run returns; a
    production build runs it once. *)
Inductive Build : Type := Production | Development.

Class React : Type := mkReact { build : Build }.

(** One run of the updater passed to [setMessages] for a chunk: [text] is
    the text accumulated so far and [modelMessageExists] the flag of the
    handler, which the updater reads and writes.  An updater that is run
    after later chunks have arrived reads a longer [text], which the
    updater of the last chunk writes in any case.  [None] when reading the
    role of the last message throws because there is no message. *)
Definition streamUpdate (text : string) (modelMessageExists : bool) (prev : list ChatMessage)
    : option (list ChatMessage * bool) :=
  match last prev with
  | None => None
  | Some lastMessage =>
      match role lastMessage with
      | model =>
          Some (removelast prev ++ [ {| role := model; text := text |} ], modelMessageExists)
      | user =>
          if negb modelMessageExists
          then Some (prev ++ [ {| role := model; text := text |} ], true)
          else Some (prev, modelMessageExists)
      end
  end.

(** The updater as React runs it: once, or twice on the same messages,
    the second run finding the flag as the first one left it. *)
Definition runUpdater `{React} (text : string) (modelMessageExists : bool)
    (prev : list ChatMessage) : option (list ChatMessage * bool) :=
  match build with
  | Production => streamUpdate text modelMessageExists prev
  | Development =>
      match streamUpdate text modelMessageExists prev with
      | None => None
      | Some (_, modelMessageExists') => streamUpdate text modelMessageExists' prev
      end
  end.

(** The [for await] loop over the chunks. *)
Fixpoint stream `{React} (chunks : list (option string)) (text : string)
    (modelMessageExists : bool) (messages : list ChatMessage) : option (list ChatMessage) :=
  match chunks with
  | [] => Some messages
  | chunk :: rest =>
      let text' := text +:+ default "undefined" chunk in
      match runUpdater text' modelMessageExists messages with
      | None => None
      | Some (messages', modelMessageExists') => stream rest text' modelMessageExists' messages'
      end
  end.

Definition apology : ChatMessage :=
  {| role := model; text := "Desculpe, ocorreu um erro." |}.

(** [handleSendMessage]: the state once the handler has run ([None] if an
    updater threw while rendering), and the messages sent to the chat. *)
Definition handleSendMessage `{React} `{Chat} (s : State) : option State * list string :=
  if isBlank (input s) || loading s || negb (chatReady s) then (Some s, [])
  else
    let userMessage := {| role := user; text := input s |} in
    let result := sendMessageStream (input s) in
    match stream (chunks result) EmptyString false (messages s ++ [userMessage]) with
    | None => (None, [input s])
    | Some streamed =>
        (Some {| input := EmptyString;
                 messages := match failure result with
                             | Some _ => streamed ++ [apology]
                             | None => streamed
                             end;
                 loading := false;
                 chatReady := chatReady s |},
         [input s])
    end.

End ChatWidget.

(* ================================================================== *)
(** ** Vocabulary of the further properties *)
(* ================================================================== *)

Module MoreJsString.

(** The string holds the character. *)
Fixpoint hasChar (c : ascii) (s : string) : bool :=
  match s with
  | EmptyString => false
  | String d s' => Ascii.eqb c d || hasChar c s'
  end.

End MoreJsString.

Module ExportJobMore.

Import Gamma ExportJob.

(** What a reply makes of a loop that is still running: [None] when the
    loop goes on, else the settlement. *)
Definition verdict (reply : FetchResult GammaGenerationStatusResponse)
    : option (Settled string) :=
  promise (onReply initialPoll reply).

(** The states a poll loop can be in. *)
Definition wellFormed (s : PollState) : Prop :=
  polls s <= attempts s /\ polls s <= maxAttempts /\ attempts s <= S maxAttempts /\
  (intervalActive s = true -> promise s = None /\ settleCalls s = 0 /\ attempts s <= maxAttempts) /\
  (intervalActive s = false -> promise s <> None /\ 1 <= settleCalls s).

(** The periods of a loop whose replies arrive in time, as events. *)
Fixpoint periodEvents `{Backend} (generationId : string) (n : nat) (s : PollState)
    : list Event :=
  match n with
  | O => []
  | S n' =>
      (if snd (onInterval s)
       then [Timer; Reply (getGeneration generationId (polls s))]
       else [Timer]) ++ periodEvents generationId n' (tick generationId s)
  end.

End ExportJobMore.

Module CatalogMore.
Import Gamma Catalog.

(** The error with which a catalog reply that delivers no page ends the
    fetch; [None] for a reply that delivers one. *)
Definition failureOf (reply : FetchResult ThemesPage) : option Thrown :=
  match reply with
  | FetchFailed e => Some e
  | FetchResponse r =>
      if ok r then
        match resp_json r with
        | Rejected e => Some e
        | Fulfilled _ => None
        end
      else if proxyActivationRequired r then Some ProxyAccessRequired
      else Some (ThemesApiError (resp_status r) (resp_text r))
  end.

(** The backend answers the requests of the loop, from the [n]-th on, with
    the pages of the list, every one of which reports [hasMore = true]. *)
Fixpoint answersMore `{Backend} (n : nat) (cursor : option string)
    (pages : list ThemesPage) : Prop :=
  match pages with
  | [] => True
  | page :: rest =>
      delivers (getThemes n (themesRequest cursor)) page /\
      hasMore page = true /\
      answersMore (S n) (nextCursor page) rest
  end.

(** The cursor in the hands of the loop after a run of pages. *)
Fixpoint cursorAfter (cursor : option string) (pages : list ThemesPage) : option string :=
  match pages with
  | [] => cursor
  | page :: rest => cursorAfter (nextCursor page) rest
  end.

End CatalogMore.

Module Submission.
Import FileHelper Gemini ReportGenerator.

(** The promise of a file fulfils, at some instant, with [part]. *)
Definition normalisesTo `{XLSX} (file : File) (part : GeminiPart) : Prop :=
  exists t, fileToPart file = Some (t, Fulfilled part).

End Submission.

Module ChatVocabulary.

(** The text accumulated by [text += chunk.text] over the chunks received,
    from the text [sofar]. *)
Definition received (sofar : string) (chunks : list (option string)) : string :=
  fold_left (fun text chunk => text +:+ default "undefined" chunk) chunks sofar.

End ChatVocabulary.

Module FileNames.

Import WhiteSpace.

(** Some white space opens the text at some byte offset. *)
Fixpoint hasWhiteSpace (s : string) : bool :=
  match s with
  | EmptyString => false
  | String _ rest => negb (whiteSpaceAt s =? 0) || hasWhiteSpace rest
  end.

(** An ASCII character that is not white space. *)
Definition plain (c : ascii) : bool :=
  (nat_of_ascii c <? 128) && negb (isWhiteSpace c).

(** What follows a replaced text: nothing, or a text that opens with a
    plain character. *)
Definition opensPlain (t : string) : Prop :=
  match t with
  | EmptyString => True
  | String p _ => plain p = true
  end.

End FileNames.

(* ================================================================== *)
(** ** Further services and inputs *)
(* ================================================================== *)

Module ExportScenarios.

Import Gamma Scenario.

Definition failedStatus : GammaGenerationStatusResponse :=
  {| generationId := "job-1"; status := "failed"; gammaUrl := None; pptxUrl := None;
     error := Some "Quota exceeded" |}.

(** A backend that breaks down after its first answers: the second catalog
    request and the second status poll fail. *)
Definition breaksDown : Backend :=
  {| getThemes := fun n _ =>
       match n with
       | 0 => okReply firstPage
       | _ => errorReply 500 "Internal Server Error"
       end;
     postGeneration := fun _ => okReply started;
     getGeneration := fun _ n =>
       match n with
       | 0 => okReply pendingStatus
       | _ => okReply failedStatus
       end |}.

Definition cursorlessPage : ThemesPage :=
  {| data := [ {| json_id := "t1"; json_name := "Oasis"; json_other := [] |} ];
     hasMore := true;
     nextCursor := None |}.

(** A backend that announces more themes without saying where they
    start. *)
Definition cursorless : Backend :=
  {| getThemes := fun _ request =>
       match req_after request with
       | None => okReply cursorlessPage
       | Some _ => okReply lastPage
       end;
     postGeneration := fun _ => okReply started;
     getGeneration := fun _ _ => okReply pendingStatus |}.

(** A late reply after the job was reported completed. *)
Definition completedThenLate : list Event * list Event :=
  ([Timer; Reply (okReply completedStatus)], [Reply (okReply failedStatus); Timer]).

End ExportScenarios.

Module UploadScenarios.

Import FileHelper Gemini ReportGenerator.

Definition note : File :=
  {| name := "notas.txt"; type := "text/plain";
     readAsArrayBuffer := Loaded (Some [Byte.x41; Byte.x42; Byte.x43]);
     readAsText := Loaded (Some "ABC");
     readAsDataURL := Loaded (Some "data:text/plain;base64,QUJD");
     readTime := 1 |}.

(** A spreadsheet with an upper-case extension and a generic type. *)
Definition shouting : File :=
  {| name := "DADOS.XLSX"; type := "application/octet-stream";
     readAsArrayBuffer := Loaded (Some [Byte.x50; Byte.x4b]);
     readAsText := Loaded (Some "PK");
     readAsDataURL := Loaded (Some "data:application/octet-stream;base64,UEs=");
     readTime := 2 |}.

(** A generation backend that is down. *)
Definition down : GenAI :=
  {| generateContent := fun _ => Rejected (JsError "503 Service Unavailable");
     respondsAt := fun _ => 1 |}.

End UploadScenarios.

Module ImageScenarios.

Import ReportGenerator Imaging.

Definition caption : ResponsePart :=
  {| part_text := Some "Aqui está a imagem."; part_inlineData := None |}.

Definition picture (data : string) : ResponsePart :=
  {| part_text := None;
     part_inlineData := Some {| inline_mimeType := "image/png"; inline_data := Some data |} |}.

(** An image model that answers with a caption and two pictures. *)
Definition painter : ImageModel :=
  {| generateImage := fun _ =>
       Fulfilled {| firstCandidate :=
                      Some {| content := Some (Some [caption; picture "iVBORw0KGgo=";
                                                     picture "R0lGODlh"]) |} |} |}.

(** An image model whose candidate carries no content. *)
Definition blocked : ImageModel :=
  {| generateImage := fun _ => Fulfilled {| firstCandidate := Some {| content := None |} |} |}.

(** A panel with a draft and no image prompt. *)
Definition drafted : ImagePanel :=
  {| panel := {| loading := None; error := None; draftResult := Some "# Resumo";
                 editedDraft := Some "# Resumo"; sources := [];
                 imagePrompt := EmptyString; imageStylePrompt := EmptyString;
                 loadingSuggestions := false |};
     generatedImage := None |}.

End ImageScenarios.

Module PanelScenarios.

Import Gamma ExportPanel.

(** The export panel with a theme selected. *)
Definition themeChosen : Panel :=
  {| isPptLoading := false; pptxUrl := None; pptxError := None;
     gammaThemes := [ {| id := "t1"; name := "Oasis" |} ];
     selectedGammaTheme := "t1"; loadingThemes := false |}.

End PanelScenarios.

Module ChatScenarios.

Import ChatWidget.

(** A chat session that answers in two chunks and then breaks. *)
Definition breaking : Chat :=
  {| sendMessageStream := fun _ =>
       {| chunks := [Some "Olá"; Some ", tudo bem?"];
          failure := Some (JsError "network error") |} |}.

Definition asking : State :=
  {| input := "Oi"; messages := [initialMessage None]; loading := false; chatReady := true |}.

(** The production bundle, and the development server. *)
Definition bundled : React := {| build := Production |}.
Definition served : React := {| build := Development |}.

End ChatScenarios.

(* ================================================================== *)
(** ** Strings *)
(* ================================================================== *)

Module StringFacts.

Lemma append_cons (c : ascii) (a b : string) : String c a +:+ b = String c (a +:+ b).
Proof. reflexivity. Qed.

Lemma append_nil_l (b : string) : EmptyString +:+ b = b.
Proof. reflexivity. Qed.

Lemma append_nil_r (a : string) : a +:+ EmptyString = a.
Proof. induction a as [| c a IH]; [reflexivity |]. rewrite append_cons, IH. reflexivity. Qed.

Lemma append_assoc (a b c : string) : (a +:+ b) +:+ c = a +:+ (b +:+ c).
Proof.
  induction a as [| x a IH]; [reflexivity |].
  rewrite !append_cons, IH. reflexivity.
Qed.

Lemma append_eq_nil (a b : string) :
  a +:+ b = EmptyString -> a = EmptyString /\ b = EmptyString.
Proof. destruct a; [intros Hb; split; [reflexivity | exact Hb] | discriminate]. Qed.

(** Trailing white space is removed from the last part only, as long as
    something of it remains. *)
Lemma trimEnd_app (a b : string) :
  trimEnd b <> EmptyString -> trimEnd (a +:+ b) = a +:+ trimEnd b.
Proof.
  intros Hb. induction a as [| c a IH]; [reflexivity |].
  rewrite !append_cons. simpl. rewrite IH.
  destruct (a +:+ trimEnd b) eqn:Hab; [| reflexivity].
  apply append_eq_nil in Hab as [_ Hab]. contradiction.
Qed.

Lemma trimStart_visible (c : ascii) (s : string) :
  isWhiteSpace c = false -> trimStart (String c s) = String c s.
Proof. intros Hc. simpl. rewrite Hc. reflexivity. Qed.

Example trim_example :
  trim (LF +:+ "  Arte linear " +:+ LF) = "Arte linear" /\
  toLowerCase "See /CorsDemo" = "see /corsdemo" /\
  includes "see /corsdemo" "corsdemo" = true /\
  endsWith "dados.xlsx" ".xlsx" = true /\
  split ","%char "data:text/plain;base64,QUJD" = ["data:text/plain;base64"; "QUJD"] /\
  join ", " ["a.csv"; "b.pdf"] = "a.csv, b.pdf".
Proof. repeat split; vm_compute; reflexivity. Qed.

End StringFacts.

(* ================================================================== *)
(** ** The export poll loop *)
(* ================================================================== *)

Module ExportJobFacts.

Import Gamma ExportJob.

Ltac case_compare :=
  repeat match goal with
  | |- context [Nat.ltb ?a ?b] => destruct (Nat.ltb_spec a b)
  | |- context [Nat.leb ?a ?b] => destruct (Nat.leb_spec a b)
  end.

Lemma statusOf_Some reply result :
  statusOf reply = Some result ->
  exists r, reply = FetchResponse r /\ ok r = true /\ resp_json r = Fulfilled result.
Proof.
  destruct reply as [e | r]; simpl; [discriminate |].
  destruct (ok r) eqn:Hok; [| discriminate].
  destruct (resp_json r) as [x | e] eqn:Hj; [| discriminate].
  intros [= ->]. eauto.
Qed.

Lemma onReply_pending s reply : isPending reply = true -> onReply s reply = s.
Proof.
  unfold isPending. destruct (statusOf reply) as [result |] eqn:Hs; [| discriminate].
  apply statusOf_Some in Hs as (r & -> & Hok & Hj). intros Hp.
  apply String.eqb_eq in Hp. unfold onReply. rewrite Hok, Hj, Hp. reflexivity.
Qed.

Lemma onReply_completed_without_url s reply :
  isCompletedWithoutUrl reply = true -> onReply s reply = s.
Proof.
  unfold isCompletedWithoutUrl. destruct (statusOf reply) as [result |] eqn:Hs; [| discriminate].
  apply statusOf_Some in Hs as (r & -> & Hok & Hj). intros Hp.
  apply andb_true_iff in Hp as [Hc Hu]. apply String.eqb_eq in Hc.
  apply negb_true_iff in Hu.
  unfold onReply. rewrite Hok, Hj, Hc, Hu. reflexivity.
Qed.

Lemma onReply_completed_with s reply url :
  url <> EmptyString ->
  isCompletedWith url reply = true ->
  onReply s reply = resolve url (clearInterval s).
Proof.
  intros Hurl. unfold isCompletedWith.
  destruct (statusOf reply) as [result |] eqn:Hs; [| discriminate].
  apply statusOf_Some in Hs as (r & -> & Hok & Hj). intros Hp.
  apply andb_true_iff in Hp as [Hc Hu]. apply String.eqb_eq in Hc.
  apply bool_decide_eq_true in Hu.
  unfold onReply. rewrite Hok, Hj, Hc, Hu. simpl.
  destruct (String.eqb_spec url EmptyString) as [-> | _]; [contradiction | reflexivity].
Qed.

Lemma onInterval_quiet k :
  onInterval (quietState k) = (quietState (S k), k <? maxAttempts).
Proof.
  unfold quietState, onInterval, maxAttempts.
  destruct (Nat.leb_spec k 30) as [Hk | Hk]; simpl; case_compare;
    try lia; try reflexivity.
  assert (k = 30) as -> by lia. reflexivity.
Qed.

Lemma quietState_0 : quietState 0 = initialPoll.
Proof. reflexivity. Qed.

Lemma quietState_timed_out k :
  maxAttempts < k ->
  quietState k = {| attempts := 31; intervalActive := false;
                    promise := Some (Rejected ExportTimedOut); polls := 30; settleCalls := 1 |}.
Proof.
  intros Hk. unfold quietState. destruct (Nat.leb_spec k maxAttempts); [lia | reflexivity].
Qed.

Lemma quietState_running k :
  k <= maxAttempts ->
  quietState k = {| attempts := k; intervalActive := true; promise := None;
                    polls := k; settleCalls := 0 |}.
Proof.
  intros Hk. unfold quietState. destruct (Nat.leb_spec k maxAttempts); [reflexivity | lia].
Qed.

Section Sequential.

Context `{Backend}.
Variable generationId : string.

Lemma tick_quiet k :
  (k < maxAttempts ->
   onReply (quietState (S k)) (getGeneration generationId k) = quietState (S k)) ->
  tick generationId (quietState k) = quietState (S k).
Proof.
  intros Hq. unfold tick. rewrite onInterval_quiet.
  destruct (Nat.ltb_spec k maxAttempts) as [Hk | Hk]; [| reflexivity].
  replace (polls (quietState k)) with k.
  - apply Hq, Hk.
  - rewrite quietState_running by lia. reflexivity.
Qed.

Lemma ticks_quiet n : forall k,
  (forall i, k <= i < maxAttempts ->
     forall s, onReply s (getGeneration generationId i) = s) ->
  ticks generationId n (quietState k) = quietState (k + n).
Proof.
  induction n as [| n IH]; intros k Hq; simpl.
  - f_equal. lia.
  - rewrite tick_quiet.
    + rewrite IH; [f_equal; lia |]. intros i Hi. apply Hq. lia.
    + intros Hk. apply Hq. lia.
Qed.

Lemma ticks_stopped n s : intervalActive s = false -> ticks generationId n s = s.
Proof.
  intros Hs. induction n as [| n IH]; simpl; [reflexivity |].
  replace (tick generationId s) with s; [exact IH |].
  unfold tick, onInterval. rewrite Hs. reflexivity.
Qed.

Lemma ticks_add n m s :
  ticks generationId (n + m) s = ticks generationId m (ticks generationId n s).
Proof. revert s. induction n as [| n IH]; intros s; simpl; [reflexivity | apply IH]. Qed.

(** A loop whose first [maxAttempts] replies change nothing is in the
    quiet state after any number of periods. *)
Lemma poll_quiet :
  (forall i, i < maxAttempts -> forall s, onReply s (getGeneration generationId i) = s) ->
  forall periods, pollForPptxGeneration generationId periods = quietState periods.
Proof.
  intros Hq periods. unfold pollForPptxGeneration. rewrite <- quietState_0.
  rewrite ticks_quiet; [reflexivity |]. intros i Hi. apply Hq. lia.
Qed.

End Sequential.

(** Timer firings and replies in any order: as long as the replies change
    nothing, only the number of firings matters. *)
Lemma quiet_events (events : list Event) : forall k,
  Forall quietEvent events ->
  runEvents events (quietState k) = quietState (k + timers events).
Proof.
  unfold runEvents.
  induction events as [| e events IH]; intros k Hq; simpl.
  - f_equal. lia.
  - inversion Hq as [| ? ? He Hrest]; subst. destruct e as [| reply]; simpl.
    + rewrite onInterval_quiet. simpl. rewrite IH by assumption. f_equal. lia.
    + destruct He as [Hp | Hc].
      * rewrite onReply_pending by assumption. apply IH; assumption.
      * rewrite onReply_completed_without_url by assumption. apply IH; assumption.
Qed.

Lemma pendingEvent_quiet (events : list Event) :
  Forall pendingEvent events -> Forall quietEvent events.
Proof.
  intros Hall. eapply Forall_impl; [exact Hall |].
  intros [| reply]; simpl; [trivial | intros Hp; left; exact Hp].
Qed.

(** C1: when every polled status is pending, the poll loop is still
    pending, with one poll per period, through the 30th period; from the
    31st period on it has rejected with the time-out error, its timer is
    cleared and the number of polls stays at 30, so that neither a 31st nor
    a 32nd poll is sent.  The same holds when replies arrive late, in any
    interleaving with the firings of the timer. *)
Theorem all_pending_times_out `{Backend} (generationId : string) :
  (forall n, n < 31 -> isPending (getGeneration generationId n) = true) ->
  (forall periods, periods <= 30 ->
     promise (pollForPptxGeneration generationId periods) = None /\
     polls (pollForPptxGeneration generationId periods) = periods) /\
  (forall periods, 30 < periods ->
     promise (pollForPptxGeneration generationId periods) = Some (Rejected ExportTimedOut) /\
     polls (pollForPptxGeneration generationId periods) = 30 /\
     intervalActive (pollForPptxGeneration generationId periods) = false /\
     settleCalls (pollForPptxGeneration generationId periods) = 1) /\
  (forall events, Forall pendingEvent events -> 30 < timers events ->
     promise (runEvents events initialPoll) = Some (Rejected ExportTimedOut) /\
     polls (runEvents events initialPoll) = 30 /\
     intervalActive (runEvents events initialPoll) = false).
Proof.
  intros Hp.
  assert (forall periods, pollForPptxGeneration generationId periods = quietState periods)
    as Hrun.
  { apply poll_quiet. intros i Hi s. apply onReply_pending, Hp.
    unfold maxAttempts in Hi. lia. }
  split; [| split].
  - intros periods Hperiods. rewrite Hrun.
    rewrite quietState_running by (unfold maxAttempts; lia). split; reflexivity.
  - intros periods Hperiods. rewrite Hrun.
    rewrite quietState_timed_out by (unfold maxAttempts; lia). repeat split; reflexivity.
  - intros events Hev Htimers. rewrite <- quietState_0.
    rewrite quiet_events by (apply pendingEvent_quiet, Hev).
    rewrite quietState_timed_out by (unfold maxAttempts; lia). repeat split; reflexivity.
Qed.

(** The backend whose jobs stay pending: timed out at the 31st period, 30
    polls then and ever after. *)
Lemma all_pending_times_out_31 :
  promise (@pollForPptxGeneration Scenario.stuck "job-1" 31) = Some (Rejected ExportTimedOut) /\
  polls (@pollForPptxGeneration Scenario.stuck "job-1" 31) = 30 /\
  polls (@pollForPptxGeneration Scenario.stuck "job-1" 32) = 30.
Proof.
  destruct (@all_pending_times_out Scenario.stuck "job-1" (fun n _ => eq_refl))
    as (_ & Hlate & _).
  destruct (Hlate 31 ltac:(lia)) as (Hpromise & Hpolls & _).
  destruct (Hlate 32 ltac:(lia)) as (_ & Hpolls' & _).
  repeat split; assumption.
Defined.

(** C2: when every reply arrives before the timer fires again, with the
    replies pending, pending, completed with a URL, the loop is pending
    with one poll per period before the third period, and from the third
    period on it is resolved with that URL after exactly three polls and
    one call of [resolve], its timer cleared. *)
Theorem completes_on_third_poll `{Backend} (generationId url : string) :
  url <> EmptyString ->
  isPending (getGeneration generationId 0) = true ->
  isPending (getGeneration generationId 1) = true ->
  isCompletedWith url (getGeneration generationId 2) = true ->
  (forall periods, periods < 3 ->
     promise (pollForPptxGeneration generationId periods) = None /\
     polls (pollForPptxGeneration generationId periods) = periods) /\
  (forall periods, 3 <= periods ->
     pollForPptxGeneration generationId periods =
       {| attempts := 3; intervalActive := false; promise := Some (Fulfilled url);
          polls := 3; settleCalls := 1 |}).
Proof.
  intros Hurl H0 H1 H2.
  assert (forall n, n <= 2 -> pollForPptxGeneration generationId n = quietState n) as Hquiet.
  { intros n Hn. unfold pollForPptxGeneration. rewrite <- quietState_0.
    assert (n = 0 \/ n = 1 \/ n = 2) as [-> | [-> | ->]] by lia; simpl;
      rewrite ?tick_quiet; try reflexivity; intros _; apply onReply_pending; assumption. }
  assert (tick generationId (quietState 2) =
            {| attempts := 3; intervalActive := false; promise := Some (Fulfilled url);
               polls := 3; settleCalls := 1 |}) as Hthird.
  { unfold tick. rewrite onInterval_quiet. simpl.
    rewrite (onReply_completed_with _ _ url Hurl H2). reflexivity. }
  split.
  - intros periods Hp. rewrite Hquiet by lia.
    rewrite quietState_running by (unfold maxAttempts; lia). split; reflexivity.
  - intros periods Hp. replace periods with (2 + (1 + (periods - 3))) by lia.
    unfold pollForPptxGeneration. rewrite ticks_add.
    fold (pollForPptxGeneration generationId 2). rewrite Hquiet by lia.
    rewrite ticks_add. simpl ticks at 2. rewrite Hthird.
    apply ticks_stopped. reflexivity.
Qed.

(** The job that is pending twice and then completed. *)
Lemma completes_on_third_poll_scripted :
  promise (@pollForPptxGeneration Scenario.wellBehaved "job-1" 2) = None /\
  @pollForPptxGeneration Scenario.wellBehaved "job-1" 3 =
    {| attempts := 3; intervalActive := false; promise := Some (Fulfilled Scenario.deckUrl);
       polls := 3; settleCalls := 1 |} /\
  polls (@pollForPptxGeneration Scenario.wellBehaved "job-1" 10) = 3.
Proof.
  destruct (@completes_on_third_poll Scenario.wellBehaved "job-1" Scenario.deckUrl
              ltac:(discriminate) eq_refl eq_refl eq_refl) as [Hearly Hdone].
  split; [exact (proj1 (Hearly 2 ltac:(lia))) |].
  split; [exact (Hdone 3 ltac:(lia)) |].
  rewrite (Hdone 10 ltac:(lia)). reflexivity.
Defined.

(** The timer does not wait for a reply: when the third reply is still on
    its way as the fourth period ends, a fourth status request is sent
    before the promise is resolved. *)
Lemma fourth_poll_before_third_reply : ~ threePollsWhateverTheTiming.
Proof.
  intros Hclaim.
  destruct (Hclaim
              [ Timer; Timer; Reply (Scenario.okReply Scenario.pendingStatus);
                Timer; Reply (Scenario.okReply Scenario.pendingStatus);
                Timer; Reply (Scenario.okReply Scenario.completedStatus) ]
              (Scenario.okReply Scenario.pendingStatus)
              (Scenario.okReply Scenario.pendingStatus)
              (Scenario.okReply Scenario.completedStatus)
              Scenario.deckUrl
              eq_refl eq_refl eq_refl eq_refl eq_refl ltac:(discriminate))
    as [_ Hpolls].
  vm_compute in Hpolls. discriminate.
Qed.

(** The same run, computed: the promise is resolved once, after four
    status requests. *)
Example late_third_reply :
  runEvents [ Timer; Timer; Reply (Scenario.okReply Scenario.pendingStatus);
              Timer; Reply (Scenario.okReply Scenario.pendingStatus);
              Timer; Reply (Scenario.okReply Scenario.completedStatus) ] initialPoll =
    {| attempts := 4; intervalActive := false; promise := Some (Fulfilled Scenario.deckUrl);
       polls := 4; settleCalls := 1 |}.
Proof. vm_compute. reflexivity. Qed.

(** C10: a reply that reports a completed job without a result URL leaves
    the loop exactly as a pending reply does, neither resolving nor
    rejecting; a job that stays in that state is still polled once per
    period through the 30th period and is rejected with the time-out error
    from the 31st on. *)
Theorem completed_without_url_keeps_polling `{Backend} (generationId : string) :
  (forall n, n < 30 -> isCompletedWithoutUrl (getGeneration generationId n) = true) ->
  (forall n s pendingReply, n < 30 -> isPending pendingReply = true ->
     onReply s (getGeneration generationId n) = s /\
     onReply s (getGeneration generationId n) = onReply s pendingReply) /\
  (forall periods, periods <= 30 ->
     promise (pollForPptxGeneration generationId periods) = None /\
     intervalActive (pollForPptxGeneration generationId periods) = true /\
     polls (pollForPptxGeneration generationId periods) = periods) /\
  (forall periods, 30 < periods ->
     promise (pollForPptxGeneration generationId periods) = Some (Rejected ExportTimedOut) /\
     polls (pollForPptxGeneration generationId periods) = 30).
Proof.
  intros Hc.
  assert (forall periods, pollForPptxGeneration generationId periods = quietState periods)
    as Hrun.
  { apply poll_quiet. intros i Hi s. apply onReply_completed_without_url, Hc.
    unfold maxAttempts in Hi. lia. }
  split; [| split].
  - intros n s pendingReply Hn Hp.
    rewrite (onReply_pending s pendingReply Hp).
    split; apply onReply_completed_without_url, Hc, Hn.
  - intros periods Hperiods. rewrite Hrun.
    rewrite quietState_running by (unfold maxAttempts; lia). repeat split; reflexivity.
  - intros periods Hperiods. rewrite Hrun.
    rewrite quietState_timed_out by (unfold maxAttempts; lia). split; reflexivity.
Qed.

(** The backend that reports completion without ever giving a URL. *)
Lemma completed_without_url_times_out :
  promise (@pollForPptxGeneration Scenario.neverUrl "job-1" 30) = None /\
  promise (@pollForPptxGeneration Scenario.neverUrl "job-1" 31) =
    Some (Rejected ExportTimedOut).
Proof.
  destruct (@completed_without_url_keeps_polling Scenario.neverUrl "job-1"
              (fun n _ => eq_refl)) as (_ & Hearly & Hlate).
  split; [exact (proj1 (Hearly 30 ltac:(lia))) | exact (proj1 (Hlate 31 ltac:(lia)))].
Defined.

(** A failed job and a broken connection end the loop at once. *)
Example failed_job_rejects :
  promise (onReply initialPoll
             (Scenario.okReply {| generationId := "job-1"; status := "failed";
                                  gammaUrl := None; pptxUrl := None;
                                  error := Some "quota exceeded" |})) =
    Some (Rejected (ExportFailed (Some "quota exceeded"))) /\
  promise (onReply initialPoll (FetchFailed (JsError "Failed to fetch"))) =
    Some (Rejected (JsError "Failed to fetch")).
Proof. split; reflexivity. Qed.

End ExportJobFacts.

(* ================================================================== *)
(** ** The theme catalog *)
(* ================================================================== *)

Module CatalogFacts.

Import Gamma Catalog.

Lemma themesLoop_pages `{Backend} (pages : list ThemesPage) :
  forall fuel n allThemes cursor,
  pages <> [] ->
  answersWith n cursor pages ->
  length pages <= fuel ->
  themesLoop fuel n allThemes cursor =
    (Returned (allThemes ++ concat (map themesFromPage pages)), requestsFor cursor pages).
Proof.
  induction pages as [| page rest IH]; intros fuel n allThemes cursor Hne Hans Hfuel;
    [contradiction |].
  destruct fuel as [| fuel]; [simpl in Hfuel; lia |].
  destruct Hans as ((r & Hr & Hok & Hj) & Hmore & Hrest).
  simpl. rewrite Hr, Hok, Hj, Hmore. simpl.
  destruct rest as [| page' rest'].
  - simpl. rewrite app_nil_r. reflexivity.
  - rewrite bool_decide_eq_false_2 by discriminate. simpl negb. cbv iota.
    rewrite (IH fuel (S n) _ (nextCursor page)); [| discriminate | exact Hrest | simpl in *; lia].
    rewrite <- app_assoc. reflexivity.
Qed.

Lemma requestsFor_length (pages : list ThemesPage) : forall cursor,
  length (requestsFor cursor pages) = length pages.
Proof.
  induction pages as [| page rest IH]; intros cursor; simpl; [reflexivity |].
  f_equal. apply IH.
Qed.

(** C3: when the backend answers the successive requests with a sequence
    of successful pages of which the last, and only the last, reports
    [hasMore = false], the catalog fetch returns as soon as the loop has
    run once per page: it has sent exactly one request per page, each after
    the first carrying the cursor of the page before, and its result is
    the concatenation, in page order, of the [{id, name}] entries of the
    pages. *)
Theorem catalog_is_concatenation_of_pages `{Backend} (pages : list ThemesPage) :
  pages <> [] ->
  answersWith 0 None pages ->
  forall fuel, length pages <= fuel ->
    fst (listGammaThemes fuel) = Returned (concat (map themesFromPage pages)) /\
    snd (listGammaThemes fuel) = requestsFor None pages /\
    length (snd (listGammaThemes fuel)) = length pages.
Proof.
  intros Hne Hans fuel Hfuel. unfold listGammaThemes.
  rewrite (themesLoop_pages pages) by assumption. simpl.
  repeat split. apply requestsFor_length.
Qed.

(** A catalog of two pages: three themes, two requests, the second with
    the cursor of the first page. *)
Lemma catalog_of_two_pages :
  fst (@listGammaThemes Scenario.wellBehaved 2) =
    Returned [ {| id := "t1"; name := "Oasis" |}; {| id := "t2"; name := "Night Sky" |};
               {| id := "t3"; name := "Chisel" |} ] /\
  snd (@listGammaThemes Scenario.wellBehaved 2) =
    [ {| req_limit := 50; req_after := None |};
      {| req_limit := 50; req_after := Some "cursor-1" |} ].
Proof.
  destruct (@catalog_is_concatenation_of_pages Scenario.wellBehaved
              [Scenario.firstPage; Scenario.lastPage]) with (fuel := 2)
    as (Hresult & Hsent & _).
  - discriminate.
  - simpl. repeat split; eexists; repeat split; reflexivity.
  - simpl. lia.
  - split; assumption.
Defined.

Lemma themesLoop_never_last `{Backend} :
  neverLastPage ->
  forall fuel n allThemes cursor,
    fst (themesLoop fuel n allThemes cursor) = Running /\
    length (snd (themesLoop fuel n allThemes cursor)) = fuel.
Proof.
  intros Hnever. induction fuel as [| fuel IH]; intros n allThemes cursor; simpl.
  - split; reflexivity.
  - destruct (Hnever n (themesRequest cursor)) as (page & (r & Hr & Hok & Hj) & Hmore).
    rewrite Hr, Hok, Hj, Hmore. simpl.
    specialize (IH (S n) (allThemes ++ themesFromPage page) (nextCursor page)).
    destruct (themesLoop fuel (S n) (allThemes ++ themesFromPage page) (nextCursor page))
      as [run sent]. simpl in *. destruct IH as [-> ->]. split; reflexivity.
Qed.

Lemma stuck_never_last : @neverLastPage Scenario.stuck.
Proof.
  intros n request. exists Scenario.firstPage. split; [| reflexivity].
  eexists. repeat split; reflexivity.
Qed.

(** C4, as it stands: no number bounds the catalog requests sent to the
    backend that always answers [hasMore = true] with the same cursor. *)
Lemma no_page_bound : ~ exists bound, @pageBound Scenario.stuck bound.
Proof.
  intros [bound Hbound].
  pose proof (Hbound (S bound)) as Hle.
  destruct (@themesLoop_never_last Scenario.stuck stuck_never_last (S bound) 0 [] None)
    as [_ Hlen].
  unfold listGammaThemes in Hle. rewrite Hlen in Hle. lia.
Qed.

(** C4, as amended: the catalog fetch trusts the server.  Against a backend
    whose every page reports [hasMore = true] the loop never returns: after
    any number of iterations it has sent that many requests and is still
    running. *)
Theorem catalog_fetch_trusts_the_server `{Backend} :
  neverLastPage ->
  forall fuel,
    fst (listGammaThemes fuel) = Running /\
    length (snd (listGammaThemes fuel)) = fuel.
Proof. intros Hnever fuel. apply themesLoop_never_last, Hnever. Qed.

(** A thousand iterations against the malformed backend: a thousand
    requests, and the loop goes on. *)
Lemma stuck_catalog_keeps_requesting :
  fst (@listGammaThemes Scenario.stuck 1000) = Running /\
  length (snd (@listGammaThemes Scenario.stuck 1000)) = 1000.
Proof.
  apply (@catalog_fetch_trusts_the_server Scenario.stuck).
  intros n request. exists Scenario.firstPage. split; [| reflexivity].
  eexists. repeat split; reflexivity.
Defined.

End CatalogFacts.

(* ================================================================== *)
(** ** Classification of the responses of the export backend *)
(* ================================================================== *)

Module ErrorClassifierFacts.

Import Gamma ErrorClassifier StringFacts.

Lemma classify_cases {J} (r : Response J) :
  (classify r = ProxyRequired /\ ok r = false /\ proxyActivationRequired r = true) \/
  (classify r = ApiFailure (resp_status r) (resp_text r) /\ ok r = false /\
     proxyActivationRequired r = false) \/
  (classify r = Success /\ ok r = true).
Proof.
  unfold classify, proxyActivationRequired, containsMarker, ok.
  destruct (Z.eqb_spec (resp_status r) 403) as [-> | Hne]; simpl.
  - destruct (includes _ _); [left | right; left]; repeat split; reflexivity.
  - destruct ((200 <=? resp_status r)%Z && (resp_status r <=? 299)%Z);
      [right; right | right; left]; repeat split; reflexivity.
Qed.

(** C5: each of the three operations that receive a response of the export
    backend (a catalog request, the export submission, a status poll)
    treats it as classified: a 403 whose body holds the proxy-activation
    marker fails the operation with the proxy error, which the caller
    recognises and which no API error is mistaken for; any other
    non-success response fails it with the API error of the operation,
    whose message ends with the body; a success response raises nothing
    and the operation goes on with the decoded body alone. *)
Theorem responses_are_classified `{Backend} :
  (forall fuel n allThemes cursor r,
     getThemes n (themesRequest cursor) = FetchResponse r ->
     match classify r with
     | ProxyRequired =>
         themesLoop (S fuel) n allThemes cursor =
           (Threw ProxyAccessRequired, [themesRequest cursor])
     | ApiFailure status body =>
         themesLoop (S fuel) n allThemes cursor =
           (Threw (ThemesApiError status body), [themesRequest cursor])
     | Success =>
         themesLoop (S fuel) n allThemes cursor =
           match resp_json r with
           | Rejected e => (Threw e, [themesRequest cursor])
           | Fulfilled page =>
               if hasMore page then
                 (fst (themesLoop fuel (S n) (allThemes ++ themesFromPage page) (nextCursor page)),
                  themesRequest cursor ::
                  snd (themesLoop fuel (S n) (allThemes ++ themesFromPage page) (nextCursor page)))
               else (Returned (allThemes ++ themesFromPage page), [themesRequest cursor])
           end
     end) /\
  (forall markdownContent themeId imageStyle periods r,
     postGeneration (generationBody markdownContent themeId imageStyle) = FetchResponse r ->
     match classify r with
     | ProxyRequired =>
         generatePresentation markdownContent themeId imageStyle periods =
           Some (Rejected ProxyAccessRequired)
     | ApiFailure status body =>
         generatePresentation markdownContent themeId imageStyle periods =
           Some (Rejected (SubmitApiError body))
     | Success =>
         generatePresentation markdownContent themeId imageStyle periods =
           match resp_json r with
           | Rejected e => Some (Rejected e)
           | Fulfilled responseData =>
               promise (pollForPptxGeneration (start_generationId responseData) periods)
           end
     end) /\
  (forall s r,
     match classify r with
     | ProxyRequired =>
         onReply s (FetchResponse r) = reject ProxyAccessRequired (clearInterval s)
     | ApiFailure status body =>
         onReply s (FetchResponse r) = reject (PollApiError body) (clearInterval s)
     | Success =>
         onReply s (FetchResponse r) =
           onReply s (FetchResponse {| resp_status := 200; resp_text := EmptyString;
                                       resp_json := resp_json r |})
     end) /\
  isProxyAccessRequired ProxyAccessRequired = true /\
  (forall status body,
     isProxyAccessRequired (ThemesApiError status body) = false /\
     isProxyAccessRequired (SubmitApiError body) = false /\
     isProxyAccessRequired (PollApiError body) = false /\
     carriesBody (ThemesApiError status body) body /\
     carriesBody (SubmitApiError body) body /\
     carriesBody (PollApiError body) body).
Proof.
  split; [| split; [| split; [| split]]].
  - intros fuel n allThemes cursor r Hr. simpl. rewrite Hr.
    destruct (classify_cases r) as [(-> & -> & ->) | [(-> & -> & ->) | (-> & ->)]];
      simpl; try reflexivity.
    destruct (resp_json r) as [page | e]; [| reflexivity].
    destruct (hasMore page); [| reflexivity].
    destruct (themesLoop fuel (S n) (allThemes ++ themesFromPage page) (nextCursor page));
      reflexivity.
  - intros markdownContent themeId imageStyle periods r Hr.
    unfold generatePresentation. rewrite Hr.
    destruct (classify_cases r) as [(-> & -> & ->) | [(-> & -> & ->) | (-> & ->)]];
      reflexivity.
  - intros s r. unfold onReply.
    destruct (classify_cases r) as [(-> & -> & ->) | [(-> & -> & ->) | (-> & ->)]];
      reflexivity.
  - reflexivity.
  - intros status body. repeat split; try reflexivity.
    + exists ("Erro ao listar temas da Gamma: " +:+ pretty status +:+ " ").
      unfold ThemesApiError. rewrite !append_assoc. reflexivity.
    + eexists; reflexivity.
    + eexists; reflexivity.
Qed.

(** A locked proxy on the catalog, a backend that is down on submission,
    a pending job on a poll. *)
Lemma proxy_locked_is_classified :
  @themesLoop Scenario.proxyLocked 1 0 [] None =
    (Threw ProxyAccessRequired, [themesRequest None]) /\
  @generatePresentation Scenario.unavailable "# Draft" "t1" None 0 =
    Some (Rejected (SubmitApiError "Service Unavailable")) /\
  onReply initialPoll (Scenario.okReply Scenario.pendingStatus) = initialPoll.
Proof.
  split; [| split].
  - exact (proj1 (@responses_are_classified Scenario.proxyLocked) 0 0 [] None
             {| resp_status := 403; resp_text := Scenario.proxyPage;
                resp_json := Rejected (JsError "Unexpected token") |} eq_refl).
  - exact (proj1 (proj2 (@responses_are_classified Scenario.unavailable))
             "# Draft" "t1" None 0
             {| resp_status := 503; resp_text := "Service Unavailable";
                resp_json := Rejected (JsError "Unexpected token") |} eq_refl).
  - exact (proj1 (proj2 (proj2 (@responses_are_classified Scenario.wellBehaved)))
             initialPoll
             {| resp_status := 200; resp_text := EmptyString;
                resp_json := Fulfilled Scenario.pendingStatus |}).
Defined.

(** The proxy before activation and a backend that is down, seen by each
    operation. *)
Example proxy_locked_everywhere :
  fst (@listGammaThemes Scenario.proxyLocked 5) = Threw ProxyAccessRequired /\
  @generatePresentation Scenario.proxyLocked "# Draft" "t1" None 0 =
    Some (Rejected ProxyAccessRequired) /\
  promise (onReply initialPoll (Scenario.errorReply 403 Scenario.proxyPage)) =
    Some (Rejected ProxyAccessRequired).
Proof. repeat split; vm_compute; reflexivity. Qed.

Example unavailable_everywhere :
  fst (@listGammaThemes Scenario.unavailable 5) =
    Threw (JsError "Erro ao listar temas da Gamma: 503 Service Unavailable") /\
  @generatePresentation Scenario.unavailable "# Draft" "t1" None 0 =
    Some (Rejected (JsError "Erro da API da Gamma ao iniciar a geração: Service Unavailable")) /\
  promise (onReply initialPoll (Scenario.errorReply 503 "Service Unavailable")) =
    Some (Rejected (JsError "Erro ao verificar o status do PPTX: Service Unavailable")) /\
  promise (onReply initialPoll (Scenario.errorReply 403 "Forbidden")) =
    Some (Rejected (JsError "Erro ao verificar o status do PPTX: Forbidden")).
Proof. repeat split; vm_compute; reflexivity. Qed.

Example presentation_is_exported :
  @generatePresentation Scenario.wellBehaved "# Draft" "t1" (Some "Minimalista") 2 = None /\
  @generatePresentation Scenario.wellBehaved "# Draft" "t1" (Some "Minimalista") 3 =
    Some (Fulfilled Scenario.deckUrl).
Proof. split; vm_compute; reflexivity. Qed.

End ErrorClassifierFacts.

(* ================================================================== *)
(** ** Spreadsheets *)
(* ================================================================== *)

Module FileNormalizerFacts.

Import FileHelper ReportGenerator FileNormalizer StringFacts.

Lemma sheetText_section (sheetName csv : string) :
  sheetText sheetName csv = sheetSection sheetName csv +:+ blankLine.
Proof. unfold sheetText, sheetSection, blankLine. rewrite !append_assoc. reflexivity. Qed.

Lemma sheetSection_starts (sheetName csv : string) :
  exists rest, sheetSection sheetName csv = String "-"%char rest.
Proof. eexists. unfold sheetSection. reflexivity. Qed.

Lemma sheetSection_ends (sheetName csv : string) :
  exists front, sheetSection sheetName csv = front +:+ String "-"%char EmptyString.
Proof.
  exists ("--- START OF SHEET: " +:+ sheetName +:+ " ---" +:+ LF +:+ csv +:+ LF +:+
          "--- END OF SHEET: " +:+ sheetName +:+ " --").
  unfold sheetSection. rewrite !append_assoc. reflexivity.
Qed.

Lemma trimEnd_sheetSection (sheetName csv tail : string) :
  trimEnd tail = EmptyString ->
  trimEnd (sheetSection sheetName csv +:+ tail) = sheetSection sheetName csv.
Proof.
  intros Htail. destruct (sheetSection_ends sheetName csv) as [front ->].
  rewrite append_assoc, append_cons, append_nil_l.
  rewrite trimEnd_app; simpl; rewrite Htail; [reflexivity | discriminate].
Qed.

Lemma join_sections_not_empty (sheets : list (string * string)) :
  sheets <> [] -> join blankLine (sections sheets) <> EmptyString.
Proof.
  destruct sheets as [| [n c] rest]; [contradiction |]. intros _ Hj.
  destruct (sheetSection_starts n c) as [tail Hs].
  simpl in Hj. rewrite Hs in Hj. destruct (sections rest); discriminate.
Qed.

Lemma trimEnd_sheetTexts (sheets : list (string * string)) :
  trimEnd (sheetTexts sheets) = join blankLine (sections sheets).
Proof.
  induction sheets as [| [n c] rest IH]; [reflexivity |].
  simpl sheetTexts. rewrite sheetText_section.
  destruct rest as [| next rest'].
  - simpl. rewrite append_nil_r. apply trimEnd_sheetSection. reflexivity.
  - rewrite trimEnd_app; rewrite IH.
    + rewrite append_assoc. reflexivity.
    + apply join_sections_not_empty. discriminate.
Qed.

(** [trim] removes the blank line after the last sheet and nothing else. *)
Lemma trim_sheetTexts (sheets : list (string * string)) :
  trim (sheetTexts sheets) = join blankLine (sections sheets).
Proof.
  unfold trim. destruct sheets as [| [n c] rest]; [reflexivity |].
  replace (trimStart (sheetTexts ((n, c) :: rest))) with (sheetTexts ((n, c) :: rest)).
  - apply trimEnd_sheetTexts.
  - simpl sheetTexts. rewrite sheetText_section.
    destruct (sheetSection_starts n c) as [tail ->].
    rewrite !append_cons. symmetry. apply trimStart_visible. reflexivity.
Qed.

Lemma sections_zip (sheetNames csvs : list string) :
  sections (zip sheetNames csvs) = zip_with sheetSection sheetNames csvs.
Proof.
  revert csvs. induction sheetNames as [| n names IH]; intros [| c csvs]; simpl;
    try reflexivity.
  f_equal. apply IH.
Qed.

Lemma appendSheets_texts `{XLSX} (workbook : Workbook Worksheet)
    (sheetNames csvs : list string) :
  Forall2 (serialises workbook) sheetNames csvs ->
  forall fullText,
    appendSheets workbook sheetNames fullText =
      Fulfilled (fullText +:+ sheetTexts (zip sheetNames csvs)).
Proof.
  induction 1 as [| sheetName csv sheetNames csvs Hcsv _ IH]; intros fullText; simpl.
  - rewrite append_nil_r. reflexivity.
  - unfold serialises in Hcsv. rewrite Hcsv, IH, append_assoc. reflexivity.
Qed.

(** C9: for a spreadsheet that is read and parsed, with every sheet
    serialised, the text produced is the sequence, in the order of the
    sheet names and separated by one blank line, of one section per sheet:
    the START OF SHEET marker with the sheet's name, the delimited text of
    the sheet, the END OF SHEET marker with the same name. *)
Theorem one_marker_pair_per_sheet `{XLSX} (file : File) (data : list Byte.byte)
    (workbook : Workbook Worksheet) (csvs : list string) :
  readAsArrayBuffer file = Loaded (Some data) ->
  read data = Fulfilled workbook ->
  Forall2 (serialises workbook) (SheetNames workbook) csvs ->
  convertExcelToText file =
    Some (readTime file,
          Fulfilled (join blankLine (zip_with sheetSection (SheetNames workbook) csvs))) /\
  length (zip_with sheetSection (SheetNames workbook) csvs) = length (SheetNames workbook).
Proof.
  intros Hread Hparse Hcsv. split.
  - unfold convertExcelToText, excelToText. rewrite Hread, Hparse.
    rewrite (appendSheets_texts workbook _ csvs Hcsv). rewrite append_nil_l, trim_sheetTexts.
    rewrite sections_zip. reflexivity.
  - apply Forall2_length in Hcsv. rewrite length_zip_with. lia.
Qed.

(** A workbook of two sheets. *)
Lemma two_sheets_two_marker_pairs :
  @convertExcelToText Scenario.sheets Scenario.spreadsheet =
    Some (2, Fulfilled
      ("--- START OF SHEET: Plan1 ---" +:+ LF +:+ "canal,cliques" +:+ LF +:+ "search,120" +:+ LF +:+
       "--- END OF SHEET: Plan1 ---" +:+ LF +:+ LF +:+
       "--- START OF SHEET: Resumo ---" +:+ LF +:+ "total,120" +:+ LF +:+
       "--- END OF SHEET: Resumo ---")).
Proof.
  destruct (@one_marker_pair_per_sheet Scenario.sheets Scenario.spreadsheet
              [Byte.x50; Byte.x4b]
              {| SheetNames := ["Plan1"; "Resumo"];
                 Sheets := list_to_map [ ("Plan1", "canal,cliques" +:+ LF +:+ "search,120");
                                         ("Resumo", "total,120") ] |}
              ["canal,cliques" +:+ LF +:+ "search,120"; "total,120"])
    as [Htext _].
  - reflexivity.
  - reflexivity.
  - repeat constructor; vm_compute; reflexivity.
  - rewrite Htext. vm_compute. reflexivity.
Defined.

End FileNormalizerFacts.

(* ================================================================== *)
(** ** Prompt composition *)
(* ================================================================== *)

Module PromptComposerFacts.

Import Gemini.

Lemma THEME_PROMPTS_unknown (theme : string) :
  theme ∉ ReportGenerator.themes -> THEME_PROMPTS !! theme = None.
Proof.
  intros Hth. unfold THEME_PROMPTS. apply not_elem_of_list_to_map_1. exact Hth.
Qed.

(** A theme of the form has a brief of its own. *)
Lemma themePrompt_known (theme : string) :
  theme ∈ ReportGenerator.themes ->
  exists brief, themePrompt theme = Own brief /\ brief <> EmptyString /\
                brief <> fallbackThemePrompt.
Proof.
  intros Hth. unfold ReportGenerator.themes in Hth.
  repeat (apply elem_of_cons in Hth as [-> | Hth];
          [eexists; split; [vm_compute; reflexivity | split; discriminate] |]).
  apply elem_of_nil in Hth. contradiction.
Qed.

(** An unknown theme that names no member of [Object.prototype] receives
    the generic brief. *)
Lemma themePrompt_fallback (theme : string) :
  theme ∉ ReportGenerator.themes -> theme ∉ Object_prototype ->
  themePrompt theme = Own fallbackThemePrompt.
Proof.
  intros Hth Hproto. unfold themePrompt, getProperty.
  rewrite THEME_PROMPTS_unknown by assumption.
  rewrite bool_decide_eq_false_2 by assumption. reflexivity.
Qed.

(** A theme that names a member of [Object.prototype] reads that member. *)
Lemma themePrompt_inherited (theme : string) :
  theme ∈ Object_prototype -> themePrompt theme = Inherited theme.
Proof.
  intros Hproto. unfold Object_prototype in Hproto.
  repeat (apply elem_of_cons in Hproto as [-> | Hproto]; [vm_compute; reflexivity |]).
  apply elem_of_nil in Hproto. contradiction.
Qed.

(** The brief is never [undefined], and the composed texts are fixed by the
    theme, the briefing and the tone alone. *)
Lemma composition_is_total `{Engine} (theme prompt tone : string)
    (fileParts : list GeminiPart) (useGoogleSearch : bool) :
  themePrompt theme <> Undefined /\
  (theme ∉ Object_prototype -> toString (themePrompt theme) <> EmptyString) /\
  parts (draftRequest theme prompt fileParts useGoogleSearch tone) =
    TextPart (fullUserPrompt theme prompt) :: fileParts /\
  systemInstruction (config (draftRequest theme prompt fileParts useGoogleSearch tone)) =
    Some (MARY_PERSONA_PROMPT +:+ toneInstruction tone).
Proof.
  split; [| split; [| split; reflexivity]].
  - unfold themePrompt. destruct (getProperty THEME_PROMPTS theme) as [s | key |];
      [destruct (String.eqb s EmptyString) |..]; discriminate.
  - intros Hproto.
    destruct (decide (theme ∈ ReportGenerator.themes)) as [Hth | Hth].
    + destruct (themePrompt_known theme Hth) as (brief & -> & Hne & _). exact Hne.
    + rewrite themePrompt_fallback by assumption. discriminate.
Qed.

(** C8, at a theme outside the known set for which the fallback is not
    taken: ['constructor'] reads the constructor that the dictionary of
    briefs inherits, a truthy value, so the brief placed in the user prompt
    is the source text of that function and not the generic brief. *)
Theorem unknown_theme_inherited_member :
  ("constructor" ∉ ReportGenerator.themes) /\
  themePrompt "constructor" = Inherited "constructor" /\
  themePrompt "constructor" <> Own fallbackThemePrompt /\
  (forall (engine : Engine) (prompt : string),
     fullUserPrompt "constructor" prompt =
       nativeFunctionToString "constructor" +:+ LF +:+ LF +:+ "**Briefing do Usuário:**" +:+
       LF +:+ prompt) /\
  @fullUserPrompt Scenario.v8 "constructor" "Resultados" =
    "function Object() { [native code] }" +:+ LF +:+ LF +:+ "**Briefing do Usuário:**" +:+
    LF +:+ "Resultados".
Proof.
  split; [| split; [| split; [| split]]].
  - intros Hin. unfold ReportGenerator.themes in Hin.
    repeat (apply elem_of_cons in Hin as [Hin | Hin]; [discriminate |]).
    apply elem_of_nil in Hin. contradiction.
  - vm_compute. reflexivity.
  - vm_compute. discriminate.
  - intros engine prompt. reflexivity.
  - vm_compute. reflexivity.
Qed.

Example unknown_theme_generic_brief :
  themePrompt "Plano de Retenção" = Own fallbackThemePrompt /\
  @fullUserPrompt Scenario.v8 "Plano de Retenção" "Resultados" =
    "Analise os dados fornecidos e gere um relatório conciso e estratégico." +:+ LF +:+ LF +:+
    "**Briefing do Usuário:**" +:+ LF +:+ "Resultados".
Proof. split; vm_compute; reflexivity. Qed.

End PromptComposerFacts.

(* ================================================================== *)
(** ** The submission handler *)
(* ================================================================== *)

Module HandlerFacts.

Import FileHelper Gemini ReportGenerator FileNormalizer SuggestionEngine.

Lemma generateImagePromptSuggestion_settles `{GenAI} (reportContent : string) :
  generateImagePromptSuggestion reportContent =
    ([promptSuggestionRequest reportContent],
     Fulfilled (suggestionOf (generateContent (promptSuggestionRequest reportContent)))).
Proof.
  unfold generateImagePromptSuggestion, callGenerateContent, call, bind, tryCatch, suggestionOf.
  destruct (generateContent (promptSuggestionRequest reportContent)) as [response | e];
    [| reflexivity].
  destruct (text response); reflexivity.
Qed.

Lemma generateImageStyleSuggestion_settles `{GenAI} (reportContent : string) :
  generateImageStyleSuggestion reportContent =
    ([styleSuggestionRequest reportContent],
     Fulfilled (suggestionOf (generateContent (styleSuggestionRequest reportContent)))).
Proof.
  unfold generateImageStyleSuggestion, callGenerateContent, call, bind, tryCatch, suggestionOf.
  destruct (generateContent (styleSuggestionRequest reportContent)) as [response | e];
    [| reflexivity].
  destruct (text response); reflexivity.
Qed.

(** The two calls send different requests, so the backend may fail either
    one and answer the other. *)
Lemma suggestion_requests_differ (reportContent : string) :
  promptSuggestionRequest reportContent <> styleSuggestionRequest reportContent.
Proof. intros Heq. apply (f_equal (fun r => maxOutputTokens (config r))) in Heq. discriminate. Qed.

Lemma suggest_state `{GenAI} (text : option string) (s : State) :
  let reportContent := default "undefined" text in
  suggest text s =
    (setLoadingSuggestions false
       (setSuggestions
          (suggestionOf (generateContent (promptSuggestionRequest reportContent)))
          (suggestionOf (generateContent (styleSuggestionRequest reportContent)))
          (setLoadingSuggestions true s)),
     [promptSuggestionRequest reportContent; styleSuggestionRequest reportContent]).
Proof.
  intros reportContent. unfold suggest. fold reportContent.
  rewrite generateImagePromptSuggestion_settles, generateImageStyleSuggestion_settles.
  reflexivity.
Qed.

(** C6: whatever the generation backend does with the two suggestion
    requests, each suggestion function fulfils, never rejects: with the
    cleaned text of its reply when the call succeeded, with the empty
    string when it failed.  The handler stores each result in its own
    field, so a failure of one call leaves the other field with the other
    call's result, and it changes neither the error nor the draft. *)
Theorem suggestions_never_raise `{GenAI} (reportContent : string) :
  let promptReply := generateContent (promptSuggestionRequest reportContent) in
  let styleReply := generateContent (styleSuggestionRequest reportContent) in
  snd (generateImagePromptSuggestion reportContent) = Fulfilled (suggestionOf promptReply) /\
  snd (generateImageStyleSuggestion reportContent) = Fulfilled (suggestionOf styleReply) /\
  (forall e, promptReply = Rejected e -> suggestionOf promptReply = EmptyString) /\
  (forall e, styleReply = Rejected e -> suggestionOf styleReply = EmptyString) /\
  promptSuggestionRequest reportContent <> styleSuggestionRequest reportContent /\
  (forall s : State,
     imagePrompt (fst (suggest (Some reportContent) s)) = suggestionOf promptReply /\
     imageStylePrompt (fst (suggest (Some reportContent) s)) = suggestionOf styleReply /\
     error (fst (suggest (Some reportContent) s)) = error s /\
     draftResult (fst (suggest (Some reportContent) s)) = draftResult s /\
     loadingSuggestions (fst (suggest (Some reportContent) s)) = false).
Proof.
  intros promptReply styleReply.
  rewrite generateImagePromptSuggestion_settles, generateImageStyleSuggestion_settles.
  split; [reflexivity |]. split; [reflexivity |].
  split; [intros e ->; reflexivity |]. split; [intros e ->; reflexivity |].
  split; [apply suggestion_requests_differ |].
  intros s. rewrite (suggest_state (Some reportContent)). repeat split; reflexivity.
Qed.

(** The image-prompt call fails, the style call succeeds. *)
Lemma failed_prompt_suggestion_is_empty :
  snd (@generateImagePromptSuggestion Scenario.halfSuggesting "# Resumo") =
    Fulfilled EmptyString /\
  snd (@generateImageStyleSuggestion Scenario.halfSuggesting "# Resumo") =
    Fulfilled "Minimalista, tons de azul".
Proof.
  destruct (@suggestions_never_raise Scenario.halfSuggesting "# Resumo")
    as (Hprompt & Hstyle & Hfailed & _).
  split.
  - rewrite Hprompt, (Hfailed (JsError "503 Service Unavailable") eq_refl). reflexivity.
  - rewrite Hstyle. vm_compute. reflexivity.
Defined.

(** One suggestion call fails, the other succeeds: the draft is kept, no
    error is shown, one field is empty and the other holds the cleaned
    reply. *)
Example one_suggestion_fails :
  let '(s, calls) :=
    @handleSubmitDraft Scenario.sheets Scenario.halfSuggesting Scenario.v8
      (Scenario.form [Scenario.spreadsheet]) initialState in
  error s = None /\
  draftResult s = Some "# Resumo Estratégico" /\
  imagePrompt s = EmptyString /\
  imageStylePrompt s = "Minimalista, tons de azul" /\
  loading s = None /\
  loadingSuggestions s = false /\
  length calls = 3.
Proof. vm_compute. repeat split; reflexivity. Qed.

(** *** Atomic failure of file normalisation *)

Lemma firstRejection_In {A} (ps : list (Promise A)) t e :
  firstRejection ps = Some (t, e) -> In (Some (t, Rejected e)) ps.
Proof.
  induction ps as [| p ps IH]; simpl; [discriminate |].
  destruct p as [[t0 [a | e0]] |]; intros Hf; try (right; apply IH, Hf).
  destruct (firstRejection ps) as [[t' e'] |] eqn:Hrest.
  - destruct (t' <? t0); injection Hf as <- <-.
    + right. apply IH. reflexivity.
    + left. reflexivity.
  - injection Hf as <- <-. left. reflexivity.
Qed.

Lemma firstRejection_none {A} (ps : list (Promise A)) t e :
  firstRejection ps = None -> ~ In (Some (t, Rejected e)) ps.
Proof.
  induction ps as [| p ps IH]; simpl; intros Hf Hin; [contradiction |].
  destruct Hin as [-> | Hin].
  - destruct (firstRejection ps) as [[t' e'] |]; [destruct (t' <? t) |]; discriminate.
  - destruct p as [[t0 [a | e0]] |]; try (apply IH; assumption).
    destruct (firstRejection ps) as [[t' e'] |]; [destruct (t' <? t0) |]; discriminate.
Qed.

(** [Promise.all] rejects as soon as one of its promises does, with the
    reason of one of them. *)
Lemma promiseAll_rejects {A} (ps : list (Promise A)) :
  (exists t e, In (Some (t, Rejected e)) ps) ->
  exists t e, In (Some (t, Rejected e)) ps /\ promiseAll ps = Some (Rejected e).
Proof.
  intros (t & e & Hin). unfold promiseAll.
  destruct (firstRejection ps) as [[t' e'] |] eqn:Hf.
  - exists t', e'. split; [apply firstRejection_In, Hf | reflexivity].
  - exfalso. exact (firstRejection_none ps t e Hf Hin).
Qed.

Lemma appendSheets_rejected `{XLSX} workbook sheetNames : forall fullText e,
  appendSheets workbook sheetNames fullText = Rejected e ->
  exists worksheet, sheet_to_csv worksheet = Rejected e.
Proof.
  induction sheetNames as [| sheetName rest IH]; intros fullText e; simpl; [discriminate |].
  destruct (sheet_to_csv (getProperty (Sheets workbook) sheetName)) as [csv | e'] eqn:Hcsv.
  - apply IH.
  - intros [= <-]. eauto.
Qed.

Lemma fileToBase64_rejected `{XLSX} (file : File) (f : option string -> GeminiPart) t e :
  thenMap (fileToBase64 file) f = Some (t, Rejected e) ->
  t = readTime file /\ readerOrParserError e.
Proof.
  unfold fileToBase64, readerOrParserError.
  destruct (readAsDataURL file) as [event | [result |]]; simpl; try discriminate.
  intros [= <- <-]. eauto.
Qed.

Lemma fileToPart_rejected `{XLSX} (file : File) t e :
  fileToPart file = Some (t, Rejected e) ->
  t = readTime file /\ readerOrParserError e.
Proof.
  unfold fileToPart.
  destruct (_ || _).
  - unfold convertExcelToText, excelToText, readerOrParserError.
    destruct (readAsArrayBuffer file) as [event | [data |]]; simpl.
    + intros [= <- <-]. eauto.
    + destruct (read data) as [workbook | e'] eqn:Hread; simpl.
      * destruct (appendSheets workbook (SheetNames workbook) EmptyString) as [txt | e'] eqn:Ha;
          simpl; [discriminate |].
        intros [= <- <-]. split; [reflexivity |]. right; right; right.
        eapply appendSheets_rejected, Ha.
      * intros [= <- <-]. split; [reflexivity |]. right; right; left. eauto.
    + intros [= <- <-]. split; [reflexivity |]. right; left. reflexivity.
  - destruct (_ || _).
    + unfold fileToText, readerOrParserError.
      destruct (readAsText file) as [event | result]; simpl; [| discriminate].
      intros [= <- <-]. eauto.
    + destruct (startsWith (type file) "image/"); apply fileToBase64_rejected.
Qed.

(** C7, as it stands: a request whose only file cannot be read ends with
    the generic unknown-error message, which does not name the file; one
    whose only file cannot be parsed ends with the message of the parser,
    which does not name the file either. *)
Lemma unreadable_file_is_not_named :
  fst (@handleSubmitDraft Scenario.sheets Scenario.halfSuggesting Scenario.v8
         (Scenario.form [Scenario.unreadable]) initialState) =
    setLoading None (setError (Some "Ocorreu um erro desconhecido.") (resetResults initialState)) /\
  errorNamesFile
    (fst (@handleSubmitDraft Scenario.sheets Scenario.halfSuggesting Scenario.v8
            (Scenario.form [Scenario.unreadable]) initialState))
    Scenario.unreadable = false /\
  error (fst (@handleSubmitDraft Scenario.sheets Scenario.halfSuggesting Scenario.v8
                (Scenario.form [Scenario.corrupt]) initialState)) =
    Some "Unsupported file: no data" /\
  errorNamesFile
    (fst (@handleSubmitDraft Scenario.sheets Scenario.halfSuggesting Scenario.v8
            (Scenario.form [Scenario.corrupt]) initialState))
    Scenario.corrupt = false.
Proof. repeat split; vm_compute; reflexivity. Qed.

(** C7, as amended: when the promise of at least one file rejects, the
    handler stops before the generation call: it sends no request to the
    generation backend, hence no partial list of files, stores no draft,
    and shows the message of the rejection of one of the failing files,
    which is the error of the reader or of the spreadsheet library itself
    (the generic unknown-error message when that is not an [Error]). *)
Theorem failed_file_aborts_before_generation `{XLSX} `{GenAI} `{Engine}
    (form : Form) (s : State) :
  (exists file t e,
     In file (knowledgeBaseFiles form) /\ fileToPart file = Some (t, Rejected e)) ->
  exists file e,
    In file (knowledgeBaseFiles form) /\
    fileToPart file = Some (readTime file, Rejected e) /\
    readerOrParserError e /\
    handleSubmitDraft form s =
      (setLoading None (setError (Some (errorMessage e)) (resetResults s)), []) /\
    draftResult (fst (handleSubmitDraft form s)) = None.
Proof.
  intros (file & t & e & Hin & Hrej).
  destruct (promiseAll_rejects (map fileToPart (knowledgeBaseFiles form)))
    as (t' & e' & Hin' & Hall).
  { exists t, e. rewrite <- Hrej. apply in_map, Hin. }
  apply in_map_iff in Hin' as (file' & Hpart & Hfile').
  destruct (fileToPart_rejected file' t' e' Hpart) as [-> Hsource].
  exists file', e'. unfold handleSubmitDraft. rewrite Hall.
  repeat split; assumption.
Qed.

(** A readable spreadsheet, a corrupt one and an unreadable one. *)
Lemma one_bad_file_among_good_ones :
  exists file e,
    In file [Scenario.spreadsheet; Scenario.corrupt; Scenario.unreadable] /\
    @fileToPart Scenario.sheets file = Some (readTime file, Rejected e) /\
    @readerOrParserError Scenario.sheets e /\
    @handleSubmitDraft Scenario.sheets Scenario.halfSuggesting Scenario.v8
      (Scenario.form [Scenario.spreadsheet; Scenario.corrupt; Scenario.unreadable])
      initialState =
      (setLoading None (setError (Some (errorMessage e)) (resetResults initialState)), []) /\
    draftResult
      (fst (@handleSubmitDraft Scenario.sheets Scenario.halfSuggesting Scenario.v8
              (Scenario.form [Scenario.spreadsheet; Scenario.corrupt; Scenario.unreadable])
              initialState)) = None.
Proof.
  apply (@failed_file_aborts_before_generation Scenario.sheets Scenario.halfSuggesting
           Scenario.v8
           (Scenario.form [Scenario.spreadsheet; Scenario.corrupt; Scenario.unreadable])
           initialState).
  exists Scenario.corrupt, 3, (JsError "Unsupported file: no data").
  split; [simpl; tauto | vm_compute; reflexivity].
Defined.

(** With the three files above the reader of the unreadable file fires
    first, and its rejection is the one shown. *)
Example earliest_rejection_wins :
  @handleSubmitDraft Scenario.sheets Scenario.halfSuggesting Scenario.v8
    (Scenario.form [Scenario.spreadsheet; Scenario.corrupt; Scenario.unreadable])
    initialState =
    (setLoading None (setError (Some "Ocorreu um erro desconhecido.")
                        (resetResults initialState)), []).
Proof. vm_compute. reflexivity. Qed.

End HandlerFacts.

(* ================================================================== *)
(** ** Trimming *)
(* ================================================================== *)

Module WhiteSpaceFacts.

Import WhiteSpace.

(** What [trimStart] leaves opens with no white space. *)
Lemma trimStart_opens_visible (s : string) :
  forall skip, whiteSpaceAt (trimStart skip s) = 0.
Proof.
  induction s as [| c rest IH]; intros skip; [destruct skip; reflexivity |].
  cbn [trimStart]. destruct skip as [| k]; [| apply IH].
  destruct (whiteSpaceAt (String c rest)) eqn:Hc; [exact Hc | apply IH].
Qed.

(** White space of every kind is removed at both ends, and only there. *)
Example trim_examples :
  trim (NBSP +:+ " Arte linear" +:+ LS +:+ LF) = "Arte linear" /\
  trim (BOM +:+ "Arte" +:+ NBSP +:+ "linear" +:+ BOM) = "Arte" +:+ NBSP +:+ "linear" /\
  trim (LS +:+ NBSP +:+ " ") = EmptyString /\
  trim "Mídia" = "Mídia".
Proof. repeat split; vm_compute; reflexivity. Qed.

End WhiteSpaceFacts.

(* ================================================================== *)
(** ** More on strings *)
(* ================================================================== *)

Module MoreStringFacts.

Import StringFacts.

Lemma startsWith_app (a b : string) : startsWith (a +:+ b) a = true.
Proof.
  unfold startsWith. induction a as [| c a IH]; [destruct b; reflexivity |].
  rewrite append_cons. simpl.
  destruct (ascii_dec c c); [exact IH | contradiction].
Qed.

Lemma toLowerCase_app (a b : string) :
  toLowerCase (a +:+ b) = toLowerCase a +:+ toLowerCase b.
Proof.
  induction a as [| c a IH]; [reflexivity |].
  rewrite append_cons. simpl. rewrite IH. reflexivity.
Qed.

Lemma toLowerCase_length (s : string) : String.length (toLowerCase s) = String.length s.
Proof. induction s as [| c s IH]; [reflexivity |]. simpl. rewrite IH. reflexivity. Qed.

Lemma length_append (a b : string) :
  String.length (a +:+ b) = String.length a + String.length b.
Proof.
  induction a as [| c a IH]; [reflexivity |].
  rewrite append_cons. simpl. rewrite IH. reflexivity.
Qed.

Lemma substring_all (b : string) : String.substring 0 (String.length b) b = b.
Proof. induction b as [| c b IH]; [reflexivity |]. simpl. rewrite IH. reflexivity. Qed.

Lemma substring_suffix (a b : string) :
  String.substring (String.length a) (String.length b) (a +:+ b) = b.
Proof.
  induction a as [| c a IH]; [apply substring_all |].
  rewrite append_cons. simpl. exact IH.
Qed.

Lemma endsWith_app (a b : string) : endsWith (a +:+ b) b = true.
Proof.
  unfold endsWith. rewrite length_append.
  replace (String.length a + String.length b - String.length b) with (String.length a) by lia.
  rewrite substring_suffix, String.eqb_refl.
  apply andb_true_iff. split; [apply Nat.leb_le; lia | reflexivity].
Qed.

End MoreStringFacts.

(* ================================================================== *)
(** ** Cleaned suggestions *)
(* ================================================================== *)

Module SuggestionFacts.

Import Gemini SuggestionEngine MoreJsString HandlerFacts.

Lemma removeAll_removes (c : ascii) (s : string) : hasChar c (removeAll c s) = false.
Proof.
  induction s as [| d s IH]; [reflexivity |]. simpl.
  destruct (Ascii.eqb c d) eqn:Hcd; [exact IH |]. simpl. rewrite Hcd. exact IH.
Qed.

Lemma suggestionOf_no_quote (reply : Settled GenerateContentResponse) :
  hasChar "034"%char (suggestionOf reply) = false.
Proof.
  destruct reply as [response | e]; [| reflexivity]. simpl.
  destruct (text response); [apply removeAll_removes | reflexivity].
Qed.

(** A reply wrapped in a no-break space and a line separator. *)
Example suggestion_loses_outer_white_space :
  snd (cleanSuggestion
         (Some (WhiteSpace.NBSP +:+ DQ +:+ "Arte linear" +:+ DQ +:+ WhiteSpace.LS +:+ LF))) =
    Fulfilled "Arte linear".
Proof. vm_compute. reflexivity. Qed.

(** X12: whatever the generation backend answers, the suggestion that
    generateImagePromptSuggestion and generateImageStyleSuggestion fulfil
    with holds no double quote. *)
Theorem suggestions_hold_no_quote `{GenAI} (reportContent : string) :
  (exists suggestion,
     snd (generateImagePromptSuggestion reportContent) = Fulfilled suggestion /\
     hasChar "034"%char suggestion = false) /\
  (exists suggestion,
     snd (generateImageStyleSuggestion reportContent) = Fulfilled suggestion /\
     hasChar "034"%char suggestion = false).
Proof.
  rewrite generateImagePromptSuggestion_settles, generateImageStyleSuggestion_settles.
  split; eexists; (split; [reflexivity | apply suggestionOf_no_quote]).
Qed.

End SuggestionFacts.

(* ================================================================== *)
(** ** Further properties of the poll loop *)
(* ================================================================== *)

Module ExportJobInvariants.
Import Gamma ExportJob ExportJobMore ExportJobFacts.

Lemma wellFormed_initial : wellFormed initialPoll.
Proof. unfold wellFormed, initialPoll, maxAttempts; simpl. repeat split; try lia; discriminate. Qed.

Lemma wellFormed_settle s outcome :
  wellFormed s -> wellFormed (settle outcome (clearInterval s)).
Proof.
  unfold wellFormed, settle, clearInterval; simpl. intros (H1 & H2 & H3 & H4 & H5).
  repeat split; try lia; try discriminate. destruct (promise s); discriminate.
Qed.

Lemma onReply_cases s reply :
  onReply s reply = s \/ exists outcome, onReply s reply = settle outcome (clearInterval s).
Proof.
  unfold onReply, resolve, reject. destruct reply as [e | r]; [right; eauto |].
  destruct (negb (ok r)).
  - destruct (proxyActivationRequired r); right; eauto.
  - destruct (resp_json r) as [result | e]; [| right; eauto].
    destruct (_ && _); [right; eauto |].
    destruct (String.eqb _ _); [right; eauto | left; reflexivity].
Qed.

Lemma wellFormed_onReply s reply : wellFormed s -> wellFormed (onReply s reply).
Proof.
  intros Hs. destruct (onReply_cases s reply) as [-> | [outcome ->]];
    [exact Hs | apply wellFormed_settle, Hs].
Qed.

Lemma wellFormed_onInterval s : wellFormed s -> wellFormed (fst (onInterval s)).
Proof.
  intros Hs. unfold onInterval. destruct (intervalActive s) eqn:Hact; [| exact Hs].
  unfold wellFormed, maxAttempts in *.
  destruct Hs as (H1 & H2 & H3 & H4 & H5). destruct (H4 Hact) as (Hp & Hc & Ha).
  destruct (Nat.ltb_spec 30 (S (attempts s))); simpl.
  - rewrite Hp. repeat split; try lia; discriminate.
  - repeat split; try lia; try assumption; discriminate.
Qed.

Lemma wellFormed_step s e : wellFormed s -> wellFormed (step s e).
Proof. destruct e; [apply wellFormed_onInterval | apply wellFormed_onReply]. Qed.

Lemma wellFormed_runEvents events : forall s, wellFormed s -> wellFormed (runEvents events s).
Proof.
  unfold runEvents. induction events as [| e events IH]; intros s Hs; simpl; [exact Hs |].
  apply IH, wellFormed_step, Hs.
Qed.

(** Once settled, the promise keeps its settlement. *)
Lemma settled_step s e outcome : promise s = Some outcome -> promise (step s e) = Some outcome.
Proof.
  intros Hp. destruct e as [| reply]; simpl.
  - unfold onInterval. destruct (intervalActive s); [| exact Hp].
    destruct (_ <? _); simpl; [rewrite Hp; reflexivity | exact Hp].
  - destruct (onReply_cases s reply) as [-> | [o ->]]; [exact Hp |].
    simpl. rewrite Hp. reflexivity.
Qed.

Lemma settled_frozen s e :
  wellFormed s -> promise s <> None ->
  promise (step s e) = promise s /\ polls (step s e) = polls s /\
  attempts (step s e) = attempts s.
Proof.
  intros (H1 & H2 & H3 & H4 & H5) Hp.
  assert (intervalActive s = false) as Hoff.
  { destruct (intervalActive s) eqn:Hact; [| reflexivity].
    destruct (H4 eq_refl) as [Hnone _]. contradiction. }
  destruct (promise s) as [outcome |] eqn:Hs; [| contradiction].
  destruct e as [| reply]; simpl.
  - unfold onInterval. rewrite Hoff. simpl. rewrite Hs. repeat split; reflexivity.
  - destruct (onReply_cases s reply) as [-> | [o ->]]; simpl; rewrite ?Hs;
      repeat split; reflexivity.
Qed.

(** X2: a promise settled after some events keeps that settlement whatever
    events follow (late replies, further firings), and no further status
    request is sent nor attempt counted. *)
Theorem first_settlement_is_final (before after : list Event) (outcome : Settled string) :
  promise (runEvents before initialPoll) = Some outcome ->
  promise (runEvents (before ++ after) initialPoll) = Some outcome /\
  polls (runEvents (before ++ after) initialPoll) = polls (runEvents before initialPoll) /\
  attempts (runEvents (before ++ after) initialPoll) = attempts (runEvents before initialPoll).
Proof.
  unfold runEvents. rewrite fold_left_app.
  pose proof (wellFormed_runEvents before initialPoll wellFormed_initial) as Hwf.
  unfold runEvents in Hwf.
  generalize dependent (fold_left step before initialPoll). intros s Hwf Hp.
  revert s Hwf Hp. induction after as [| e after IH]; intros s Hwf Hp; simpl.
  - repeat split; [exact Hp | reflexivity..].
  - destruct (settled_frozen s e Hwf) as (Hp' & Hpolls & Hatt); [rewrite Hp; discriminate |].
    destruct (IH (step s e)) as (IH1 & IH2 & IH3).
    + apply wellFormed_step, Hwf.
    + rewrite Hp'. exact Hp.
    + rewrite IH1, IH2, IH3, Hpolls, Hatt. repeat split; reflexivity.
Qed.

(** A failure report that arrives after the job was reported completed. *)
Lemma late_reply_is_ignored :
  promise (runEvents (fst ExportScenarios.completedThenLate ++
                      snd ExportScenarios.completedThenLate) initialPoll) =
    Some (Fulfilled Scenario.deckUrl) /\
  polls (runEvents (fst ExportScenarios.completedThenLate ++
                    snd ExportScenarios.completedThenLate) initialPoll) =
    polls (runEvents (fst ExportScenarios.completedThenLate) initialPoll) /\
  attempts (runEvents (fst ExportScenarios.completedThenLate ++
                       snd ExportScenarios.completedThenLate) initialPoll) =
    attempts (runEvents (fst ExportScenarios.completedThenLate) initialPoll).
Proof.
  apply (first_settlement_is_final (fst ExportScenarios.completedThenLate)
           (snd ExportScenarios.completedThenLate) (Fulfilled Scenario.deckUrl)).
  reflexivity.
Defined.


Lemma inactive_step s e : intervalActive s = false -> intervalActive (step s e) = false.
Proof.
  intros Hoff. destruct e as [| reply]; simpl.
  - unfold onInterval. rewrite Hoff. exact Hoff.
  - destruct (onReply_cases s reply) as [-> | [o ->]]; [exact Hoff | reflexivity].
Qed.

Lemma inactive_runEvents events : forall s,
  intervalActive s = false -> intervalActive (runEvents events s) = false.
Proof.
  unfold runEvents. induction events as [| e events IH]; intros s Hoff; simpl; [exact Hoff |].
  apply IH, inactive_step, Hoff.
Qed.

(** While the timer is running, every firing so far has sent its poll. *)
Lemma active_counts events : forall s,
  intervalActive (runEvents events s) = true ->
  attempts (runEvents events s) = attempts s + timers events /\
  polls (runEvents events s) = polls s + timers events.
Proof.
  induction events as [| e events IH]; intros s Hact.
  - simpl. split; lia.
  - change (runEvents (e :: events) s) with (runEvents events (step s e)) in *.
    destruct (IH _ Hact) as [Hatt Hpolls]. rewrite Hatt, Hpolls.
    assert (intervalActive (step s e) = true) as Hstep.
    { destruct (intervalActive (step s e)) eqn:Hs; [reflexivity |].
      rewrite (inactive_runEvents events _ Hs) in Hact. discriminate. }
    destruct e as [| reply]; simpl in *.
    + unfold onInterval in *. destruct (intervalActive s) eqn:Hs0;
        [| simpl in Hstep; congruence].
      destruct (_ <? _); simpl in *; [discriminate | split; lia].
    + destruct (onReply_cases s reply) as [Hq | [o Hq]]; rewrite Hq in *;
        [split; lia | discriminate].
Qed.

(** The thirty-first firing of the timer finds the promise settled, or
    settles it. *)
Lemma timers_settle (events : list Event) :
  31 <= timers events -> promise (runEvents events initialPoll) <> None.
Proof.
  intros Hn.
  destruct (wellFormed_runEvents events initialPoll wellFormed_initial)
    as (_ & _ & _ & H4 & H5). unfold maxAttempts in *.
  destruct (intervalActive (runEvents events initialPoll)) eqn:Hact.
  - destruct (active_counts events initialPoll Hact) as [Hatt _].
    destruct (H4 eq_refl) as (_ & _ & Hle). simpl in Hatt. lia.
  - apply H5. reflexivity.
Qed.

(** X1: whatever the order in which timer firings and replies arrive, and
    whatever the replies are, the poll loop sends at most 30 status
    requests and counts at most 31 attempts; whenever the promise is
    settled the timer has been cleared; and the promise is settled once
    the timer has fired 31 times. *)
Theorem poll_loop_is_bounded (events : list Event) :
  polls (runEvents events initialPoll) <= 30 /\
  attempts (runEvents events initialPoll) <= 31 /\
  (promise (runEvents events initialPoll) <> None ->
   intervalActive (runEvents events initialPoll) = false) /\
  (31 <= timers events -> promise (runEvents events initialPoll) <> None).
Proof.
  destruct (wellFormed_runEvents events initialPoll wellFormed_initial)
    as (H1 & H2 & H3 & H4 & H5). unfold maxAttempts in *.
  split; [lia |]. split; [lia |]. split.
  - intros Hset. destruct (intervalActive _) eqn:Hact; [| reflexivity].
    destruct (H4 eq_refl) as [Hnone _]. contradiction.
  - apply timers_settle.
Qed.

Lemma timers_app (a b : list Event) : timers (a ++ b) = timers a + timers b.
Proof.
  induction a as [| [| reply] a IH]; simpl; [reflexivity | rewrite IH; reflexivity | exact IH].
Qed.

Lemma ticks_as_events `{Backend} (generationId : string) (n : nat) : forall s,
  ticks generationId n s = runEvents (periodEvents generationId n s) s /\
  timers (periodEvents generationId n s) = n.
Proof.
  induction n as [| n IH]; intros s; simpl; [split; reflexivity |].
  destruct (IH (tick generationId s)) as [Hrun Htimers]. rewrite Hrun. split.
  - unfold runEvents. rewrite fold_left_app. f_equal. unfold tick.
    destruct (onInterval s) as [s' sent] eqn:Hon. destruct sent; simpl; rewrite Hon; reflexivity.
  - rewrite timers_app, Htimers. destruct (snd (onInterval s)); reflexivity.
Qed.

Lemma generatePresentation_settles `{Backend} (markdownContent themeId : string)
    (imageStyle : option string) (periods : nat) :
  31 <= periods -> generatePresentation markdownContent themeId imageStyle periods <> None.
Proof.
  intros Hp. unfold generatePresentation.
  destruct (postGeneration _) as [e | r]; [discriminate |].
  destruct (negb (ok r)); [destruct (proxyActivationRequired r); discriminate |].
  destruct (resp_json r) as [responseData | e]; [| discriminate].
  unfold pollForPptxGeneration.
  destruct (ticks_as_events (start_generationId responseData) periods initialPoll)
    as [-> Htimers].
  apply timers_settle. lia.
Qed.

(** X3: when the replies arrive before the timer fires again, the promise
    of the poll loop is settled after 31 timer periods at the latest,
    whatever the backend answers, with at most 30 status requests sent; and
    so is the promise of generatePresentation. *)
Theorem export_settles_within_31_periods `{Backend} (markdownContent themeId : string)
    (imageStyle : option string) (generationId : string) (periods : nat) :
  31 <= periods ->
  promise (pollForPptxGeneration generationId periods) <> None /\
  polls (pollForPptxGeneration generationId periods) <= 30 /\
  generatePresentation markdownContent themeId imageStyle periods <> None.
Proof.
  intros Hp.
  assert (forall id, promise (pollForPptxGeneration id periods) <> None) as Hset.
  { intros id. unfold pollForPptxGeneration.
    destruct (ticks_as_events id periods initialPoll) as [-> Htimers].
    apply timers_settle. lia. }
  split; [apply Hset |]. split.
  - unfold pollForPptxGeneration.
    destruct (ticks_as_events generationId periods initialPoll) as [-> _].
    destruct (wellFormed_runEvents (periodEvents generationId periods initialPoll)
                initialPoll wellFormed_initial) as (_ & Hpolls & _).
    exact Hpolls.
  - apply generatePresentation_settles, Hp.
Qed.

(** The job that stays pending. *)
Lemma stuck_export_settles :
  promise (@pollForPptxGeneration Scenario.stuck "job-1" 31) <> None /\
  polls (@pollForPptxGeneration Scenario.stuck "job-1" 31) <= 30 /\
  @generatePresentation Scenario.stuck "# Resumo" "t1" None 31 <> None.
Proof.
  apply (@export_settles_within_31_periods Scenario.stuck "# Resumo" "t1" None "job-1" 31).
  lia.
Defined.


Lemma verdict_spec reply :
  match verdict reply with
  | None => forall s, onReply s reply = s
  | Some outcome => forall s, onReply s reply = settle outcome (clearInterval s)
  end.
Proof.
  unfold verdict, onReply, resolve, reject.
  destruct reply as [e | r]; simpl; [intros s; reflexivity |].
  destruct (negb (ok r)).
  - destruct (proxyActivationRequired r); simpl; intros s; reflexivity.
  - destruct (resp_json r) as [result | e]; [| simpl; intros s; reflexivity].
    destruct (_ && _); [simpl; intros s; reflexivity |].
    destruct (String.eqb _ _); simpl; intros s; reflexivity.
Qed.

Lemma ticks_quiet_prefix `{Backend} (generationId : string) (n : nat) : forall k,
  k + n <= maxAttempts ->
  (forall i, k <= i < k + n -> verdict (getGeneration generationId i) = None) ->
  ticks generationId n (quietState k) = quietState (k + n).
Proof.
  induction n as [| n IH]; intros k Hk Hq; simpl.
  - f_equal. lia.
  - rewrite tick_quiet.
    + rewrite (IH (S k)); [f_equal; lia | lia | intros i Hi; apply Hq; lia].
    + intros _. pose proof (verdict_spec (getGeneration generationId k)) as Hv.
      rewrite Hq in Hv by lia. apply Hv.
Qed.

(** X4: when the replies arrive in time and the reply to poll number [k]
    (counted from 0) is the first that does not leave the job pending, the promise
    is pending with one status request per period up to period [k], and
    from period [k + 1] on it is settled with the verdict of that reply,
    after exactly [k + 1] status requests and a single settlement. *)
Theorem stops_at_first_verdict `{Backend} (generationId : string) (k : nat)
    (outcome : Settled string) :
  k < 30 ->
  (forall i, i < k -> verdict (getGeneration generationId i) = None) ->
  verdict (getGeneration generationId k) = Some outcome ->
  (forall periods, periods <= k ->
     promise (pollForPptxGeneration generationId periods) = None /\
     polls (pollForPptxGeneration generationId periods) = periods) /\
  (forall periods, k < periods ->
     pollForPptxGeneration generationId periods =
       {| attempts := S k; intervalActive := false; promise := Some outcome;
          polls := S k; settleCalls := 1 |}).
Proof.
  intros Hk Hquiet Hverdict.
  assert (forall n, n <= k -> pollForPptxGeneration generationId n = quietState n) as Hrun.
  { intros n Hn. unfold pollForPptxGeneration. rewrite <- quietState_0.
    rewrite ticks_quiet_prefix; [reflexivity | unfold maxAttempts; lia |].
    intros i Hi. apply Hquiet. lia. }
  split.
  - intros periods Hp. rewrite Hrun by exact Hp.
    rewrite quietState_running by (unfold maxAttempts; lia). split; reflexivity.
  - intros periods Hp. replace periods with (k + (1 + (periods - S k))) by lia.
    unfold pollForPptxGeneration. rewrite ticks_add.
    fold (pollForPptxGeneration generationId k). rewrite Hrun by lia.
    rewrite ticks_add. simpl ticks at 2.
    assert (tick generationId (quietState k) =
              {| attempts := S k; intervalActive := false; promise := Some outcome;
                 polls := S k; settleCalls := 1 |}) as ->.
    { unfold tick. rewrite onInterval_quiet.
      destruct (Nat.ltb_spec k maxAttempts) as [_ | Hge]; [| unfold maxAttempts in Hge; lia].
      rewrite (quietState_running k) by (unfold maxAttempts; lia). simpl polls.
      pose proof (verdict_spec (getGeneration generationId k)) as Hv.
      rewrite Hverdict in Hv. rewrite Hv.
      rewrite quietState_running by (unfold maxAttempts; lia). reflexivity. }
    apply ticks_stopped. reflexivity.
Qed.

(** The job that is pending once and then reported failed. *)
Lemma failed_job_stops_polling :
  promise (@pollForPptxGeneration ExportScenarios.breaksDown "job-1" 1) = None /\
  @pollForPptxGeneration ExportScenarios.breaksDown "job-1" 7 =
    {| attempts := 2; intervalActive := false;
       promise := Some (Rejected (ExportFailed (Some "Quota exceeded")));
       polls := 2; settleCalls := 1 |}.
Proof.
  destruct (@stops_at_first_verdict ExportScenarios.breaksDown "job-1" 1
              (Rejected (ExportFailed (Some "Quota exceeded")))) as [Hearly Hdone].
  - lia.
  - intros i Hi. assert (i = 0) as -> by lia. reflexivity.
  - reflexivity.
  - split; [exact (proj1 (Hearly 1 ltac:(lia))) | exact (Hdone 7 ltac:(lia))].
Defined.

End ExportJobInvariants.

(* ================================================================== *)
(** ** Further properties of the catalog fetch *)
(* ================================================================== *)

Module CatalogMoreFacts.
Import Gamma Catalog CatalogMore.

Lemma themesLoop_failure `{Backend} (pages : list ThemesPage) :
  forall fuel n allThemes cursor e,
  answersMore n cursor pages ->
  failureOf (getThemes (n + length pages) (themesRequest (cursorAfter cursor pages))) = Some e ->
  length pages < fuel ->
  themesLoop fuel n allThemes cursor =
    (Threw e, requestsFor cursor pages ++ [themesRequest (cursorAfter cursor pages)]).
Proof.
  induction pages as [| page rest IH]; intros fuel n allThemes cursor e Hans Hfail Hfuel.
  - destruct fuel as [| fuel]; [simpl in Hfuel; lia |]. simpl in *.
    rewrite Nat.add_0_r in Hfail. unfold failureOf in Hfail.
    destruct (getThemes n (themesRequest cursor)) as [e' | r]; [congruence |].
    destruct (ok r); simpl.
    + destruct (resp_json r); [discriminate | congruence].
    + destruct (proxyActivationRequired r); congruence.
  - destruct fuel as [| fuel]; [simpl in Hfuel; lia |].
    destruct Hans as ((r & Hr & Hok & Hj) & Hmore & Hrest).
    simpl. rewrite Hr, Hok, Hj, Hmore. simpl.
    rewrite (IH fuel (S n) _ (nextCursor page) e); [reflexivity | exact Hrest | | simpl in *; lia].
    simpl in Hfail. replace (S n + length rest) with (n + S (length rest)) by lia. exact Hfail.
Qed.

(** X5: when the backend delivers a run of pages that each announce more
    and then fails the next request (the network fails, the response is an
    HTTP error, or its body is not JSON), listGammaThemes throws the error
    of that request: the themes gathered so far are not returned, and the
    failed request was the last one sent. *)
Theorem failed_page_aborts_catalog `{Backend} (pages : list ThemesPage) (e : Thrown) :
  answersMore 0 None pages ->
  failureOf (getThemes (length pages) (themesRequest (cursorAfter None pages))) = Some e ->
  forall fuel, length pages < fuel ->
    fst (listGammaThemes fuel) = Threw e /\
    length (snd (listGammaThemes fuel)) = S (length pages).
Proof.
  intros Hans Hfail fuel Hfuel. unfold listGammaThemes.
  rewrite (themesLoop_failure pages fuel 0 [] None e); try assumption.
  simpl. split; [reflexivity |].
  rewrite length_app, CatalogFacts.requestsFor_length. simpl. lia.
Qed.

(** The backend that fails on the second page. *)
Lemma second_page_fails :
  fst (@listGammaThemes ExportScenarios.breaksDown 5) =
    Threw (ThemesApiError 500 "Internal Server Error") /\
  length (snd (@listGammaThemes ExportScenarios.breaksDown 5)) = 2.
Proof.
  apply (@failed_page_aborts_catalog ExportScenarios.breaksDown [Scenario.firstPage]
           (ThemesApiError 500 "Internal Server Error")).
  - simpl. split; [| split; [reflexivity | exact I]].
    eexists. split; [reflexivity |]. split; reflexivity.
  - reflexivity.
  - simpl. lia.
Defined.

Lemma themesLoop_no_cursor `{Backend} (page : ThemesPage) :
  (forall n, delivers (getThemes n (themesRequest None)) page) ->
  hasMore page = true ->
  truthy (nextCursor page) = false ->
  forall fuel n allThemes cursor,
    truthy cursor = false ->
    themesLoop fuel n allThemes cursor = (Running, repeat (themesRequest None) fuel).
Proof.
  intros Hpage Hmore Hcursor.
  assert (forall c, truthy c = false -> themesRequest c = themesRequest None) as Hreq.
  { intros c Hc. unfold themesRequest. rewrite Hc. reflexivity. }
  induction fuel as [| fuel IH]; intros n allThemes cursor Hc; simpl; [reflexivity |].
  rewrite (Hreq cursor Hc).
  destruct (Hpage n) as (r & Hr & Hok & Hj). rewrite Hr, Hok, Hj, Hmore. simpl.
  rewrite (IH (S n) _ (nextCursor page) Hcursor). reflexivity.
Qed.

(** X6: when a page announces more themes and carries no cursor (or an
    empty one), the next request is sent without [after], that is, for the
    first page again; against a backend that answers by the request alone
    the loop then never returns, asking for the first page over and
    over. *)
Theorem missing_cursor_restarts_catalog `{Backend} (page : ThemesPage) :
  (forall n, delivers (getThemes n (themesRequest None)) page) ->
  hasMore page = true ->
  truthy (nextCursor page) = false ->
  forall fuel,
    listGammaThemes fuel = (Running, repeat (themesRequest None) fuel).
Proof.
  intros Hpage Hmore Hcursor fuel. unfold listGammaThemes.
  apply (themesLoop_no_cursor page); try assumption. reflexivity.
Qed.

(** The backend that announces more themes and gives no cursor. *)
Lemma cursorless_catalog_restarts :
  @listGammaThemes ExportScenarios.cursorless 4 =
    (Running, [ {| req_limit := 50; req_after := None |};
                {| req_limit := 50; req_after := None |};
                {| req_limit := 50; req_after := None |};
                {| req_limit := 50; req_after := None |} ]).
Proof.
  apply (@missing_cursor_restarts_catalog ExportScenarios.cursorless
           ExportScenarios.cursorlessPage).
  - intros n. eexists. split; [reflexivity |]. split; reflexivity.
  - reflexivity.
  - reflexivity.
Defined.

End CatalogMoreFacts.

(* ================================================================== *)
(** ** The list of uploaded files and their encoding *)
(* ================================================================== *)

Module FileListFacts.
Import FileHelper ExportPanel MoreJsString StringFacts.

Lemma filterByIndex_skip {A} (index : nat) (l : list A) : forall i,
  index < i -> filterByIndex (fun j => negb (j =? index)) i l = l.
Proof.
  induction l as [| x l IH]; intros i Hi; simpl; [reflexivity |].
  destruct (Nat.eqb_spec i index); [lia |]. simpl. f_equal. apply IH. lia.
Qed.

Lemma filterByIndex_remove {A} (l : list A) : forall i index,
  i <= index ->
  filterByIndex (fun j => negb (j =? index)) i l =
    take (index - i) l ++ drop (S (index - i)) l.
Proof.
  induction l as [| x l IH]; intros i index Hi; simpl.
  - destruct (index - i); reflexivity.
  - destruct (Nat.eqb_spec i index) as [-> | Hne]; simpl.
    + rewrite Nat.sub_diag. simpl. rewrite drop_0. apply filterByIndex_skip. lia.
    + replace (index - i) with (S (index - S i)) by lia. simpl. f_equal.
      apply IH. lia.
Qed.

(** X7: removeFile drops exactly the file at the index, keeping the
    others in order: the list is one shorter when the index is in range and
    unchanged when it is not; removing the file that handleFileChange
    has just appended gives the previous list back. *)
Theorem removeFile_removes_one (index : nat) (files : list File) :
  removeFile index files = take index files ++ drop (S index) files /\
  (index < length files -> length (removeFile index files) = length files - 1) /\
  (length files <= index -> removeFile index files = files) /\
  (forall added, removeFile (length files) (handleFileChange (Some [added]) files) = files).
Proof.
  assert (forall i l, removeFile i l = take i l ++ drop (S i) l) as Heq.
  { intros i l. unfold removeFile. rewrite filterByIndex_remove by lia.
    rewrite Nat.sub_0_r. reflexivity. }
  split; [apply Heq |]. split; [| split].
  - intros Hi. rewrite Heq, length_app, length_take, length_drop. lia.
  - intros Hi. rewrite Heq, take_ge, drop_ge by lia. apply app_nil_r.
  - intros added. rewrite Heq. simpl.
    rewrite take_app_length. rewrite drop_ge by (rewrite length_app; simpl; lia).
    apply app_nil_r.
Qed.

Lemma split_no_separator (c : ascii) (s : string) :
  hasChar c s = false -> split c s = [s].
Proof.
  induction s as [| d s IH]; simpl; [reflexivity |].
  intros Hc. apply orb_false_iff in Hc as [Hd Hs]. rewrite (IH Hs), Hd. reflexivity.
Qed.

Lemma split_first_separator (c : ascii) (a b : string) :
  hasChar c a = false ->
  split c (a +:+ String c b) = a :: split c b.
Proof.
  induction a as [| d a IH]; intros Ha.
  - rewrite append_nil_l. simpl. rewrite Ascii.eqb_refl.
    destruct (split c b) eqn:Hs; [| reflexivity].
    destruct b; simpl in Hs; [discriminate |]. destruct (split c b); [discriminate |].
    destruct (Ascii.eqb c a); discriminate.
  - simpl in Ha. apply orb_false_iff in Ha as [Hd Ha].
    rewrite append_cons. simpl. rewrite (IH Ha), Hd. reflexivity.
Qed.

(** X8: for a data URL made of a header, a comma and a payload without
    comma, fileToBase64 fulfils with the payload alone; for a result
    without any comma it fulfils with [undefined]. *)
Theorem fileToBase64_strips_header (file : File) (header payload : string) :
  hasChar ","%char header = false ->
  hasChar ","%char payload = false ->
  (readAsDataURL file = Loaded (Some (header +:+ "," +:+ payload)) ->
   fileToBase64 file = Some (readTime file, Fulfilled (Some payload))) /\
  (readAsDataURL file = Loaded (Some header) ->
   fileToBase64 file = Some (readTime file, Fulfilled None)).
Proof.
  intros Hh Hp. unfold fileToBase64. split; intros ->.
  - change ("," +:+ payload) with (String ","%char payload).
    rewrite split_first_separator by exact Hh.
    rewrite (split_no_separator _ payload Hp). reflexivity.
  - rewrite (split_no_separator _ header Hh). reflexivity.
Qed.

(** A text file read as a data URL. *)
Lemma note_payload :
  fileToBase64 UploadScenarios.note = Some (1, Fulfilled (Some "QUJD")).
Proof.
  apply (proj1 (fileToBase64_strips_header UploadScenarios.note
                  "data:text/plain;base64" "QUJD" eq_refl eq_refl)).
  reflexivity.
Defined.

End FileListFacts.

(* ================================================================== *)
(** ** Further properties of the draft handler *)
(* ================================================================== *)

Module SubmissionFacts.
Import FileHelper Gemini ReportGenerator SuggestionEngine Submission HandlerFacts.

Lemma promiseAll_fulfils {A} (ps : list (Promise A)) (values : list A) :
  Forall2 (fun p v => exists t, p = Some (t, Fulfilled v)) ps values ->
  promiseAll ps = Some (Fulfilled values).
Proof.
  intros Hall. unfold promiseAll.
  assert (firstRejection ps = None /\ fulfilledValues ps = Some values) as [-> ->];
    [| reflexivity].
  induction Hall as [| p v ps values [t ->] _ [IH1 IH2]]; [split; reflexivity |].
  simpl. rewrite IH1, IH2. split; reflexivity.
Qed.

Lemma files_normalise `{XLSX} (files : list File) (fileParts : list GeminiPart) :
  Forall2 normalisesTo files fileParts ->
  promiseAll (map fileToPart files) = Some (Fulfilled fileParts).
Proof.
  intros Hall. apply promiseAll_fulfils.
  induction Hall as [| file part files fileParts Hfile _ IH]; simpl; constructor; assumption.
Qed.

(** X10: when every file normalises and the draft call is rejected,
    whatever the reason, handleSubmitDraft shows the one generic message,
    keeps no draft, stops loading, and has sent the draft request only: no
    suggestion is asked for. *)
Theorem draft_failure_is_opaque `{XLSX} `{GenAI} `{Engine}
    (form : Form) (s : State) (fileParts : list GeminiPart) (e : Thrown) :
  Forall2 normalisesTo (knowledgeBaseFiles form) fileParts ->
  generateContent (draftRequest (selectedTheme form) (userPrompt form) fileParts
                     (useGoogleSearch form) (selectedTone form)) = Rejected e ->
  handleSubmitDraft form s =
    (setLoading None
       (setError (Some "Failed to generate report draft. Please check the console for details.")
          (resetResults s)),
     [draftRequest (selectedTheme form) (userPrompt form) fileParts
        (useGoogleSearch form) (selectedTone form)]).
Proof.
  intros Hfiles Hreply. unfold handleSubmitDraft.
  rewrite (files_normalise _ _ Hfiles).
  unfold generateReportDraft, callGenerateContent, call, bind, tryCatch, throw.
  rewrite Hreply. reflexivity.
Qed.

(** Two files that normalise, and a generation backend that is down. *)
Lemma backend_down_shows_generic_error :
  fst (@handleSubmitDraft Scenario.sheets UploadScenarios.down Scenario.v8
         (Scenario.form [Scenario.spreadsheet; UploadScenarios.note]) initialState) =
    {| loading := None;
       error := Some "Failed to generate report draft. Please check the console for details.";
       draftResult := None; editedDraft := Some EmptyString; sources := [];
       imagePrompt := EmptyString; imageStylePrompt := EmptyString;
       loadingSuggestions := false |} /\
  length (snd (@handleSubmitDraft Scenario.sheets UploadScenarios.down Scenario.v8
                 (Scenario.form [Scenario.spreadsheet; UploadScenarios.note])
                 initialState)) = 1.
Proof.
  rewrite (@draft_failure_is_opaque Scenario.sheets UploadScenarios.down Scenario.v8
             (Scenario.form [Scenario.spreadsheet; UploadScenarios.note]) initialState
             [ TextPart ("Conteúdo do arquivo Excel " +:+ DQ +:+ "dados.xlsx" +:+ DQ +:+ ":" +:+
                         LF +:+ LF +:+
                         "--- START OF SHEET: Plan1 ---" +:+ LF +:+ "canal,cliques" +:+ LF +:+
                         "search,120" +:+ LF +:+ "--- END OF SHEET: Plan1 ---" +:+ LF +:+ LF +:+
                         "--- START OF SHEET: Resumo ---" +:+ LF +:+ "total,120" +:+ LF +:+
                         "--- END OF SHEET: Resumo ---");
               InlineDataPart "text/plain" (Some "QUJD") ]
             (JsError "503 Service Unavailable")).
  - split; reflexivity.
  - constructor; [exists 2; vm_compute; reflexivity |].
    constructor; [exists 1; vm_compute; reflexivity | constructor].
  - reflexivity.
Defined.

(** X11: when every file normalises and the draft call succeeds, the
    handler sends three requests in order (draft, image prompt, image
    style); the draft request carries the prompt first and then one part per
    file in the order of the upload, whatever the order in which the files
    were read; afterwards the draft and the editable copy hold the text of
    the reply, the sources its grounding chunks (none when it has none),
    each suggestion field the result of its call, no error is shown and
    nothing is loading. *)
Theorem draft_success_keeps_upload_order `{XLSX} `{GenAI} `{Engine}
    (form : Form) (s : State) (fileParts : list GeminiPart)
    (response : GenerateContentResponse) :
  Forall2 normalisesTo (knowledgeBaseFiles form) fileParts ->
  generateContent (draftRequest (selectedTheme form) (userPrompt form) fileParts
                     (useGoogleSearch form) (selectedTone form)) = Fulfilled response ->
  let reportContent := default "undefined" (text response) in
  snd (handleSubmitDraft form s) =
    [ draftRequest (selectedTheme form) (userPrompt form) fileParts
        (useGoogleSearch form) (selectedTone form);
      promptSuggestionRequest reportContent;
      styleSuggestionRequest reportContent ] /\
  parts (draftRequest (selectedTheme form) (userPrompt form) fileParts
           (useGoogleSearch form) (selectedTone form)) =
    TextPart (fullUserPrompt (selectedTheme form) (userPrompt form)) :: fileParts /\
  fst (handleSubmitDraft form s) =
    {| loading := None; error := None;
       draftResult := text response; editedDraft := text response;
       sources := default [] (groundingChunks response);
       imagePrompt := suggestionOf (generateContent (promptSuggestionRequest reportContent));
       imageStylePrompt := suggestionOf (generateContent (styleSuggestionRequest reportContent));
       loadingSuggestions := false |}.
Proof.
  intros Hfiles Hreply reportContent. unfold handleSubmitDraft.
  rewrite (files_normalise _ _ Hfiles).
  unfold generateReportDraft, callGenerateContent, call, bind, tryCatch, ret.
  rewrite Hreply. simpl.
  rewrite (suggest_state (text response)). fold reportContent.
  split; [reflexivity |]. split; [reflexivity |].
  destruct (groundingChunks response); reflexivity.
Qed.

(** Two files that normalise, a draft, and one suggestion that fails. *)
Lemma draft_with_two_files :
  fst (@handleSubmitDraft Scenario.sheets Scenario.halfSuggesting Scenario.v8
         (Scenario.form [Scenario.spreadsheet; UploadScenarios.note]) initialState) =
    {| loading := None; error := None;
       draftResult := Some "# Resumo Estratégico";
       editedDraft := Some "# Resumo Estratégico";
       sources := [];
       imagePrompt := EmptyString;
       imageStylePrompt := "Minimalista, tons de azul";
       loadingSuggestions := false |} /\
  length (snd (@handleSubmitDraft Scenario.sheets Scenario.halfSuggesting Scenario.v8
                 (Scenario.form [Scenario.spreadsheet; UploadScenarios.note])
                 initialState)) = 3.
Proof.
  destruct (@draft_success_keeps_upload_order Scenario.sheets Scenario.halfSuggesting
              Scenario.v8
              (Scenario.form [Scenario.spreadsheet; UploadScenarios.note]) initialState
              [ TextPart ("Conteúdo do arquivo Excel " +:+ DQ +:+ "dados.xlsx" +:+ DQ +:+ ":" +:+
                          LF +:+ LF +:+
                          "--- START OF SHEET: Plan1 ---" +:+ LF +:+ "canal,cliques" +:+ LF +:+
                          "search,120" +:+ LF +:+ "--- END OF SHEET: Plan1 ---" +:+ LF +:+ LF +:+
                          "--- START OF SHEET: Resumo ---" +:+ LF +:+ "total,120" +:+ LF +:+
                          "--- END OF SHEET: Resumo ---");
                InlineDataPart "text/plain" (Some "QUJD") ]
              {| text := Some "# Resumo Estratégico"; groundingChunks := None |})
    as (Hsent & _ & Hstate).
  - constructor; [exists 2; vm_compute; reflexivity |].
    constructor; [exists 1; vm_compute; reflexivity | constructor].
  - reflexivity.
  - rewrite Hstate, Hsent. split; vm_compute; reflexivity.
Defined.

End SubmissionFacts.

Module ImagingFacts.
Import ReportGenerator Imaging MoreStringFacts.

Lemma firstImage_first (before after : list ResponsePart) (part : ResponsePart)
    (inlineData : InlineData) :
  Forall (fun p => part_inlineData p = None) before ->
  part_inlineData part = Some inlineData ->
  firstImage (before ++ part :: after) =
    Some ("data:image/png;base64," +:+ default "undefined" (inline_data inlineData)).
Proof.
  intros Hbefore Hpart. induction Hbefore as [| p before Hp _ IH]; simpl.
  - rewrite Hpart. reflexivity.
  - rewrite Hp. exact IH.
Qed.

Lemma firstImage_none (parts : list ResponsePart) :
  firstImage parts = None <-> Forall (fun p => part_inlineData p = None) parts.
Proof.
  induction parts as [| p parts IH]; simpl.
  - split; [constructor | reflexivity].
  - destruct (part_inlineData p) eqn:Hp.
    + split; [discriminate |]. intros Hall. inversion Hall; congruence.
    + rewrite IH. split; [intros Hall; constructor; assumption |].
      intros Hall. inversion Hall; assumption.
Qed.

Lemma firstImage_data_url (parts : list ResponsePart) (imageUrl : string) :
  firstImage parts = Some imageUrl -> startsWith imageUrl "data:image/png;base64," = true.
Proof.
  induction parts as [| p parts IH]; simpl; [discriminate |].
  destruct (part_inlineData p); [| exact IH].
  intros [= Hurl]. rewrite <- Hurl. apply startsWith_app.
Qed.

Lemma generateImageFromText_cases `{ImageModel} (prompt : string) :
  generateImageFromText prompt =
    ([imageRequest prompt],
     match generateImage (imageRequest prompt) with
     | Fulfilled response =>
         match partsOf response with
         | Fulfilled parts =>
             match firstImage parts with
             | Some imageUrl => Fulfilled imageUrl
             | None => Rejected ImageGenerationFailed
             end
         | Rejected _ => Rejected ImageGenerationFailed
         end
     | Rejected _ => Rejected ImageGenerationFailed
     end).
Proof.
  unfold generateImageFromText, call, bind, tryCatch, throw, ret.
  destruct (generateImage (imageRequest prompt)) as [response | e]; [| reflexivity].
  destruct (partsOf response) as [parts | e]; [| reflexivity].
  destruct (firstImage parts); reflexivity.
Qed.

Lemma generateImageFromText_outcome `{ImageModel} (prompt : string) :
  (exists imageUrl, snd (generateImageFromText prompt) = Fulfilled imageUrl /\
                    startsWith imageUrl "data:image/png;base64," = true) \/
  snd (generateImageFromText prompt) = Rejected ImageGenerationFailed.
Proof.
  rewrite generateImageFromText_cases. simpl.
  destruct (generateImage _) as [response | e0]; [| right; reflexivity].
  destruct (partsOf response) as [parts | e0]; [| right; reflexivity].
  destruct (firstImage parts) as [url |] eqn:Hfirst; [| right; reflexivity].
  left. exists url. split; [reflexivity | exact (firstImage_data_url parts url Hfirst)].
Qed.

(** X13: generateImageFromText sends one request, whose prompt is the given
    one followed by the no-text instruction; it fulfils with the data URL of
    the first part of the first candidate that has inline data, and only
    when there is such a part; whatever else happens (the call rejects, the
    candidate has no content, no part has inline data) it rejects with the
    same generic error. *)
Theorem image_is_first_inline_part `{ImageModel} (prompt : string) :
  fst (generateImageFromText prompt) = [imageRequest prompt] /\
  (forall e, snd (generateImageFromText prompt) = Rejected e -> e = ImageGenerationFailed) /\
  (forall before part after inlineData,
     generateImage (imageRequest prompt) =
       Fulfilled {| firstCandidate :=
                      Some {| content := Some (Some (before ++ part :: after)) |} |} ->
     Forall (fun p => part_inlineData p = None) before ->
     part_inlineData part = Some inlineData ->
     snd (generateImageFromText prompt) =
       Fulfilled ("data:image/png;base64," +:+ default "undefined" (inline_data inlineData))) /\
  (forall imageUrl, snd (generateImageFromText prompt) = Fulfilled imageUrl ->
     exists response parts,
       generateImage (imageRequest prompt) = Fulfilled response /\
       partsOf response = Fulfilled parts /\
       ~ Forall (fun p => part_inlineData p = None) parts).
Proof.
  rewrite generateImageFromText_cases. simpl.
  split; [reflexivity |]. split; [| split].
  - intros e. destruct (generateImage _) as [response | e0]; [| congruence].
    destruct (partsOf response) as [parts | e0]; [| congruence].
    destruct (firstImage parts); congruence.
  - intros before part after inlineData -> Hbefore Hpart. simpl.
    rewrite (firstImage_first before after part inlineData Hbefore Hpart). reflexivity.
  - intros imageUrl. destruct (generateImage _) as [response | e0]; [| discriminate].
    destruct (partsOf response) as [parts | e0] eqn:Hparts; [| discriminate].
    destruct (firstImage parts) as [url |] eqn:Hfirst; [| discriminate].
    intros _. exists response, parts. split; [reflexivity |]. split; [exact Hparts |].
    intros Hall. apply firstImage_none in Hall. congruence.
Qed.

(** A caption followed by two pictures: the first picture is returned. *)
Lemma first_picture_is_returned :
  snd (@generateImageFromText ImageScenarios.painter "Um farol ao amanhecer") =
    Fulfilled "data:image/png;base64,iVBORw0KGgo=".
Proof.
  destruct (@image_is_first_inline_part ImageScenarios.painter "Um farol ao amanhecer")
    as (_ & _ & Hfirst & _).
  apply (Hfirst [ImageScenarios.caption] (ImageScenarios.picture "iVBORw0KGgo=")
           [ImageScenarios.picture "R0lGODlh"]
           {| inline_mimeType := "image/png"; inline_data := Some "iVBORw0KGgo=" |}).
  - reflexivity.
  - repeat constructor.
  - reflexivity.
Defined.

(** X14: handleSubmitImageGeneration without a draft sends nothing and
    reports that a draft is needed; with a draft it sends exactly one
    request, for the prompt typed by the user or, when that is empty, for
    the default prompt that embeds the draft; afterwards nothing is loading,
    the draft is untouched, and there is either an image and no error or no
    image and the generic error of the service, so that the fallback message
    of the handler itself is never shown. *)
Theorem image_handler_outcome `{ImageModel} (s : ImagePanel) :
  (truthy (draftResult (panel s)) = false ->
   handleSubmitImageGeneration s =
     ({| panel := setError (Some "Gere um rascunho primeiro para criar uma imagem.") (panel s);
         generatedImage := generatedImage s |}, [])) /\
  (forall draft, draftResult (panel s) = Some draft -> draft <> EmptyString ->
     snd (handleSubmitImageGeneration s) =
       [imageRequest (if String.eqb (imagePrompt (panel s)) EmptyString
                      then defaultImagePrompt draft else imagePrompt (panel s))] /\
     loading (panel (fst (handleSubmitImageGeneration s))) = None /\
     draftResult (panel (fst (handleSubmitImageGeneration s))) = Some draft /\
     ((exists imageUrl,
         generatedImage (fst (handleSubmitImageGeneration s)) = Some imageUrl /\
         startsWith imageUrl "data:image/png;base64," = true /\
         error (panel (fst (handleSubmitImageGeneration s))) = None) \/
      (generatedImage (fst (handleSubmitImageGeneration s)) = None /\
       error (panel (fst (handleSubmitImageGeneration s))) =
         Some "Falha ao gerar imagem. Por favor, verifique o console para mais detalhes."))).
Proof.
  split.
  - intros Hno. unfold handleSubmitImageGeneration. rewrite Hno. reflexivity.
  - intros draft Hdraft Hne. unfold handleSubmitImageGeneration. rewrite Hdraft.
    assert (truthy (Some draft) = true) as ->.
    { destruct draft; [contradiction | reflexivity]. }
    cbv zeta. cbn [negb]. change (default EmptyString (Some draft)) with draft.
    assert (orElse (Some (imagePrompt (panel s))) (defaultImagePrompt draft) =
            if String.eqb (imagePrompt (panel s)) EmptyString
            then defaultImagePrompt draft else imagePrompt (panel s)) as ->.
    { destruct (imagePrompt (panel s)); reflexivity. }
    set (finalPrompt := if String.eqb (imagePrompt (panel s)) EmptyString
                        then defaultImagePrompt draft else imagePrompt (panel s)).
    pose proof (generateImageFromText_outcome finalPrompt) as Hout.
    pose proof (generateImageFromText_cases finalPrompt) as Hcases.
    destruct (generateImageFromText finalPrompt) as [calls result].
    injection Hcases as -> _. simpl in Hout.
    destruct Hout as [(url & -> & Hurl) | ->]; simpl.
    + split; [reflexivity |]. split; [reflexivity |]. split; [exact Hdraft |].
      left. exists url. split; [reflexivity |]. split; [exact Hurl | reflexivity].
    + split; [reflexivity |]. split; [reflexivity |]. split; [exact Hdraft |].
      right. split; reflexivity.
Qed.

(** A draft, no image prompt, and a candidate without content. *)
Lemma blocked_image_shows_service_error :
  snd (@handleSubmitImageGeneration ImageScenarios.blocked ImageScenarios.drafted) =
    [imageRequest (defaultImagePrompt "# Resumo")] /\
  generatedImage (fst (@handleSubmitImageGeneration ImageScenarios.blocked
                         ImageScenarios.drafted)) = None /\
  error (panel (fst (@handleSubmitImageGeneration ImageScenarios.blocked
                       ImageScenarios.drafted))) =
    Some "Falha ao gerar imagem. Por favor, verifique o console para mais detalhes.".
Proof.
  destruct (@image_handler_outcome ImageScenarios.blocked ImageScenarios.drafted)
    as [_ Hdraft].
  destruct (Hdraft "# Resumo" eq_refl ltac:(discriminate)) as (Hsent & _ & _ & Hout).
  split; [exact Hsent |].
  destruct Hout as [(imageUrl & Himage & _) | Herror]; [discriminate Himage | exact Herror].
Defined.

End ImagingFacts.

(* ================================================================== *)
(** ** The export panel *)
(* ================================================================== *)

Module ExportPanelFacts.

Import Gamma ExportPanel ExportJobInvariants.

Lemma truthy_Some (s : string) : truthy (Some s) = true <-> s <> EmptyString.
Proof.
  destruct s; simpl; split; intros Hs; try reflexivity; try discriminate; contradiction.
Qed.

(** X15: handleGeneratePptx does nothing without a draft or without a
    selected theme.  Otherwise it never touches the catalog or the
    selection; while it is loading it shows neither a link nor an error;
    once it is not loading it shows exactly one of the two; and it has
    stopped loading after 31 timer periods at the latest. *)
Theorem export_shows_link_or_error `{Backend} (draftResult : option string)
    (imageStylePrompt : string) (s : Panel) (periods : nat) :
  let s' := handleGeneratePptx draftResult imageStylePrompt s periods in
  (truthy draftResult = false \/ selectedGammaTheme s = EmptyString -> s' = s) /\
  (truthy draftResult = true -> selectedGammaTheme s <> EmptyString ->
     gammaThemes s' = gammaThemes s /\
     selectedGammaTheme s' = selectedGammaTheme s /\
     loadingThemes s' = loadingThemes s /\
     (isPptLoading s' = true -> pptxUrl s' = None /\ pptxError s' = None) /\
     (isPptLoading s' = false -> (pptxUrl s' = None <-> pptxError s' <> None)) /\
     (31 <= periods -> isPptLoading s' = false)).
Proof.
  intros s'. split.
  - intros Hguard. subst s'. unfold handleGeneratePptx.
    destruct Hguard as [-> | ->]; [reflexivity |].
    destruct (negb (truthy draftResult)); reflexivity.
  - intros Hdraft Htheme. subst s'. unfold handleGeneratePptx.
    rewrite Hdraft. apply truthy_Some in Htheme. rewrite Htheme. simpl.
    pose proof (generatePresentation_settles (default EmptyString draftResult)
                  (selectedGammaTheme s) (Some imageStylePrompt) periods) as Hsettles.
    destruct (generatePresentation _ _ _ _) as [[url | e] |]; simpl.
    + repeat (split; [reflexivity |]). split; [discriminate |].
      split; [| reflexivity]. intros _. split; [discriminate | intros Hno; contradiction].
    + repeat (split; [reflexivity |]). split; [discriminate |].
      split; [| reflexivity]. intros _. split; [discriminate | reflexivity].
    + repeat (split; [reflexivity |]). split; [intros _; split; reflexivity |].
      split; [discriminate |]. intros Hp. destruct (Hsettles Hp). reflexivity.
Qed.

(** The job that stays pending: loading for 30 periods, then the error. *)
Lemma stuck_export_stops_loading :
  isPptLoading (@handleGeneratePptx Scenario.stuck (Some "# Resumo") EmptyString
                  PanelScenarios.themeChosen 30) = true /\
  isPptLoading (@handleGeneratePptx Scenario.stuck (Some "# Resumo") EmptyString
                  PanelScenarios.themeChosen 31) = false /\
  pptxUrl (@handleGeneratePptx Scenario.stuck (Some "# Resumo") EmptyString
             PanelScenarios.themeChosen 31) = None.
Proof.
  destruct (@export_shows_link_or_error Scenario.stuck (Some "# Resumo") EmptyString
              PanelScenarios.themeChosen 31) as [_ Hrun].
  destruct (Hrun eq_refl ltac:(discriminate)) as (_ & _ & _ & _ & Hdone & Hstops).
  split; [vm_compute; reflexivity |]. split; [apply Hstops; lia |].
  apply (Hdone (Hstops ltac:(lia))). vm_compute. discriminate.
Defined.

Lemma SubmitApiError_plain (body : string) :
  isProxyAccessRequired (SubmitApiError body) = false.
Proof. reflexivity. Qed.

Lemma ThemesApiError_plain (status : Z) (body : string) :
  isProxyAccessRequired (ThemesApiError status body) = false.
Proof. reflexivity. Qed.

(** X16: when the backend refuses the submission of the export, or the
    first request of the catalog, with an HTTP error, the panel stops
    loading with an error and no link, a single request having been sent;
    the proxy-activation link is rendered in place of the plain message
    exactly when the response is a 403 whose body names the proxy demo
    page. *)
Theorem activation_link_iff_proxy_refusal `{Backend} (draft imageStylePrompt : string)
    (s : Panel) :
  draft <> EmptyString ->
  (forall periods r,
     selectedGammaTheme s <> EmptyString ->
     postGeneration (generationBody draft (selectedGammaTheme s) (Some imageStylePrompt)) =
       FetchResponse r ->
     ok r = false ->
     let s' := handleGeneratePptx (Some draft) imageStylePrompt s periods in
     isPptLoading s' = false /\ pptxUrl s' = None /\ pptxError s' <> None /\
     showsProxyLink s' = proxyActivationRequired r) /\
  (forall fuel r,
     gammaThemes s = [] ->
     getThemes 0 (themesRequest None) = FetchResponse r ->
     ok r = false ->
     let s' := fst (fetchThemes (Some draft) s (S fuel)) in
     snd (fetchThemes (Some draft) s (S fuel)) = [themesRequest None] /\
     loadingThemes s' = false /\ gammaThemes s' = [] /\ pptxError s' <> None /\
     showsProxyLink s' = proxyActivationRequired r).
Proof.
  intros Hdraft. apply truthy_Some in Hdraft. split.
  - intros periods r Htheme Hpost Hok s'. subst s'.
    unfold handleGeneratePptx. rewrite Hdraft. apply truthy_Some in Htheme. rewrite Htheme.
    simpl. unfold generatePresentation. rewrite Hpost, Hok. simpl.
    destruct (proxyActivationRequired r); simpl;
      (split; [reflexivity |]); (split; [reflexivity |]); (split; [discriminate |]);
      reflexivity.
  - intros fuel r Hthemes Hget Hok s'. subst s'.
    unfold fetchThemes. rewrite Hdraft, Hthemes. simpl.
    unfold listGammaThemes. simpl. rewrite Hget, Hok. simpl.
    destruct (proxyActivationRequired r); simpl;
      (split; [reflexivity |]); (split; [reflexivity |]); (split; [reflexivity |]);
      (split; [discriminate |]); reflexivity.
Qed.

(** The proxy before its activation, and a backend that is down. *)
Lemma locked_proxy_shows_link :
  showsProxyLink (@handleGeneratePptx Scenario.proxyLocked (Some "# Resumo") EmptyString
                    PanelScenarios.themeChosen 0) = true /\
  showsProxyLink (fst (@fetchThemes Scenario.proxyLocked (Some "# Resumo") initialPanel 1)) =
    true.
Proof.
  destruct (@activation_link_iff_proxy_refusal Scenario.proxyLocked "# Resumo" EmptyString
              PanelScenarios.themeChosen ltac:(discriminate)) as [Hexport _].
  destruct (@activation_link_iff_proxy_refusal Scenario.proxyLocked "# Resumo" EmptyString
              initialPanel ltac:(discriminate)) as [_ Hcatalog].
  split.
  - destruct (Hexport 0 _ ltac:(discriminate) eq_refl eq_refl) as (_ & _ & _ & ->).
    reflexivity.
  - destruct (Hcatalog 0 _ eq_refl eq_refl eq_refl) as (_ & _ & _ & _ & ->).
    reflexivity.
Defined.

(** X17: the effect that loads the catalog sends nothing before there is a
    draft.  Once a run of it has loaded a catalog that is not empty,
    running it again sends nothing and changes nothing; a catalog that came
    back empty is fetched again by every run. *)
Theorem catalog_is_fetched_once `{Backend} (draft : string) (s : Panel) (fuel : nat)
    (themes : list Theme) :
  draft <> EmptyString ->
  gammaThemes s = [] ->
  fst (listGammaThemes fuel) = Returned themes ->
  let s' := fst (fetchThemes (Some draft) s fuel) in
  gammaThemes s' = themes /\ loadingThemes s' = false /\ pptxError s' = None /\
  snd (fetchThemes (Some draft) s fuel) = snd (listGammaThemes fuel) /\
  fetchThemes None s fuel = (s, []) /\
  (themes <> [] -> forall fuel', fetchThemes (Some draft) s' fuel' = (s', [])) /\
  (themes = [] ->
     forall fuel', snd (fetchThemes (Some draft) s' fuel') = snd (listGammaThemes fuel')).
Proof.
  intros Hdraft Hthemes Hlist s'. apply truthy_Some in Hdraft. subst s'.
  unfold fetchThemes at 1 2 3 4. rewrite Hdraft, Hthemes. simpl.
  destruct (listGammaThemes fuel) as [run sent] eqn:Hrun. simpl in Hlist. subst run. simpl.
  repeat (split; [reflexivity |]). split.
  - intros Hne fuel'. unfold fetchThemes. rewrite Hdraft, Hthemes, Hrun. simpl.
    destruct themes; [contradiction | reflexivity].
  - intros -> fuel'. unfold fetchThemes. rewrite Hdraft, Hthemes, Hrun. simpl.
    destruct (listGammaThemes fuel') as [[themes' | e |] sent']; reflexivity.
Qed.

(** The catalog of two pages, loaded once. *)
Lemma two_pages_loaded_once :
  gammaThemes (fst (@fetchThemes Scenario.wellBehaved (Some "# Resumo") initialPanel 2)) =
    [ {| id := "t1"; name := "Oasis" |}; {| id := "t2"; name := "Night Sky" |};
      {| id := "t3"; name := "Chisel" |} ] /\
  snd (@fetchThemes Scenario.wellBehaved (Some "# Resumo")
         (fst (@fetchThemes Scenario.wellBehaved (Some "# Resumo") initialPanel 2)) 2) = [].
Proof.
  destruct (@catalog_is_fetched_once Scenario.wellBehaved "# Resumo" initialPanel 2
              [ {| id := "t1"; name := "Oasis" |}; {| id := "t2"; name := "Night Sky" |};
                {| id := "t3"; name := "Chisel" |} ]
              ltac:(discriminate) eq_refl eq_refl) as (Hthemes & _ & _ & _ & _ & Hagain & _).
  split; [exact Hthemes |].
  rewrite (Hagain ltac:(discriminate) 2). reflexivity.
Defined.

End ExportPanelFacts.

(* ================================================================== *)
(** ** The chat widget *)
(* ================================================================== *)

Module ChatWidgetFacts.

Import WhiteSpace ChatWidget ChatVocabulary.

Lemma last_snoc_message (base : list ChatMessage) (m : ChatMessage) :
  last (base ++ [m]) = Some m.
Proof. induction base as [| x [| y base] IH]; [reflexivity | reflexivity | exact IH]. Qed.

(** In a production build, once the model message is there, every chunk
    rewrites it in place. *)
Lemma stream_in_place `{React} (chunks : list (option string)) :
  build = Production ->
  forall (sofar : string) (modelMessageExists : bool) (base : list ChatMessage) (shown : string),
  stream chunks sofar modelMessageExists (base ++ [ {| role := model; text := shown |} ]) =
    Some (base ++ [ {| role := model;
                       text := match chunks with
                               | [] => shown
                               | _ => received sofar chunks
                               end |} ]).
Proof.
  intros Hbuild.
  induction chunks as [| chunk rest IH]; intros sofar flag base shown; [reflexivity |].
  simpl. unfold runUpdater, streamUpdate. rewrite Hbuild, last_snoc_message. simpl.
  rewrite removelast_last, IH. destruct rest; reflexivity.
Qed.

Lemma stream_reply `{React} (chunks : list (option string)) (prev : list ChatMessage)
    (sent : string) :
  build = Production ->
  stream chunks EmptyString false (prev ++ [ {| role := user; text := sent |} ]) =
    Some (prev ++ [ {| role := user; text := sent |} ] ++
          match chunks with
          | [] => []
          | _ => [ {| role := model; text := received EmptyString chunks |} ]
          end).
Proof.
  intros Hbuild. destruct chunks as [| chunk rest]; [reflexivity |].
  simpl. unfold runUpdater, streamUpdate. rewrite Hbuild, last_snoc_message. simpl.
  rewrite (stream_in_place rest Hbuild), <- app_assoc. destruct rest; reflexivity.
Qed.

(** In a development build the second run of the updater of the first
    chunk finds the flag set by the first run and returns the messages as
    they were; so does every run after it. *)
Lemma stream_lost `{React} (chunks : list (option string)) :
  build = Development ->
  forall (sofar : string) (modelMessageExists : bool) (prev : list ChatMessage) (sent : string),
  stream chunks sofar modelMessageExists (prev ++ [ {| role := user; text := sent |} ]) =
    Some (prev ++ [ {| role := user; text := sent |} ]).
Proof.
  intros Hbuild.
  induction chunks as [| chunk rest IH]; intros sofar flag prev sent; [reflexivity |].
  simpl. unfold runUpdater, streamUpdate. rewrite Hbuild, last_snoc_message. simpl.
  destruct flag; simpl; rewrite ?last_snoc_message; simpl; apply IH.
Qed.

(** X18: handleSendMessage sends nothing and changes nothing when the input
    is blank, a reply is being awaited or there is no chat session.
    Otherwise it sends the input once, no state update ever throws, the
    input is cleared and nothing is loading afterwards.  In a production
    build the conversation is then the previous one followed by the
    message of the user, then, if at least one chunk arrived, a single
    model message whose text is the concatenation of the chunks in order,
    then, if the stream failed, the apology.  In a development build,
    where strict mode runs every updater twice, the streamed text is never
    shown: the conversation is the previous one followed by the message of
    the user and, if the stream failed, the apology. *)
Theorem chat_reply_is_streamed `{React} `{Chat} (s : State) :
  (isBlank (input s) = true \/ loading s = true \/ chatReady s = false ->
   handleSendMessage s = (Some s, [])) /\
  (isBlank (input s) = false -> loading s = false -> chatReady s = true ->
   build = Production ->
   handleSendMessage s =
     (Some {| input := EmptyString;
              messages :=
                messages s ++ [ {| role := user; text := input s |} ] ++
                match chunks (sendMessageStream (input s)) with
                | [] => []
                | _ => [ {| role := model;
                            text := received EmptyString
                                      (chunks (sendMessageStream (input s))) |} ]
                end ++
                match failure (sendMessageStream (input s)) with
                | Some _ => [apology]
                | None => []
                end;
              loading := false;
              chatReady := true |},
      [input s])) /\
  (isBlank (input s) = false -> loading s = false -> chatReady s = true ->
   build = Development ->
   handleSendMessage s =
     (Some {| input := EmptyString;
              messages :=
                messages s ++ [ {| role := user; text := input s |} ] ++
                match failure (sendMessageStream (input s)) with
                | Some _ => [apology]
                | None => []
                end;
              loading := false;
              chatReady := true |},
      [input s])).
Proof.
  split; [| split].
  - intros Hguard. unfold handleSendMessage.
    destruct Hguard as [-> | [-> | ->]]; [reflexivity | |].
    + rewrite orb_true_r. reflexivity.
    + rewrite orb_true_r. reflexivity.
  - intros Hblank Hloading Hready Hbuild. unfold handleSendMessage.
    rewrite Hblank, Hloading, Hready. simpl. rewrite (stream_reply _ _ _ Hbuild).
    destruct (failure _); [| rewrite app_nil_r; reflexivity].
    rewrite <- !app_assoc. reflexivity.
  - intros Hblank Hloading Hready Hbuild. unfold handleSendMessage.
    rewrite Hblank, Hloading, Hready. simpl. rewrite (stream_lost _ Hbuild).
    destruct (failure _); [| reflexivity].
    rewrite <- app_assoc. reflexivity.
Qed.

(** Two chunks, then the stream breaks: what the production bundle and
    the development server show. *)
Lemma broken_stream_keeps_partial_reply :
  @handleSendMessage ChatScenarios.bundled ChatScenarios.breaking ChatScenarios.asking =
    (Some {| input := EmptyString;
             messages := [ initialMessage None;
                           {| role := user; text := "Oi" |};
                           {| role := model; text := "Olá, tudo bem?" |};
                           apology ];
             loading := false; chatReady := true |},
     ["Oi"]) /\
  @handleSendMessage ChatScenarios.served ChatScenarios.breaking ChatScenarios.asking =
    (Some {| input := EmptyString;
             messages := [ initialMessage None;
                           {| role := user; text := "Oi" |};
                           apology ];
             loading := false; chatReady := true |},
     ["Oi"]).
Proof.
  split.
  - rewrite (proj1 (proj2 (@chat_reply_is_streamed ChatScenarios.bundled
                             ChatScenarios.breaking ChatScenarios.asking))
               eq_refl eq_refl eq_refl eq_refl).
    reflexivity.
  - rewrite (proj2 (proj2 (@chat_reply_is_streamed ChatScenarios.served
                             ChatScenarios.breaking ChatScenarios.asking))
               eq_refl eq_refl eq_refl eq_refl).
    reflexivity.
Defined.

End ChatWidgetFacts.

(* ================================================================== *)
(** ** The name of the downloaded draft *)
(* ================================================================== *)

Module FileNamesFacts.

Import WhiteSpace ExportPanel FileNames StringFacts MoreStringFacts.

Lemma plain_spec (p : ascii) :
  plain p = true -> nat_of_ascii p < 128 /\ isWhiteSpace p = false.
Proof.
  unfold plain. intros Hp. apply andb_true_iff in Hp as [Hlt Hws].
  apply Nat.ltb_lt in Hlt. apply negb_true_iff in Hws. split; assumption.
Qed.

Lemma plain_isByte (p : ascii) (n : nat) : plain p = true -> 128 <= n -> isByte n p = false.
Proof.
  intros Hp Hn. apply plain_spec in Hp as [Hlt _]. unfold isByte.
  apply Nat.eqb_neq. lia.
Qed.

Lemma plain_below (p : ascii) : plain p = true -> (128 <=? nat_of_ascii p) = false.
Proof. intros Hp. apply plain_spec in Hp as [Hlt _]. apply Nat.leb_gt. exact Hlt. Qed.

Ltac plain_out p Hp :=
  rewrite ?(plain_isByte p 194 Hp), ?(plain_isByte p 160 Hp), ?(plain_isByte p 225 Hp),
          ?(plain_isByte p 154 Hp), ?(plain_isByte p 128 Hp), ?(plain_isByte p 226 Hp),
          ?(plain_isByte p 168 Hp), ?(plain_isByte p 169 Hp), ?(plain_isByte p 175 Hp),
          ?(plain_isByte p 129 Hp), ?(plain_isByte p 159 Hp), ?(plain_isByte p 227 Hp),
          ?(plain_isByte p 239 Hp), ?(plain_isByte p 187 Hp), ?(plain_isByte p 191 Hp),
          ?(plain_below p Hp) by lia;
  rewrite ?andb_false_r, ?andb_false_l, ?orb_false_r; cbn [andb orb].

(** No white space starts at a plain character. *)
Lemma plain_first (p : ascii) (rest : string) :
  plain p = true -> whiteSpaceAt (String p rest) = 0.
Proof.
  intros Hp. pose proof (plain_spec p Hp) as [_ Hws]. unfold whiteSpaceAt. rewrite Hws.
  destruct rest as [| d [| e rest]]; [reflexivity | |]; plain_out p Hp; reflexivity.
Qed.

(** A plain character in second place ends what the first one could open. *)
Lemma plain_second (c p : ascii) (rest : string) :
  isWhiteSpace c = false -> plain p = true -> whiteSpaceAt (String c (String p rest)) = 0.
Proof.
  intros Hc Hp. unfold whiteSpaceAt. rewrite Hc.
  destruct rest as [| e rest]; plain_out p Hp; reflexivity.
Qed.

Lemma plain_third (c d p : ascii) (rest : string) :
  whiteSpaceAt (String c (String d EmptyString)) = 0 -> plain p = true ->
  whiteSpaceAt (String c (String d (String p rest))) = 0.
Proof.
  unfold whiteSpaceAt. intros Hcd Hp.
  destruct (isWhiteSpace c); [discriminate |].
  destruct (isByte 194 c && isByte 160 d); [discriminate |].
  plain_out p Hp. reflexivity.
Qed.

Lemma whiteSpaceAt_one (c : ascii) (rest : string) :
  whiteSpaceAt (String c rest) = 0 -> isWhiteSpace c = false.
Proof. unfold whiteSpaceAt. destruct (isWhiteSpace c); [discriminate | reflexivity]. Qed.

Lemma whiteSpaceAt_two (c d : ascii) (rest : string) :
  whiteSpaceAt (String c (String d rest)) = 0 ->
  whiteSpaceAt (String c (String d EmptyString)) = 0.
Proof.
  unfold whiteSpaceAt. destruct (isWhiteSpace c); [discriminate |].
  destruct (isByte 194 c && isByte 160 d); [discriminate | reflexivity].
Qed.

Lemma whiteSpaceAt_three (c d e : ascii) (rest rest' : string) :
  whiteSpaceAt (String c (String d (String e rest))) =
  whiteSpaceAt (String c (String d (String e rest'))).
Proof. reflexivity. Qed.

Lemma underscore_plain : plain "_"%char = true.
Proof. reflexivity. Qed.

(** A character that opened no white space in the text opens none in the
    replaced text. *)
Lemma kept_character (c : ascii) (rest t : string) :
  opensPlain t ->
  whiteSpaceAt (String c rest) = 0 ->
  whiteSpaceAt (String c (replaceWhiteSpace 0 rest +:+ t)) = 0.
Proof.
  intros Ht Hc. pose proof (whiteSpaceAt_one c rest Hc) as Hone.
  destruct rest as [| d rest1].
  - simpl replaceWhiteSpace. rewrite append_nil_l.
    destruct t as [| p t']; [exact Hc | apply plain_second; assumption].
  - cbn [replaceWhiteSpace].
    destruct (whiteSpaceAt (String d rest1)) eqn:Hd.
    + rewrite append_cons. pose proof (whiteSpaceAt_two c d rest1 Hc) as Htwo.
      destruct rest1 as [| e rest2].
      * simpl replaceWhiteSpace. rewrite append_nil_l.
        destruct t as [| p t']; [exact Hc | apply plain_third; assumption].
      * cbn [replaceWhiteSpace].
        destruct (whiteSpaceAt (String e rest2)); rewrite append_cons.
        -- rewrite (whiteSpaceAt_three c d e _ rest2). exact Hc.
        -- apply plain_third; [exact Htwo | apply underscore_plain].
    + rewrite append_cons. apply plain_second; [exact Hone | apply underscore_plain].
Qed.

Lemma replaceWhiteSpace_clean (s : string) : forall (skip : nat) (t : string),
  opensPlain t -> hasWhiteSpace t = false ->
  hasWhiteSpace (replaceWhiteSpace skip s +:+ t) = false.
Proof.
  induction s as [| c rest IH]; intros skip t Ht Hclean; [exact Hclean |].
  cbn [replaceWhiteSpace]. destruct skip as [| k]; [| apply IH; assumption].
  destruct (whiteSpaceAt (String c rest)) eqn:Hc; rewrite append_cons; cbn [hasWhiteSpace].
  - rewrite (kept_character c rest t Ht Hc). apply IH; assumption.
  - rewrite (plain_first _ _ underscore_plain). apply IH; assumption.
Qed.

Lemma plain_clean (p : ascii) (rest : string) :
  plain p = true -> hasWhiteSpace rest = false -> hasWhiteSpace (String p rest) = false.
Proof. intros Hp Hrest. cbn [hasWhiteSpace]. rewrite (plain_first p rest Hp). exact Hrest. Qed.

(** X19: the name under which handleDownload saves the draft holds no
    white space at all, whatever the client and the theme are, be it ASCII
    or not (a no-break space, an ideographic space, a line separator); it
    opens with MARI_Rascunho_ and closes with the extension .md. *)
Theorem download_name_has_no_white_space (selectedClient selectedTheme : string) :
  hasWhiteSpace (downloadFileName selectedClient selectedTheme) = false /\
  startsWith (downloadFileName selectedClient selectedTheme) "MARI_Rascunho_" = true /\
  exists stem, downloadFileName selectedClient selectedTheme = stem +:+ ".md".
Proof.
  unfold downloadFileName.
  set (client := orElse (ReportGenerator.clientName selectedClient) "report").
  split; [| split].
  - assert (hasWhiteSpace (replaceWhiteSpace 0 selectedTheme +:+ ".md") = false) as Htheme.
    { apply replaceWhiteSpace_clean; reflexivity. }
    assert (hasWhiteSpace (replaceWhiteSpace 0 client +:+ "_" +:+
                           replaceWhiteSpace 0 selectedTheme +:+ ".md") = false) as Hclient.
    { apply replaceWhiteSpace_clean; [reflexivity |].
      apply plain_clean; [reflexivity | exact Htheme]. }
    repeat (rewrite append_cons; apply plain_clean; [reflexivity |]).
    rewrite append_nil_l. exact Hclient.
  - apply startsWith_app.
  - exists ("MARI_Rascunho_" +:+ replaceWhiteSpace 0 client +:+ "_" +:+
            replaceWhiteSpace 0 selectedTheme).
    rewrite !append_assoc. reflexivity.
Qed.

(** A client whose name holds spaces and a theme that holds a no-break
    space. *)
Example download_name_example :
  downloadFileName "globo" ("Plano" +:+ String "194"%char (String "160"%char "de Mídia")) =
    "MARI_Rascunho_Globo_/_G1_/_Gshow_Plano_de_Mídia.md" /\
  downloadFileName "outro" "Análise de Mercado" = "MARI_Rascunho_report_Análise_de_Mercado.md".
Proof. split; vm_compute; reflexivity. Qed.

End FileNamesFacts.

(* ================================================================== *)
(** ** From a file to a part of the request *)
(* ================================================================== *)

Module FileRoutingFacts.

Import FileHelper Gemini ReportGenerator FileNormalizer FileNormalizerFacts.
Import StringFacts MoreStringFacts.

Lemma extension_found (stem extension lowered : string) :
  toLowerCase extension = lowered ->
  endsWith (toLowerCase (stem +:+ extension)) lowered = true.
Proof. intros <-. rewrite toLowerCase_app. apply endsWith_app. Qed.

(** X9: a file whose name ends in .xlsx, in whatever case, is handled as a
    spreadsheet whatever type the browser declares for it.  When it is
    read and parsed and every sheet is serialised, its part of the request
    is a text part made of a header that quotes the name of the file as
    it was given, a blank line, and the sections of the sheets in order;
    when its reader fails, its promise rejects with the event of the
    reader. *)
Theorem spreadsheet_by_extension `{XLSX} (file : File) (stem extension : string) :
  name file = stem +:+ extension ->
  toLowerCase extension = ".xlsx" ->
  (forall data workbook csvs,
     readAsArrayBuffer file = Loaded (Some data) ->
     read data = Fulfilled workbook ->
     Forall2 (serialises workbook) (SheetNames workbook) csvs ->
     fileToPart file =
       Some (readTime file,
             Fulfilled
               (TextPart ("Conteúdo do arquivo Excel " +:+ DQ +:+ name file +:+ DQ +:+ ":" +:+
                          LF +:+ LF +:+
                          join blankLine (zip_with sheetSection (SheetNames workbook) csvs))))) /\
  (forall event,
     readAsArrayBuffer file = ReadFailed event ->
     fileToPart file = Some (readTime file, Rejected (NotAnError event))).
Proof.
  intros Hname Hext.
  assert (endsWith (toLowerCase (name file)) ".xlsx" = true) as Hends.
  { rewrite Hname. apply extension_found, Hext. }
  split.
  - intros data workbook csvs Hread Hparse Hcsv.
    unfold fileToPart. cbv zeta. rewrite Hends, orb_true_r.
    unfold convertExcelToText, excelToText. rewrite Hread, Hparse.
    rewrite (appendSheets_texts workbook _ csvs Hcsv), append_nil_l, trim_sheetTexts.
    rewrite sections_zip. reflexivity.
  - intros event Hread. unfold fileToPart. cbv zeta. rewrite Hends, orb_true_r.
    unfold convertExcelToText. rewrite Hread. reflexivity.
Qed.

(** A spreadsheet with an upper-case extension and a generic type. *)
Lemma upper_case_extension :
  @fileToPart Scenario.sheets UploadScenarios.shouting =
    Some (2, Fulfilled
      (TextPart ("Conteúdo do arquivo Excel " +:+ DQ +:+ "DADOS.XLSX" +:+ DQ +:+ ":" +:+
                 LF +:+ LF +:+
                 "--- START OF SHEET: Plan1 ---" +:+ LF +:+ "canal,cliques" +:+ LF +:+
                 "search,120" +:+ LF +:+ "--- END OF SHEET: Plan1 ---" +:+ LF +:+ LF +:+
                 "--- START OF SHEET: Resumo ---" +:+ LF +:+ "total,120" +:+ LF +:+
                 "--- END OF SHEET: Resumo ---"))).
Proof.
  destruct (@spreadsheet_by_extension Scenario.sheets UploadScenarios.shouting
              "DADOS" ".XLSX" eq_refl eq_refl) as [Hpart _].
  rewrite (Hpart [Byte.x50; Byte.x4b]
             {| SheetNames := ["Plan1"; "Resumo"];
                Sheets := list_to_map [ ("Plan1", "canal,cliques" +:+ LF +:+ "search,120");
                                        ("Resumo", "total,120") ] |}
             ["canal,cliques" +:+ LF +:+ "search,120"; "total,120"]).
  - vm_compute. reflexivity.
  - reflexivity.
  - reflexivity.
  - repeat constructor; vm_compute; reflexivity.
Defined.

End FileRoutingFacts.
